(** * Earthquake dashboard (alert/script.js): a shallow embedding

    The script is browser glue around three fetch-and-render operations
    ([fetchQuakesAndRender], [updateMajorHighlight], [updateStatistics]),
    a refresh orchestrator with two interval timers, and a block of
    top-level statements.  The embedding keeps the source's names.

    - JavaScript numbers are doubles.  A finite double is modelled by
      the rational it denotes, [Q], on which [<] and [>=] agree with the
      comparison of doubles; [NaN] and the two infinities are kept apart
      ([JsNum]).  The arithmetic of the scheduler rounds as binary64
      does ([roundDouble]): to the nearest double, ties to even, with
      overflow to an infinity.
    - Time values are integers (milliseconds since the epoch), [Z].
      [Date] follows ECMAScript: time clipping, the Gregorian calendar,
      local time through the offsets of the host's zone, [setDate],
      [toISOString].
    - [seenQuakes] is a [gset] of identifiers; a plain object used as a
      dictionary whose key order is observed is an association list.
    - A function body that can throw is a state transformer returning a
      completion; [try]/[catch] and rejected promises are written out.
    - An [async] function is run as one step per call: what it does before
      and after its [await]s touches only its own region of the page,
      apart from [seenQuakes] and the toasts, which each function reads
      and writes in one stretch without an [await] in between.
    - The elements looked up at lines 13-30 are taken to be on the page:
      every use of one is guarded ([if (el)], [el?.]) and the model takes
      the guarded branch.  Only [TopLevel], which is about the script's
      own statements, lets elements be missing.
    - HTML texts are kept as the data they are built from. *)

From Stdlib Require Import ZArith QArith Qround Qabs String Ascii List Lia Lqa.
From stdpp Require Import gmap strings list pretty.

Local Open Scope Z_scope.

(** ** Numbers *)

(** The result of [Number(x)] on a form-control value: [NaN], an
    infinity, or a finite number with its exact value. *)
Inductive JsNum : Type :=
  | NaN
  | PosInf
  | NegInf
  | Num (q : Q).

(** [isNaN(v)] *)
Definition isNaN (v : JsNum) : bool :=
  match v with NaN => true | _ => false end.

(** [v >= c] and [v < c] for a finite constant [c]; every comparison with
    [NaN] is false. *)
Definition js_ge (v : JsNum) (c : Q) : bool :=
  match v with
  | NaN | NegInf => false
  | PosInf => true
  | Num q => Qle_bool c q
  end.

Definition js_lt (v : JsNum) (c : Q) : bool :=
  match v with
  | NaN | PosInf => false
  | NegInf => true
  | Num q => negb (Qle_bool c q)
  end.

(** [a >= b] and [a > b] on finite numbers. *)
Definition Qge_bool (a b : Q) : bool := Qle_bool b a.
Definition Qgt_bool (a b : Q) : bool := negb (Qle_bool a b).

(** [Math.max(a, b)] on finite numbers. *)
Definition Qmax (a b : Q) : Q := if Qle_bool a b then b else a.

(** *** Rounding to a double *)

(** [2^e] *)
Definition Qpow2 (e : Z) : Q :=
  if 0 <=? e then inject_Z (2 ^ e) else 1 # Z.to_pos (2 ^ (- e)).

(** The integer part of the binary logarithm of a positive rational. *)
Definition Qlog2 (q : Q) : Z :=
  let k := Z.log2 (Qnum q) - Z.log2 (Zpos (Qden q)) in
  if Qle_bool (Qpow2 k) q then k else k - 1.

(** The nearest whole number, the even one of two that are equally
    near. *)
Definition roundHalfEven (q : Q) : Z :=
  let f := Qfloor q in
  match (q - inject_Z f ?= 1 # 2)%Q with
  | Lt => f
  | Gt => f + 1
  | Eq => if Z.even f then f else f + 1
  end.

(** The double nearest to a rational that is not negative: a whole
    multiple of [2^e] with at most 53 bits, where [e] is at least -1074;
    [None] is the overflow, from [2^1024] on. *)
Definition roundMagnitude (a : Q) : option Q :=
  if Qeq_bool a 0 then Some 0%Q
  else
    let e := Z.max (Qlog2 a - 52) (-1074) in
    let m := roundHalfEven (a / Qpow2 e) in
    let r := (inject_Z m * Qpow2 e)%Q in
    if Qle_bool (Qpow2 1024) r then None else Some (Qred r).

(** The double that an exact result is rounded to (the sign of a zero
    is left out). *)
Definition roundDouble (q : Q) : JsNum :=
  let q := Qred q in
  match roundMagnitude (Qabs q) with
  | Some r => Num (if Qle_bool 0 q then r else Qred (- r))
  | None => if Qle_bool 0 q then PosInf else NegInf
  end.

(** ** Time values and [Date] *)

Module JsDate.

Definition msPerDay : Z := 86400000.
Definition msPerHour : Z := 3600000.
Definition msPerMinute : Z := 60000.
Definition msPerSecond : Z := 1000.

(** A [Date] holds a time value of at most 8.64e15 ms in absolute value,
    or [NaN] (an invalid date), which is [None] here. *)
Definition maxTimeValue : Z := 8640000000000000.

Definition TimeClip (t : Z) : option Z :=
  if Z.abs t <=? maxTimeValue then Some t else None.

Definition Day (t : Z) : Z := t / msPerDay.
Definition TimeWithinDay (t : Z) : Z := t mod msPerDay.

(** The proleptic Gregorian calendar: day number (days since 1970-01-01)
    to (year, month 1..12, day of month 1..31) and back. *)
Definition civil_from_days (z0 : Z) : Z * Z * Z :=
  let z := z0 + 719468 in
  let era := z / 146097 in
  let doe := z - era * 146097 in
  let yoe := (doe - doe / 1460 + doe / 36524 - doe / 146096) / 365 in
  let y := yoe + era * 400 in
  let doy := doe - (365 * yoe + yoe / 4 - yoe / 100) in
  let mp := (5 * doy + 2) / 153 in
  let d := doy - (153 * mp + 2) / 5 + 1 in
  let m := if mp <? 10 then mp + 3 else mp - 9 in
  (if m <=? 2 then y + 1 else y, m, d).

Definition days_from_civil (c : Z * Z * Z) : Z :=
  let '(y0, m, d) := c in
  let y := if m <=? 2 then y0 - 1 else y0 in
  let era := y / 400 in
  let yoe := y - era * 400 in
  let doy := (153 * (if 2 <? m then m - 3 else m + 9) + 2) / 5 + d - 1 in
  let doe := yoe * 365 + yoe / 4 - yoe / 100 + doy in
  era * 146097 + doe - 719468.

Definition YearFromTime (t : Z) : Z :=
  let '(y, _, _) := civil_from_days (Day t) in y.

(** Months are 0..11 in ECMAScript. *)
Definition MonthFromTime (t : Z) : Z :=
  let '(_, m, _) := civil_from_days (Day t) in m - 1.

Definition DateFromTime (t : Z) : Z :=
  let '(_, _, d) := civil_from_days (Day t) in d.

Definition MakeDay (year month date : Z) : Z :=
  let ym := year + month / 12 in
  let mn := month mod 12 in
  days_from_civil (ym, mn + 1, 1) + date - 1.

Definition MakeDate (day time : Z) : Z := day * msPerDay + time.

(** The host's time zone: the offset of local time from UTC, in ms, at a
    UTC instant and at a local wall-clock reading. *)
Record TimeZone : Type := {
  tzaUtc : Z -> Z;
  tzaLocal : Z -> Z
}.

Definition fixedZone (off : Z) : TimeZone :=
  {| tzaUtc := fun _ => off; tzaLocal := fun _ => off |}.

(** Philippine Standard Time, UTC+8 all year. *)
Definition manila : TimeZone := fixedZone (8 * msPerHour).

Definition LocalTime (tz : TimeZone) (t : Z) : Z := t + tzaUtc tz t.
Definition UTC (tz : TimeZone) (t : Z) : Z := t - tzaLocal tz t.

(** [new Date(v)] for an integral [v]. *)
Definition newDate (v : Z) : option Z := TimeClip v.

(** [d.getDate()] *)
Definition getDate (tz : TimeZone) (t : Z) : Z := DateFromTime (LocalTime tz t).

(** [d.setDate(dt)]: the new time value of [d]. *)
Definition setDate (tz : TimeZone) (t dt : Z) : option Z :=
  let lt := LocalTime tz t in
  let newD := MakeDate (MakeDay (YearFromTime lt) (MonthFromTime lt) dt)
                       (TimeWithinDay lt) in
  TimeClip (UTC tz newD).

(** Decimal digits. *)
Definition digit (n : Z) : ascii := ascii_of_nat (48 + Z.to_nat (n mod 10)).

Definition pad2 (n : Z) : string :=
  String (digit (n / 10)) (String (digit n) EmptyString).

Definition pad3 (n : Z) : string := String (digit (n / 100)) (pad2 n).
Definition pad4 (n : Z) : string := String (digit (n / 1000)) (pad3 n).

Definition pad6 (n : Z) : string :=
  String (digit (n / 100000)) (String (digit (n / 10000)) (pad4 n)).

(** The year of an ISO string: four digits for 0..9999, otherwise a sign
    and six digits. *)
Definition isoYear (y : Z) : string :=
  if (0 <=? y) && (y <=? 9999) then pad4 y
  else String (if y <? 0 then "-"%char else "+"%char) (pad6 (Z.abs y)).

(** [YYYY-MM-DDTHH:mm:ss.sssZ] of a valid time value. *)
Definition isoOfTime (t : Z) : string :=
  let '(y, m, d) := civil_from_days (Day t) in
  let w := TimeWithinDay t in
  (isoYear y ++ String "-"%char (pad2 m ++ String "-"%char (pad2 d ++
   String "T"%char (pad2 (w / msPerHour) ++ String ":"%char
   (pad2 (w mod msPerHour / msPerMinute) ++ String ":"%char
   (pad2 (w mod msPerMinute / msPerSecond) ++ String "."%char
   (pad3 (w mod msPerSecond) ++ "Z")))))))%string.

(** [d.toISOString()]; [None] is the RangeError of an invalid date. *)
Definition toISOString (d : option Z) : option string :=
  match d with
  | Some t => Some (isoOfTime t)
  | None => None
  end.

(** [s.slice(0, 10)] *)
Definition slice_0_10 (s : string) : string := substring 0 10 s.

End JsDate.

(** [new Date(x)] for a number [x]: [NaN] and the infinities give an
    invalid date, a finite number is truncated towards zero and
    clipped. *)
Definition Qtrunc (q : Q) : Z :=
  if Qle_bool 0 q then Qfloor q else Qceiling q.

Definition newDateNum (x : JsNum) : option Z :=
  match x with
  | NaN | PosInf | NegInf => None
  | Num q => JsDate.TimeClip (Qtrunc q)
  end.

(** ** The feed *)

(** [feature.properties]; a field that is absent, [null] or [undefined]
    is [None]. *)
Record Props : Type := {
  p_mag : option Q;
  p_place : option string;
  p_time : option Z;
  p_url : option string
}.

(** [{}] *)
Definition emptyProps : Props :=
  {| p_mag := None; p_place := None; p_time := None; p_url := None |}.

(** One element of [data.features].  [f_geometry] is
    [f.geometry.coordinates] ([longitude, latitude, depth]) when both
    exist. *)
Record Feature : Type := {
  f_id : string;
  f_properties : option Props;
  f_geometry : option (list Q)
}.

(** What [res.json()] gives: a rejection, [null], or a value whose
    [features] field may be missing. *)
Inductive Body : Type :=
  | BadJson
  | JsonNull
  | Data (features : option (list Feature)).

(** What [fetch(url)] gives: a rejection or a response. *)
Inductive FetchOutcome : Type :=
  | NetworkFailure
  | Response (ok : bool) (body : Body).

Record BBox : Type := {
  minlatitude : Q;
  maxlatitude : Q;
  minlongitude : Q;
  maxlongitude : Q
}.

Definition PH_BBOX : BBox :=
  {| minlatitude := 4.5; maxlatitude := 21; minlongitude := 116;
     maxlongitude := 127 |}.

(** A query parameter's value: a string, or [String(n)] of a number. *)
Inductive ParamValue : Type :=
  | PStr (s : string)
  | PNum (q : Q).

(** The URL: its base and the [URLSearchParams] entries in order. *)
Record Url : Type := {
  base : string;
  params : list (string * ParamValue)
}.

(** [params.set(k, v)] *)
Fixpoint params_set (k : string) (v : ParamValue)
    (ps : list (string * ParamValue)) : list (string * ParamValue) :=
  match ps with
  | [] => [(k, v)]
  | (k', v') :: r =>
      if String.eqb k k' then (k, v) :: r else (k', v') :: params_set k v r
  end.

(** The argument object of [buildUSGSUrl] with its defaults. *)
Record UrlArgs : Type := {
  startTimeISO : option string;
  endTimeISO : option string;
  orderby : string;
  limit : Q;
  minmag : option Q;
  bbox : BBox
}.

(** A string is truthy when it is there and not empty. *)
Definition truthyStr (s : option string) : option string :=
  match s with
  | Some EmptyString => None
  | other => other
  end.

Definition buildUSGSUrl (a : UrlArgs) : Url :=
  let ps :=
    [ ("format", PStr "geojson");
      ("orderby", PStr (orderby a));
      ("limit", PNum (limit a));
      ("minlatitude", PNum (minlatitude (bbox a)));
      ("maxlatitude", PNum (maxlatitude (bbox a)));
      ("minlongitude", PNum (minlongitude (bbox a)));
      ("maxlongitude", PNum (maxlongitude (bbox a))) ]%string in
  let ps := match truthyStr (startTimeISO a) with
            | Some s => params_set "starttime" (PStr s) ps
            | None => ps
            end in
  let ps := match truthyStr (endTimeISO a) with
            | Some s => params_set "endtime" (PStr s) ps
            | None => ps
            end in
  let ps := match minmag a with
            | Some m => params_set "minmagnitude" (PNum m) ps
            | None => ps
            end in
  {| base := "https://earthquake.usgs.gov/fdsnws/event/1/query"; params := ps |}.

(** ** Helpers *)

Definition magClass (m : Q) : string :=
  if Qge_bool m 5 then "high"
  else if Qge_bool m 4 then "mid"
  else "low".

Definition magColor (m : Q) : string :=
  if Qge_bool m 6 then "#d32f2f"
  else if Qge_bool m 5 then "#ff5c5c"
  else if Qge_bool m 4 then "#ffb86b"
  else "#64ffda".

(** [m || 0] on a finite number. *)
Definition orZero (m : Q) : Q := if Qeq_bool m 0 then 0%Q else m.

(** [s || dflt] on a string field. *)
Definition orStr (s : option string) (dflt : string) : string :=
  match truthyStr s with Some x => x | None => dflt end.

(** [t || dflt] on a time field: absent and [0] are falsy. *)
Definition truthyTime (t : option Z) : option Z :=
  match t with
  | Some 0 => None
  | other => other
  end.

Definition orTime (t : option Z) (dflt : Z) : Z :=
  match truthyTime t with Some x => x | None => dflt end.

(** ** The page *)

(** One [showToast(msg, duration)] call.  [t_id] is the identifier of the
    event the message was built from (it is not part of the text). *)
Record Toast : Type := {
  t_title : string;
  t_id : string;
  t_mag : Q;
  t_place : option string;
  t_duration : Z
}.

(** A list card, with what its click handler does: [focusMap(lat, lon, 7)]
    when the event has coordinates. *)
Record Card : Type := {
  card_id : string;
  card_class : string;
  card_mag : Q;
  card_place : string;
  card_time : Z;
  card_focus : option (Q * Q)
}.

(** A circle marker of [quakeLayer]. *)
Record Marker : Type := {
  mk_lat : Q;
  mk_lon : Q;
  mk_depth : option Q;
  mk_radius : Q;
  mk_color : string
}.

(** The content of [quakeListEl]. *)
Inductive ListView : Type :=
  | ListInitial
  | ListLoading
  | ListNoQuakes
  | ListError
  | ListCards (cards : list Card).

(** The text of [lastUpdatedEl] and [mhUpdated]; the time stamp in the
    text is left out. *)
Inductive Label : Type :=
  | LabelInitial
  | LabelBlank
  | LabelUpdated
  | LabelChecked
  | LabelError.

(** The summary panel of the highlighted event. *)
Record MhPanel : Type := {
  mh_id : string;
  mh_mag : Q;
  mh_place : string;
  mh_depth : option Q;
  mh_time : Z;
  mh_url : string;
  mh_focus : option (Q * Q)
}.

(** The content of [mhContent]. *)
Inductive MhView : Type :=
  | MhInitial
  | MhChecking
  | MhNoMajor
  | MhUnable
  | MhShown (p : MhPanel).

(** A text of the statistics panel: a count, [M<mag>], or the dash. *)
Inductive StatText : Type :=
  | StatInitial
  | StatDash
  | StatCount (n : nat)
  | StatMag (q : Q).

(** The bar chart's labels, data and bar colours. *)
Record Chart : Type := {
  chart_labels : list string;
  chart_data : list nat;
  chart_colors : list string
}.

(** State read and written by all three operations. *)
Record Shared : Type := {
  seenQuakes : gset string;
  toasts : list Toast;
  requests : list Url;
  consoleErrors : list string
}.

(** The regions of [fetchQuakesAndRender]. *)
Record ListRegion : Type := {
  quakeList : ListView;
  lastUpdated : Label;
  quakeLayer : list Marker
}.

(** The regions of [updateMajorHighlight]. *)
Record MajorRegion : Type := {
  mhContent : MhView;
  mhUpdated : Label;
  majorMarkers : list Marker
}.

(** The regions of [updateStatistics]. *)
Record StatsRegion : Type := {
  statDailyCount : StatText;
  statWeeklyCount : StatText;
  statLargest24h : StatText;
  weekChart : option Chart
}.

Record Page : Type := {
  shared : Shared;
  listRegion : ListRegion;
  majorRegion : MajorRegion;
  statsRegion : StatsRegion
}.

Definition initialPage : Page :=
  {| shared := {| seenQuakes := ∅; toasts := []; requests := [];
                  consoleErrors := [] |};
     listRegion := {| quakeList := ListInitial; lastUpdated := LabelInitial;
                      quakeLayer := [] |};
     majorRegion := {| mhContent := MhInitial; mhUpdated := LabelInitial;
                       majorMarkers := [] |};
     statsRegion := {| statDailyCount := StatInitial;
                       statWeeklyCount := StatInitial;
                       statLargest24h := StatInitial; weekChart := None |} |}.

(** ** Completions *)

Inductive JsError : Type :=
  | Error (msg : string)
  | TypeError
  | RangeError
  | ReferenceError (name : string)
  | FetchRejected
  | SyntaxError.

Inductive Completion (A : Type) : Type :=
  | Normal (a : A)
  | Throw (e : JsError).

Arguments Normal {A} a.
Arguments Throw {A} e.

(** A computation over the page that may throw; what it wrote before the
    throw stays written. *)
Definition M (A : Type) : Type := Page -> Completion A * Page.

#[global] Instance M_ret : MRet M := fun A a s => (Normal a, s).

#[global] Instance M_bind : MBind M := fun A B f m s =>
  match m s with
  | (Normal a, s') => f a s'
  | (Throw e, s') => (Throw e, s')
  end.

Definition throw {A : Type} (e : JsError) : M A := fun s => (Throw e, s).

(** [try { body } catch (err) { handler(err) }] *)
Definition tryCatch (body : M unit) (handler : JsError -> M unit) : M unit :=
  fun s =>
    match body s with
    | (Normal a, s') => (Normal a, s')
    | (Throw e, s') => handler e s'
    end.

Definition modify (f : Page -> Page) : M unit := fun s => (Normal tt, f s).

Definition gets {A : Type} (f : Page -> A) : M A := fun s => (Normal (f s), s).

(** A value that is there, or the error thrown when it is not. *)
Definition orThrow {A : Type} (e : JsError) (o : option A) : M A :=
  match o with
  | Some a => mret a
  | None => throw e
  end.

(** [l.forEach(f)] *)
Fixpoint forEach {A : Type} (f : A -> M unit) (l : list A) : M unit :=
  match l with
  | [] => mret tt
  | x :: r => f x ;; forEach f r
  end.

(** Field updates. *)
Definition withShared (f : Shared -> Shared) (p : Page) : Page :=
  {| shared := f (shared p); listRegion := listRegion p;
     majorRegion := majorRegion p; statsRegion := statsRegion p |}.

Definition withList (f : ListRegion -> ListRegion) (p : Page) : Page :=
  {| shared := shared p; listRegion := f (listRegion p);
     majorRegion := majorRegion p; statsRegion := statsRegion p |}.

Definition withMajor (f : MajorRegion -> MajorRegion) (p : Page) : Page :=
  {| shared := shared p; listRegion := listRegion p;
     majorRegion := f (majorRegion p); statsRegion := statsRegion p |}.

Definition withStats (f : StatsRegion -> StatsRegion) (p : Page) : Page :=
  {| shared := shared p; listRegion := listRegion p;
     majorRegion := majorRegion p; statsRegion := f (statsRegion p) |}.

(** [seenQuakes.add(id)] *)
Definition seenAdd (i : string) : M unit :=
  modify (withShared (fun s =>
    {| seenQuakes := {[ i ]} ∪ seenQuakes s; toasts := toasts s;
       requests := requests s; consoleErrors := consoleErrors s |})).

(** [seenQuakes.has(id)] *)
Definition seenHas (i : string) : M bool :=
  gets (fun p => bool_decide (i ∈ seenQuakes (shared p))).

(** [showToast(msg, duration)] *)
Definition showToast (t : Toast) : M unit :=
  modify (withShared (fun s =>
    {| seenQuakes := seenQuakes s; toasts := toasts s ++ [t];
       requests := requests s; consoleErrors := consoleErrors s |})).

(** [console.error(label, err)] *)
Definition consoleError (label : string) : M unit :=
  modify (withShared (fun s =>
    {| seenQuakes := seenQuakes s; toasts := toasts s;
       requests := requests s; consoleErrors := consoleErrors s ++ [label] |})).

(** ** The environment of one call *)

(** [net] answers a request; [clock0] is the clock when the function is
    called and [clock1] the clock when its response has arrived;
    [timeRange] is [Number(timeRangeSel.value)], or [None] when there is
    no such element. *)
Record Env : Type := {
  net : Url -> FetchOutcome;
  clock0 : Z;
  clock1 : Z;
  tz : JsDate.TimeZone;
  timeRange : option JsNum
}.

(** [await fetch(url)] *)
Definition fetch (env : Env) (u : Url) : M (bool * Body) :=
  modify (withShared (fun s =>
    {| seenQuakes := seenQuakes s; toasts := toasts s;
       requests := requests s ++ [u]; consoleErrors := consoleErrors s |})) ;;
  match net env u with
  | NetworkFailure => throw FetchRejected
  | Response ok body => mret (ok, body)
  end.

(** [await res.json()] *)
Definition resJson (b : Body) : M Body :=
  match b with
  | BadJson => throw SyntaxError
  | parsed => mret parsed
  end.

(** The read of [data.features]: a TypeError on [null]. *)
Definition dataFeatures (b : Body) : M (option (list Feature)) :=
  match b with
  | Data fs => mret fs
  | JsonNull => throw TypeError
  | BadJson => throw SyntaxError
  end.

(** [!data.features || data.features.length === 0] *)
Definition noFeatures (fs : option (list Feature)) : bool :=
  match fs with
  | None | Some [] => true
  | Some (_ :: _) => false
  end.

(** ** USGS: fetch and render list and map *)

(** [coords[i]] *)
Definition coord (cs : list Q) (i : nat) : option Q := nth_error cs i.

(** [coords.length >= 2], with the two coordinates read as
    [(coords[1], coords[0])]. *)
Definition latLon (cs : list Q) : option (Q * Q) :=
  match cs with
  | lon :: lat :: _ => Some (lat, lon)
  | _ => None
  end.

Definition appendCard (c : Card) : M unit :=
  modify (withList (fun r =>
    {| quakeList := match quakeList r with
                    | ListCards cs => ListCards (cs ++ [c])
                    | _ => ListCards [c]
                    end;
       lastUpdated := lastUpdated r; quakeLayer := quakeLayer r |})).

Definition addLayer (m : Marker) : M unit :=
  modify (withList (fun r =>
    {| quakeList := quakeList r; lastUpdated := lastUpdated r;
       quakeLayer := quakeLayer r ++ [m] |})).

Definition setQuakeList (v : ListView) : M unit :=
  modify (withList (fun r =>
    {| quakeList := v; lastUpdated := lastUpdated r;
       quakeLayer := quakeLayer r |})).

Definition setLastUpdated (l : Label) : M unit :=
  modify (withList (fun r =>
    {| quakeList := quakeList r; lastUpdated := l;
       quakeLayer := quakeLayer r |})).

Definition clearLayers : M unit :=
  modify (withList (fun r =>
    {| quakeList := quakeList r; lastUpdated := lastUpdated r;
       quakeLayer := [] |})).

(** The magnitude a feature is rendered with (line 143). *)
Definition renderMag (props : Props) : Q :=
  match p_mag props with
  | None => 0%Q
  | Some m => m
  end.

(** The list card of a feature (lines 149-164). *)
Definition cardOf (now : Z) (f : Feature) : Card :=
  let props := default emptyProps (f_properties f) in
  let coords := default [] (f_geometry f) in
  let mag := renderMag props in
  {| card_id := f_id f;
     card_class := magClass mag;
     card_mag := mag;
     card_place := orStr (p_place props) "Unknown location";
     card_time := orTime (p_time props) now;
     card_focus := latLon coords |}.

(** The map marker of a feature, when it has coordinates (lines 167-182). *)
Definition markerOf (f : Feature) : option Marker :=
  let props := default emptyProps (f_properties f) in
  let coords := default [] (f_geometry f) in
  let mag := renderMag props in
  match latLon coords with
  | Some (lat, lon) =>
      Some {| mk_lat := lat; mk_lon := lon; mk_depth := coord coords 2;
              mk_radius := Qmax 4 (4 + orZero mag);
              mk_color := magColor (orZero mag) |}
  | None => None
  end.

(** The body of [data.features.forEach(f => ...)] (lines 140-191). *)
Definition renderFeature (now : Z) (f : Feature) : M unit :=
  let props := default emptyProps (f_properties f) in
  let mag := renderMag props in
  let time := orTime (p_time props) now in
  appendCard (cardOf now f) ;;
  match markerOf f with
  | Some m => addLayer m
  | None => mret tt
  end ;;
  seen ← seenHas (f_id f) ;
  if negb seen then
    seenAdd (f_id f) ;;
    if now - time <? 60 * 60 * 1000 then
      showToast {| t_title := "New Quake"; t_id := f_id f; t_mag := mag;
                   t_place := Some (orStr (p_place props) "Unknown location");
                   t_duration := 5000 |}
    else mret tt
  else mret tt.

(** [new Date(Date.now() - daysBack * 24 * 60 * 60 * 1000)] *)
Definition startOfRange (now : Z) (daysBack : JsNum) : option Z :=
  match daysBack with
  | NaN | PosInf | NegInf => None
  | Num d => newDateNum (Num (inject_Z now - d * 24 * 60 * 60 * 1000))
  end.

(** The request of [fetchQuakesAndRender] (lines 117-123); [None] when
    [toISOString] throws. *)
Definition quakesUrl (env : Env) : option Url :=
  let daysBack := default (Num 7) (timeRange env) in
  match JsDate.toISOString (startOfRange (clock0 env) daysBack) with
  | Some startISO =>
      Some (buildUSGSUrl
        {| startTimeISO := Some startISO; endTimeISO := None;
           orderby := "time"; limit := 500; minmag := None;
           bbox := PH_BBOX |})
  | None => None
  end.

Definition fetchQuakesAndRender (env : Env) : M unit :=
  url ← orThrow RangeError (quakesUrl env) ;
  setQuakeList ListLoading ;;
  tryCatch
    ('(ok, body) ← fetch env url ;
     if negb ok then throw (Error "Network response not ok")
     else
       data ← resJson body ;
       setLastUpdated LabelUpdated ;;
       setQuakeList (ListCards []) ;;
       clearLayers ;;
       features ← dataFeatures data ;
       if noFeatures features then setQuakeList ListNoQuakes
       else forEach (renderFeature (clock1 env)) (default [] features))
    (fun err =>
       consoleError "fetchQuakesAndRender error" ;;
       setLastUpdated LabelError ;;
       setQuakeList ListError).

(** ** Major highlight (M >= 5) *)

Definition setMhContent (v : MhView) : M unit :=
  modify (withMajor (fun r =>
    {| mhContent := v; mhUpdated := mhUpdated r;
       majorMarkers := majorMarkers r |})).

Definition setMhUpdated (l : Label) : M unit :=
  modify (withMajor (fun r =>
    {| mhContent := mhContent r; mhUpdated := l;
       majorMarkers := majorMarkers r |})).

(** [L.circleMarker(...).addTo(map)] of the dashed marker; its removal
    after 60 s is a timer of its own and is not modelled. *)
Definition addMajorMarker (m : Marker) : M unit :=
  modify (withMajor (fun r =>
    {| mhContent := mhContent r; mhUpdated := mhUpdated r;
       majorMarkers := majorMarkers r ++ [m] |})).

(** The two requests of [updateMajorHighlight] (lines 203-208): events
    of magnitude 5.0 and more since [days] days before [now], at most
    [lim] of them; [None] when [toISOString] throws. *)
Definition majorUrl (now : Z) (days : Z) (lim : Q) : option Url :=
  match JsDate.toISOString
          (JsDate.newDate (now - days * 24 * 60 * 60 * 1000)) with
  | Some startISO =>
      Some (buildUSGSUrl
        {| startTimeISO := Some startISO; endTimeISO := None;
           orderby := "time"; limit := lim; minmag := Some 5%Q;
           bbox := PH_BBOX |})
  | None => None
  end.

(** The panel of the highlighted feature (lines 229-255). *)
Definition panelOf (now : Z) (top : Feature) : MhPanel :=
  let p := default emptyProps (f_properties top) in
  let coords := default [] (f_geometry top) in
  {| mh_id := f_id top;
     mh_mag := default 0%Q (p_mag p);
     mh_place := orStr (p_place p) "Unknown place";
     mh_depth := coord coords 2;
     mh_time := orTime (p_time p) now;
     mh_url := orStr (p_url p) "#";
     mh_focus := latLon coords |}.

(** The dashed marker of the highlighted feature (lines 264-273). *)
Definition majorMarkerOf (top : Feature) : option Marker :=
  let p := default emptyProps (f_properties top) in
  let coords := default [] (f_geometry top) in
  let mag := default 0%Q (p_mag p) in
  match latLon coords with
  | Some (lat, lon) =>
      Some {| mk_lat := lat; mk_lon := lon; mk_depth := coord coords 2;
              mk_radius := 10 + orZero mag;
              mk_color := if Qge_bool mag 6 then "#ff6b6b" else "#ff8a65" |}
  | None => None
  end.

Definition updateMajorHighlight (env : Env) : M unit :=
  let now := clock0 env in
  url7 ← orThrow RangeError (majorUrl now 7 50) ;
  url30 ← orThrow RangeError (majorUrl now 30 200) ;
  setMhContent MhChecking ;;
  setMhUpdated LabelBlank ;;
  tryCatch
    ('(ok, body) ← fetch env url7 ;
     if negb ok then throw (Error "Network error")
     else
       data ← resJson body ;
       features ← dataFeatures data ;
       features ← (if noFeatures features then
                     '(_, body30) ← fetch env url30 ;
                     data30 ← resJson body30 ;
                     dataFeatures data30
                   else mret features) ;
       match features with
       | None | Some [] =>
           setMhContent MhNoMajor ;;
           setMhUpdated LabelChecked
       | Some (top :: _) =>
           setMhContent (MhShown (panelOf (clock1 env) top)) ;;
           setMhUpdated LabelUpdated ;;
           match majorMarkerOf top with
           | Some m => addMajorMarker m
           | None => mret tt
           end ;;
           seenAdd (f_id top)
       end)
    (fun err =>
       consoleError "updateMajorHighlight error" ;;
       setMhContent MhUnable ;;
       setMhUpdated LabelError).

(** ** Statistics (update and chart) *)

(** [largest24] *)
Record Largest : Type := {
  l_mag : Q;
  l_place : option string;
  l_time : option Z;
  l_id : string;
  l_url : option string
}.

(** [f.properties && f.properties.time], and its test against the
    cut-off (line 298). *)
Definition within24 (cutoff : Z) (f : Feature) : bool :=
  match f_properties f with
  | Some p =>
      match truthyTime (p_time p) with
      | Some t => cutoff <=? t
      | None => false
      end
  | None => false
  end.

(** One iteration of the scan for the largest magnitude (lines 304-310). *)
Definition largestStep (largest24 : option Largest) (f : Feature)
    : option Largest :=
  match f_properties f with
  | Some p =>
      match p_mag p with
      | None => largest24
      | Some mag =>
          let this := {| l_mag := mag; l_place := p_place p;
                         l_time := p_time p; l_id := f_id f;
                         l_url := p_url p |} in
          match largest24 with
          | None => Some this
          | Some l => if Qgt_bool mag (l_mag l) then Some this else largest24
          end
      end
  | None => largest24
  end.

Definition scanLargest (features24 : list Feature) : option Largest :=
  fold_left largestStep features24 None.

(** The plain object [buckets]: its own keys in insertion order. *)
Definition Buckets : Type := list (string * nat).

(** [key in buckets] *)
Fixpoint bucketHas (key : string) (b : Buckets) : bool :=
  match b with
  | [] => false
  | (k, _) :: r => String.eqb key k || bucketHas key r
  end.

(** [buckets[key] = v] *)
Fixpoint bucketSet (key : string) (v : nat) (b : Buckets) : Buckets :=
  match b with
  | [] => [(key, v)]
  | (k, c) :: r =>
      if String.eqb key k then (k, v) :: r else (k, c) :: bucketSet key v r
  end.

(** [buckets[key] += 1] for a key that is there. *)
Fixpoint bucketIncr (key : string) (b : Buckets) : Buckets :=
  match b with
  | [] => []
  | (k, c) :: r =>
      if String.eqb key k then (k, S c) :: r else (k, c) :: bucketIncr key r
  end.

(** [buckets[key]] for the chart. *)
Fixpoint bucketGet (key : string) (b : Buckets) : nat :=
  match b with
  | [] => 0%nat
  | (k, c) :: r => if String.eqb key k then c else bucketGet key r
  end.

(** [d.toISOString().slice(0, 10)] *)
Definition dayKey (d : option Z) : option string :=
  option_map JsDate.slice_0_10 (JsDate.toISOString d).

(** The key of the bucket [i] days back (lines 324-326). *)
Definition bucketKey (zone : JsDate.TimeZone) (now : Z) (i : Z) : option string :=
  dayKey (JsDate.setDate zone now (JsDate.getDate zone now - i)).

(** [for (let i = 6; i >= 0; i--) { ... buckets[key] = 0 }]; [None] when
    a [toISOString] throws. *)
Fixpoint initBuckets (zone : JsDate.TimeZone) (now : Z) (backs : list Z)
    (b : Buckets) : option Buckets :=
  match backs with
  | [] => Some b
  | i :: r =>
      match bucketKey zone now i with
      | Some key => initBuckets zone now r (bucketSet key 0%nat b)
      | None => None
      end
  end.

Definition sixToZero : list Z := [6; 5; 4; 3; 2; 1; 0].

(** The body of [features.forEach(f => ...)] (lines 329-335). *)
Definition countStep (b : Buckets) (f : Feature) : option Buckets :=
  match f_properties f with
  | Some p =>
      match truthyTime (p_time p) with
      | None => Some b
      | Some t =>
          match dayKey (JsDate.newDate t) with
          | Some key => Some (if bucketHas key b then bucketIncr key b else b)
          | None => None
          end
      end
  | None => Some b
  end.

Fixpoint countAll (features : list Feature) (b : Buckets) : option Buckets :=
  match features with
  | [] => Some b
  | f :: r =>
      match countStep b f with
      | Some b' => countAll r b'
      | None => None
      end
  end.

(** [Object.keys(buckets)] and [labels.map(l => buckets[l])] *)
Definition bucketLabels (b : Buckets) : list string := map fst b.

Definition bucketCounts (b : Buckets) : list nat :=
  map (fun l => bucketGet l b) (bucketLabels b).

Definition barColor (c : nat) : string :=
  if (0 <? c)%nat then "rgba(124,77,255,0.7)" else "rgba(255,255,255,0.04)".

Definition setStats (d w l : StatText) : M unit :=
  modify (withStats (fun r =>
    {| statDailyCount := d; statWeeklyCount := w; statLargest24h := l;
       weekChart := weekChart r |})).

(** A new chart on the first call, the same chart with its arrays
    replaced afterwards: the same three arrays either way. *)
Definition setChart (labels : list string) (counts : list nat) : M unit :=
  modify (withStats (fun r =>
    {| statDailyCount := statDailyCount r;
       statWeeklyCount := statWeeklyCount r;
       statLargest24h := statLargest24h r;
       weekChart := Some {| chart_labels := labels; chart_data := counts;
                            chart_colors := map barColor counts |} |})).

(** The request of [updateStatistics] (lines 288-290); [None] when
    [toISOString] throws. *)
Definition statsUrl (now : Z) : option Url :=
  match JsDate.toISOString
          (JsDate.newDate (now - 7 * 24 * 60 * 60 * 1000)) with
  | Some start7 =>
      Some (buildUSGSUrl
        {| startTimeISO := Some start7; endTimeISO := None;
           orderby := "time"; limit := 2000; minmag := None;
           bbox := PH_BBOX |})
  | None => None
  end.

Definition updateStatistics (env : Env) : M unit :=
  tryCatch
    (url ← orThrow RangeError (statsUrl (clock0 env)) ;
     '(ok, body) ← fetch env url ;
     if negb ok then throw (Error "Network error fetching stats")
     else
       data ← resJson body ;
       features ← dataFeatures data ;
       let features := default [] features in
       let past24Cutoff := clock1 env - 24 * 60 * 60 * 1000 in
       let features24 := filter (fun f => within24 past24Cutoff f = true) features in
       let dailyCount := length features24 in
       let weeklyCount := length features in
       let largest24 := scanLargest features24 in
       setStats (StatCount dailyCount) (StatCount weeklyCount)
                (match largest24 with
                 | Some l => StatMag (l_mag l)
                 | None => StatDash
                 end) ;;
       match largest24 with
       | Some l =>
           seen ← seenHas (l_id l) ;
           if Qge_bool (l_mag l) 5 && negb seen then
             showToast {| t_title := "Major (24h)"; t_id := l_id l;
                          t_mag := l_mag l; t_place := l_place l;
                          t_duration := 8000 |} ;;
             seenAdd (l_id l)
           else mret tt
       | None => mret tt
       end ;;
       buckets ← orThrow RangeError
         (initBuckets (tz env) (clock1 env) sixToZero []) ;
       buckets ← orThrow RangeError (countAll features buckets) ;
       let labels := bucketLabels buckets in
       let counts := bucketCounts buckets in
       setChart labels counts)
    (fun err =>
       consoleError "updateStatistics error" ;;
       setStats StatDash StatDash StatDash).

(** ** Full refresh (one cycle) *)

Inductive Op : Type :=
  | OpFetchQuakes
  | OpMajorHighlight
  | OpStatistics.

Definition runOp (op : Op) (env : Env) : M unit :=
  match op with
  | OpFetchQuakes => fetchQuakesAndRender env
  | OpMajorHighlight => updateMajorHighlight env
  | OpStatistics => updateStatistics env
  end.

(** The state of the promise an async call returned, once settled. *)
Inductive Settled : Type :=
  | Fulfilled
  | Rejected (e : JsError).

Definition settle (c : Completion unit) : Settled :=
  match c with
  | Normal _ => Fulfilled
  | Throw e => Rejected e
  end.

(** [Promise.all(ps)]: fulfilled when all are, rejected with a rejection
    of one of them otherwise. *)
Fixpoint promiseAll (ps : list Settled) : Settled :=
  match ps with
  | [] => Fulfilled
  | Fulfilled :: r => promiseAll r
  | Rejected e :: _ => Rejected e
  end.

(** The calls of one cycle, each with the environment it meets.  The
    parts of an operation that touch [seenQuakes] and the toasts run
    without an [await] in between, so a cycle acts on them as its
    operations do one after the other, in the order their responses
    arrive. *)
Fixpoint runOps (calls : list (Op * Env)) (p : Page) : list Settled * Page :=
  match calls with
  | [] => ([], p)
  | (op, env) :: r =>
      let '(c, p1) := runOp op env p in
      let '(ss, p2) := runOps r p1 in
      (settle c :: ss, p2)
  end.

Definition doFullRefresh (envF envM envS : Env) (p : Page) : Settled * Page :=
  let '(ss, p') := runOps [(OpFetchQuakes, envF); (OpMajorHighlight, envM);
                           (OpStatistics, envS)] p in
  (promiseAll ss, p').

(** ** Auto-refresh and countdown *)

(** Arithmetic on doubles: the exact result, rounded. *)

(** [a * b] *)
Definition jsMul (a b : JsNum) : JsNum :=
  match a, b with
  | NaN, _ | _, NaN => NaN
  | Num x, Num y => roundDouble (x * y)
  | Num x, PosInf | PosInf, Num x =>
      if Qeq_bool x 0 then NaN else if Qle_bool 0 x then PosInf else NegInf
  | Num x, NegInf | NegInf, Num x =>
      if Qeq_bool x 0 then NaN else if Qle_bool 0 x then NegInf else PosInf
  | PosInf, PosInf | NegInf, NegInf => PosInf
  | PosInf, NegInf | NegInf, PosInf => NegInf
  end.

(** [a - b] *)
Definition jsSub (a b : JsNum) : JsNum :=
  match a, b with
  | NaN, _ | _, NaN => NaN
  | Num x, Num y => roundDouble (x - y)
  | PosInf, PosInf | NegInf, NegInf => NaN
  | PosInf, _ | _, NegInf => PosInf
  | NegInf, _ | _, PosInf => NegInf
  end.

(** [a / c] for a constant [c] above zero. *)
Definition jsDiv (a : JsNum) (c : Q) : JsNum :=
  match a with
  | Num x => roundDouble (x / c)
  | other => other
  end.

(** [Math.max(a, b)] *)
Definition jsMax (a b : JsNum) : JsNum :=
  match a, b with
  | NaN, _ | _, NaN => NaN
  | PosInf, _ | _, PosInf => PosInf
  | NegInf, other | other, NegInf => other
  | Num x, Num y => Num (Qmax x y)
  end.

(** [Math.floor(a)] *)
Definition jsFloor (a : JsNum) : JsNum :=
  match a with
  | Num x => Num (inject_Z (Qfloor x))
  | other => other
  end.

(** [a <= c] *)
Definition js_le (a : JsNum) (c : Q) : bool :=
  match a with
  | Num x => Qle_bool x c
  | NegInf => true
  | NaN | PosInf => false
  end.

(** The text of [countdownEl]: what the page came with, [Paused], or
    [String(countdownRemaining)]. *)
Inductive CountdownText : Type :=
  | CountdownInitial
  | CountdownPaused
  | CountdownShows (v : JsNum).

(** The text of [toggleAutoBtn]. *)
Inductive ToggleText : Type :=
  | ToggleInitial
  | TogglePause
  | ToggleResume.

(** A running [setInterval(callback, delay)]. *)
Record Timer : Type := { delay : JsNum }.

(** The auto-refresh variables, the three controls they are tied to, and
    the number of [doFullRefresh()] calls made so far.  [refreshSeconds]
    is [Number(refreshSecondsInput.value)], or [None] when there is no
    such element. *)
Record Auto : Type := {
  autoInterval : JsNum;
  autoTimerId : option Timer;
  countdownTimerId : option Timer;
  countdownRemaining : JsNum;
  autoEnabled : bool;
  refreshSeconds : option JsNum;
  toggleText : ToggleText;
  countdownText : CountdownText;
  refreshCalls : nat
}.

(** Lines 56-60. *)
Definition initialAuto (input : option JsNum) : Auto :=
  let interval := jsMax (Num 5000) (jsMul (default (Num 30) input) (Num 1000)) in
  {| autoInterval := interval;
     autoTimerId := None;
     countdownTimerId := None;
     countdownRemaining := jsFloor (jsDiv interval 1000);
     autoEnabled := true;
     refreshSeconds := input;
     toggleText := ToggleInitial;
     countdownText := CountdownInitial;
     refreshCalls := 0 |}.

Definition stopAuto (a : Auto) : Auto :=
  {| autoInterval := autoInterval a;
     autoTimerId := None;
     countdownTimerId := None;
     countdownRemaining := countdownRemaining a;
     autoEnabled := autoEnabled a;
     refreshSeconds := refreshSeconds a;
     toggleText := toggleText a;
     countdownText := countdownText a;
     refreshCalls := refreshCalls a |}.

(** [(!isNaN(secs) && secs >= 5) ? secs : 30] *)
Definition validatedSecs (secs : JsNum) : JsNum :=
  if negb (isNaN secs) && js_ge secs 5 then secs else Num 30.

Definition toggleTextOf (enabled : bool) : ToggleText :=
  if enabled then TogglePause else ToggleResume.

Definition startAuto (a0 : Auto) : Auto :=
  let a := stopAuto a0 in
  let secs := default (Num 30) (refreshSeconds a) in
  let interval :=
    jsMax (Num 5000) (jsMul (jsFloor (validatedSecs secs)) (Num 1000)) in
  let remaining := jsFloor (jsDiv interval 1000) in
  if negb (autoEnabled a) then
    {| autoInterval := interval;
       autoTimerId := None;
       countdownTimerId := None;
       countdownRemaining := remaining;
       autoEnabled := autoEnabled a;
       refreshSeconds := refreshSeconds a;
       toggleText := toggleTextOf (autoEnabled a);
       countdownText := CountdownPaused;
       refreshCalls := refreshCalls a |}
  else
    {| autoInterval := interval;
       autoTimerId := Some {| delay := interval |};
       countdownTimerId := Some {| delay := Num 1000 |};
       countdownRemaining := remaining;
       autoEnabled := autoEnabled a;
       refreshSeconds := refreshSeconds a;
       toggleText := toggleTextOf (autoEnabled a);
       countdownText := CountdownShows remaining;
       refreshCalls := refreshCalls a |}.

(** The callback of the cycle timer (lines 424-428). *)
Definition cycleTick (a : Auto) : Auto :=
  {| autoInterval := autoInterval a;
     autoTimerId := autoTimerId a;
     countdownTimerId := countdownTimerId a;
     countdownRemaining := jsFloor (jsDiv (autoInterval a) 1000);
     autoEnabled := autoEnabled a;
     refreshSeconds := refreshSeconds a;
     toggleText := toggleText a;
     countdownText := countdownText a;
     refreshCalls := S (refreshCalls a) |}.

(** The callback of the one-second timer (lines 432-439). *)
Definition countdownTick (a : Auto) : Auto :=
  let r := jsSub (countdownRemaining a) (Num 1) in
  let r := if js_le r 0 then jsFloor (jsDiv (autoInterval a) 1000) else r in
  {| autoInterval := autoInterval a;
     autoTimerId := autoTimerId a;
     countdownTimerId := countdownTimerId a;
     countdownRemaining := r;
     autoEnabled := autoEnabled a;
     refreshSeconds := refreshSeconds a;
     toggleText := toggleText a;
     countdownText := CountdownShows r;
     refreshCalls := refreshCalls a |}.

(** The click handler of [toggleAutoBtn] (lines 454-458). *)
Definition onToggle (a : Auto) : Auto :=
  startAuto
    {| autoInterval := autoInterval a;
       autoTimerId := autoTimerId a;
       countdownTimerId := countdownTimerId a;
       countdownRemaining := countdownRemaining a;
       autoEnabled := negb (autoEnabled a);
       refreshSeconds := refreshSeconds a;
       toggleText := toggleTextOf (negb (autoEnabled a));
       countdownText := countdownText a;
       refreshCalls := refreshCalls a |}.

Definition setRefreshSeconds (v : option JsNum) (a : Auto) : Auto :=
  {| autoInterval := autoInterval a;
     autoTimerId := autoTimerId a;
     countdownTimerId := countdownTimerId a;
     countdownRemaining := countdownRemaining a;
     autoEnabled := autoEnabled a;
     refreshSeconds := v;
     toggleText := toggleText a;
     countdownText := countdownText a;
     refreshCalls := refreshCalls a |}.

(** The change handler of [refreshSecondsInput] (lines 460-467), run on a
    state whose input already holds the edited value. *)
Definition onIntervalChange (a : Auto) : Auto :=
  let v := default NaN (refreshSeconds a) in
  let a1 := if isNaN v || js_lt v 5
            then setRefreshSeconds (Some (Num 30)) a
            else a in
  startAuto a1.

(** The click handler of [refreshBtn] (lines 450-452). *)
Definition onManualRefresh (a : Auto) : Auto :=
  {| autoInterval := autoInterval a;
     autoTimerId := autoTimerId a;
     countdownTimerId := countdownTimerId a;
     countdownRemaining := countdownRemaining a;
     autoEnabled := autoEnabled a;
     refreshSeconds := refreshSeconds a;
     toggleText := toggleText a;
     countdownText := countdownText a;
     refreshCalls := S (refreshCalls a) |}.

(** What can happen to the scheduler.  A timer's callback runs only
    while the timer is set; an edit of the interval needs the input
    element. *)
Inductive Event : Type :=
  | InitDone
  | ToggleClick
  | IntervalEdit (v : JsNum)
  | RefreshClick
  | CycleTimerFires
  | CountdownTimerFires.

Definition handle (e : Event) (a : Auto) : Auto :=
  match e with
  | InitDone => startAuto a
  | ToggleClick => onToggle a
  | IntervalEdit v =>
      match refreshSeconds a with
      | Some _ => onIntervalChange (setRefreshSeconds (Some v) a)
      | None => a
      end
  | RefreshClick => onManualRefresh a
  | CycleTimerFires =>
      match autoTimerId a with
      | Some _ => cycleTick a
      | None => a
      end
  | CountdownTimerFires =>
      match countdownTimerId a with
      | Some _ => countdownTick a
      | None => a
      end
  end.

Definition runEvents (es : list Event) (a : Auto) : Auto :=
  fold_left (fun s e => handle e s) es a.

(** The whole application: the page and the scheduler. *)
Record App : Type := {
  page : Page;
  auto : Auto
}.

(** An operation of a cycle, run on the application. *)
Definition appRunOp (op : Op) (env : Env) (app : App) : Settled * App :=
  let '(c, p) := runOp op env (page app) in
  (settle c, {| page := p; auto := auto app |}).

(** ** The top level of the script *)

Module TopLevel.

(** A value, as far as a property access can tell: [null] (or
    [undefined]), or something with properties. *)
Inductive Value : Type :=
  | VNull
  | VObject.

(** What a top-level statement does that can be seen afterwards. *)
Inductive Effect : Type :=
  | ListenerAdded (target : string)
  | InitCalled
  | TableCleared
  | TableFilled
  | WeatherCalled
  | TestUSGSCalled.

#[global] Instance Effect_eq_dec : EqDecision Effect.
Proof. solve_decision. Defined.

(** Expressions, as far as bindings, [null] and the effects above are
    concerned.  [Host e] is a call into the host or a library that uses
    the value of [e] and gives an object; [Then a b] evaluates [a], then
    [b].  [GetContext e i] is [e.getContext('2d')] on the element with
    the id [i]; [LeafletMap l i] is [l.map(i, ...)]. *)
Inductive Expr : Type :=
  | Lit (v : Value)
  | Ref (x : string)
  | GetElementById (elementId : string)
  | Member (e : Expr)
  | MemberDo (e : Expr) (eff : Effect)
  | OptCall (e : Expr) (eff : Effect)
  | Cond (c a b : Expr)
  | Host (e : Expr)
  | Then (a b : Expr)
  | CallFn (f : string) (eff : Effect)
  | GetContext (e : Expr) (elementId : string)
  | LeafletMap (l : Expr) (elementId : string).

Inductive Stmt : Type :=
  | Lexical (x : string) (init : Expr)
  | ExprStmt (e : Expr)
  | IfStmt (test : Expr) (thenE elseE : Expr).

(** The global lexical environment: a declared name is in its temporal
    dead zone ([None]) until its declaration has been evaluated. *)
Record Realm : Type := {
  bindings : gmap string (option Value);
  effects : list Effect;
  completed : nat
}.

(** The host page: which element ids exist, which of the elements are
    canvases, whether Leaflet has been loaded (it defines the global
    [L]), and how the test [quakes.length === 0] would come out. *)
Record HostPage : Type := {
  hasElement : string -> bool;
  isCanvas : string -> bool;
  leaflet : bool;
  quakesEmpty : bool
}.

(** Names that are defined before the script runs. *)
Definition hostGlobals (h : HostPage) : list string :=
  ["document"; "Math"; "Number"; "Set"; "Date"; "console"]%string
  ++ (if leaflet h then ["L"%string] else []).

Definition lookupName (h : HostPage) (x : string) (r : Realm)
    : Completion Value :=
  match bindings r !! x with
  | Some (Some v) => Normal v
  | Some None => Throw (ReferenceError x)
  | None =>
      if existsb (String.eqb x) (hostGlobals h) then Normal VObject
      else Throw (ReferenceError x)
  end.

Definition addEffect (eff : Effect) (r : Realm) : Realm :=
  {| bindings := bindings r; effects := effects r ++ [eff];
     completed := completed r |}.

Fixpoint eval (h : HostPage) (e : Expr) (r : Realm) : Completion Value * Realm :=
  match e with
  | Lit v => (Normal v, r)
  | Ref x => (lookupName h x r, r)
  | GetElementById i =>
      (Normal (if hasElement h i then VObject else VNull), r)
  | Member e1 =>
      match eval h e1 r with
      | (Normal VObject, r1) => (Normal VObject, r1)
      | (Normal VNull, r1) => (Throw TypeError, r1)
      | (Throw err, r1) => (Throw err, r1)
      end
  | MemberDo e1 eff =>
      match eval h e1 r with
      | (Normal VObject, r1) => (Normal VObject, addEffect eff r1)
      | (Normal VNull, r1) => (Throw TypeError, r1)
      | (Throw err, r1) => (Throw err, r1)
      end
  | OptCall e1 eff =>
      match eval h e1 r with
      | (Normal VObject, r1) => (Normal VObject, addEffect eff r1)
      | (Normal VNull, r1) => (Normal VNull, r1)
      | (Throw err, r1) => (Throw err, r1)
      end
  | Cond c a b =>
      match eval h c r with
      | (Normal VObject, r1) => eval h a r1
      | (Normal VNull, r1) => eval h b r1
      | (Throw err, r1) => (Throw err, r1)
      end
  | Host e1 =>
      match eval h e1 r with
      | (Normal _, r1) => (Normal VObject, r1)
      | (Throw err, r1) => (Throw err, r1)
      end
  | Then a b =>
      match eval h a r with
      | (Normal _, r1) => eval h b r1
      | (Throw err, r1) => (Throw err, r1)
      end
  | CallFn f eff =>
      match lookupName h f r with
      | Normal _ => (Normal VObject, addEffect eff r)
      | Throw err => (Throw err, r)
      end
  | GetContext e1 i =>
      (* only a canvas has the method *)
      match eval h e1 r with
      | (Normal VObject, r1) =>
          if isCanvas h i then (Normal VObject, r1) else (Throw TypeError, r1)
      | (Normal VNull, r1) => (Throw TypeError, r1)
      | (Throw err, r1) => (Throw err, r1)
      end
  | LeafletMap l i =>
      (* Leaflet throws when the page has no element with the id *)
      match eval h l r with
      | (Normal _, r1) =>
          if hasElement h i then (Normal VObject, r1)
          else (Throw (Error "Map container not found."), r1)
      | (Throw err, r1) => (Throw err, r1)
      end
  end.

Definition initialize (x : string) (v : Value) (r : Realm) : Realm :=
  {| bindings := <[x := Some v]> (bindings r); effects := effects r;
     completed := completed r |}.

Definition exec (h : HostPage) (s : Stmt) (r : Realm) : Completion unit * Realm :=
  match s with
  | Lexical x init =>
      match eval h init r with
      | (Normal v, r1) => (Normal tt, initialize x v r1)
      | (Throw err, r1) => (Throw err, r1)
      end
  | ExprStmt e =>
      match eval h e r with
      | (Normal _, r1) => (Normal tt, r1)
      | (Throw err, r1) => (Throw err, r1)
      end
  | IfStmt test thenE elseE =>
      match eval h test r with
      | (Normal _, r1) =>
          match eval h (if quakesEmpty h then thenE else elseE) r1 with
          | (Normal _, r2) => (Normal tt, r2)
          | (Throw err, r2) => (Throw err, r2)
          end
      | (Throw err, r1) => (Throw err, r1)
      end
  end.

(** Statements run in order; the first that throws ends the script. *)
Fixpoint execAll (h : HostPage) (ss : list Stmt) (r : Realm) : Completion unit * Realm :=
  match ss with
  | [] => (Normal tt, r)
  | s :: rest =>
      match exec h s r with
      | (Normal _, r1) =>
          execAll h rest
            {| bindings := bindings r1; effects := effects r1;
               completed := S (completed r1) |}
      | (Throw err, r1) => (Throw err, r1)
      end
  end.

Definition declaredName (s : Stmt) : option string :=
  match s with
  | Lexical x _ => Some x
  | _ => None
  end.

(** Before the first statement runs, every [const] and [let] of the
    script is declared and uninitialised, and every function declaration
    is bound to its function. *)
Definition instantiate (functions : list string) (ss : list Stmt) : Realm :=
  let lexical := omap declaredName ss in
  {| bindings :=
       foldr (fun f m => <[f := Some VObject]> m)
             (foldr (fun x m => <[x := None]> m) ∅ lexical) functions;
     effects := [];
     completed := 0 |}.

Definition byId (x i : string) : Stmt := Lexical x (GetElementById i).

(** The function declarations of script.js. *)
Definition scriptFunctions : list string :=
  ["buildUSGSUrl"; "niceTime"; "magClass"; "magColor"; "showToast";
   "focusMap"; "fetchQuakesAndRender"; "updateMajorHighlight";
   "updateStatistics"; "doFullRefresh"; "stopAuto"; "startAuto";
   "testUSGS"; "loadWeather"]%string.

(** The top-level statements of script.js, in source order. *)
Definition scriptStatements : list Stmt :=
  [ (* 13-17 *)
    byId "quakeListEl" "quakeList";
    byId "lastUpdatedEl" "lastUpdated";
    byId "timeRangeSel" "timeRange";
    byId "refreshBtn" "refreshBtn";
    byId "toastContainer" "toastContainer";
    (* 19-20 *)
    byId "mhContent" "mhContent";
    byId "mhUpdated" "mhUpdated";
    (* 22-24 *)
    byId "refreshSecondsInput" "refreshSeconds";
    byId "toggleAutoBtn" "toggleAuto";
    byId "countdownEl" "countdown";
    (* 26-30 *)
    byId "statDailyCountEl" "statDailyCount";
    byId "statWeeklyCountEl" "statWeeklyCount";
    byId "statLargest24hEl" "statLargest24h";
    byId "weekChartCanvasEl" "weekChart";
    Lexical "weekChartCanvas"
      (Cond (Ref "weekChartCanvasEl")
            (GetContext (Ref "weekChartCanvasEl") "weekChart")
            (Lit VNull));
    (* 33 *)
    Lexical "PH_BBOX" (Lit VObject);
    (* 43-51 *)
    Lexical "map" (Host (LeafletMap (Ref "L") "map"));
    ExprStmt (Then (Ref "L") (Host (Ref "map")));
    Lexical "quakeLayer" (Then (Ref "L") (Host (Ref "map")));
    Lexical "seenQuakes" (Host (Ref "Set"));
    (* 56-60 *)
    Lexical "autoInterval"
      (Then (Ref "Math") (Then (Ref "Number")
         (Host (Ref "refreshSecondsInput"))));
    Lexical "autoTimerId" (Lit VNull);
    Lexical "countdownTimerId" (Lit VNull);
    Lexical "countdownRemaining" (Then (Ref "Math") (Host (Ref "autoInterval")));
    Lexical "autoEnabled" (Lit VObject);
    (* 65 *)
    Lexical "weekChart" (Lit VNull);
    (* 445-467 *)
    ExprStmt (OptCall (Ref "timeRangeSel") (ListenerAdded "timeRangeSel"));
    ExprStmt (OptCall (Ref "refreshBtn") (ListenerAdded "refreshBtn"));
    ExprStmt (OptCall (Ref "toggleAutoBtn") (ListenerAdded "toggleAutoBtn"));
    ExprStmt (OptCall (Ref "refreshSecondsInput")
                      (ListenerAdded "refreshSecondsInput"));
    (* 472-480 *)
    ExprStmt (CallFn "doFullRefresh" InitCalled);
    (* 482-483 *)
    byId "tableBody" "quake-table-body";
    ExprStmt (MemberDo (Ref "tableBody") TableCleared);
    (* 485-501 *)
    IfStmt (Member (Ref "quakes"))
           (MemberDo (Ref "tableBody") TableFilled)
           (MemberDo (Ref "quakes") TableFilled);
    (* 502-504 *)
    Lexical "quakes" (Member (Member (Ref "data")));
    (* 542 *)
    ExprStmt (CallFn "loadWeather" WeatherCalled);
    (* 547 *)
    ExprStmt (CallFn "testUSGS" TestUSGSCalled) ]%string.

Definition runScript (h : HostPage) : Completion unit * Realm :=
  execAll h scriptStatements (instantiate scriptFunctions scriptStatements).

End TopLevel.

(** ** Event bindings and the first load *)

(** [promise.catch(err => console.error(label, err))] once the promise
    has settled. *)
Definition catchLog (label : string) (s : Settled) (p : Page) : Page :=
  match s with
  | Fulfilled => p
  | Rejected _ => snd (consoleError label p)
  end.

(** The change handler of [timeRangeSel] (lines 445-448): the list and
    the statistics are refreshed, the major highlight is not.

    [fetchQuakesAndRender] can only throw on line 119, before its first
    [await]; its promise is then rejected when the call returns, and the
    [catch] callback runs as soon as the handler has returned.  By then
    [updateStatistics] has been called: when it cannot build its request
    it has ended, in its own [catch] block, before it returned;
    otherwise it waits for the answer and goes on after the callback.
    When both calls get as far as their requests, the answers are taken
    in the order of the calls. *)
Definition onTimeRangeChange (envF envS : Env) (p : Page) : Page :=
  let '(c1, p1) := fetchQuakesAndRender envF p in
  match c1, statsUrl (clock0 envS) with
  | Throw err, Some _ =>
      let p1' := catchLog EmptyString (Rejected err) p1 in
      let '(c2, p2) := updateStatistics envS p1' in
      catchLog EmptyString (settle c2) p2
  | _, _ =>
      let '(c2, p2) := updateStatistics envS p1 in
      catchLog EmptyString (settle c2) (catchLog EmptyString (settle c1) p2)
  end.

(** [init] (lines 472-480): one full refresh inside a [try], then
    [startAuto()].

    A full refresh is rejected only when [fetchQuakesAndRender] or
    [updateMajorHighlight] throws while it builds its request, before
    its first [await] and before it has touched the page.  The [catch]
    block of [init] then runs before any answer is handled: after a
    statistics refresh that could not build its request either (it has
    ended before it returned), before everything else. *)
Definition init (envF envM envS : Env) (app : App) : App :=
  let '(s, p) := doFullRefresh envF envM envS (page app) in
  let logged := catchLog "Initial refresh error" s in
  {| page :=
       match s, statsUrl (clock0 envS) with
       | Fulfilled, _ => p
       | Rejected _, Some _ =>
           snd (doFullRefresh envF envM envS (logged (page app)))
       | Rejected _, None =>
           snd (runOps [(OpFetchQuakes, envF); (OpMajorHighlight, envM)]
                       (logged (snd (updateStatistics envS (page app)))))
       end;
     auto := startAuto (auto app) |}.

(** ** The weather panel *)

Module Weather.

(** [data.current_weather]; a field that is missing prints as
    [undefined]. *)
Record CurrentWeather : Type := {
  temperature : option Q;
  windspeed : option Q;
  time : option string
}.

(** What [res.json()] gives. *)
Inductive Body : Type :=
  | BadJson
  | JsonNull
  | Data (current_weather : option CurrentWeather).

(** What [fetch(url)] gives. *)
Inductive Outcome : Type :=
  | NetworkFailure
  | Response (ok : bool) (status : Z) (body : Body).

(** The content of the element [weather-data]. *)
Inductive View : Type :=
  | Initial
  | Shown (cw : CurrentWeather)
  | Failed (err : JsError).

(** The element [weather-data], when the page has one, and the console. *)
Record WPage : Type := {
  weatherData : option View;
  logs : list string
}.

Definition log (line : string) (p : WPage) : WPage :=
  {| weatherData := weatherData p; logs := logs p ++ [line] |}.

(** [document.getElementById("weather-data").innerHTML = ...]: a
    TypeError when there is no such element. *)
Definition setWeather (v : View) (p : WPage) : Completion unit * WPage :=
  match weatherData p with
  | Some _ => (Normal tt, {| weatherData := Some v; logs := logs p |})
  | None => (Throw TypeError, p)
  end.

(** The [try] block of [loadWeather] (lines 520-534). *)
Definition loadWeatherBody (r : Outcome) (p : WPage) : Completion unit * WPage :=
  let p0 := log "Fetching weather from:" p in
  match r with
  | NetworkFailure => (Throw FetchRejected, p0)
  | Response false status _ =>
      (Throw (Error ("HTTP error " ++ pretty status)), p0)
  | Response true _ BadJson => (Throw SyntaxError, p0)
  | Response true _ JsonNull =>
      (Throw TypeError, log "Weather API response:" p0)
  | Response true _ (Data None) =>
      (Throw TypeError, log "Weather API response:" p0)
  | Response true _ (Data (Some cw)) =>
      setWeather (Shown cw) (log "Weather API response:" p0)
  end.

(** [loadWeather] (lines 515-540): the [catch] block writes to the same
    element again. *)
Definition loadWeather (r : Outcome) (p : WPage) : Settled * WPage :=
  match loadWeatherBody r p with
  | (Normal _, p1) => (Fulfilled, p1)
  | (Throw err, p1) =>
      match setWeather (Failed err) (log "Weather fetch failed:" p1) with
      | (Normal _, p2) => (Fulfilled, p2)
      | (Throw err2, p2) => (Rejected err2, p2)
      end
  end.

End Weather.

(** * Vocabulary of the statements *)

(** A relation between the page before and after that a computation
    keeps, whether it throws or not. *)
Definition preserves (R : Page -> Page -> Prop) {A : Type} (m : M A) : Prop :=
  forall p, R p (snd (m p)).

(** A computation that completes normally on every page. *)
Definition total {A : Type} (m : M A) : Prop :=
  forall p, exists a, fst (m p) = Normal a.

(** The identifiers the toasts of a list are about. *)
Definition toastIds (ts : list Toast) : list string := map t_id ts.

(** From [p] to [p']: the seen set only grew, toasts were only added,
    each added toast is about an identifier that was not in the seen set
    of [p] and is in the seen set of [p'], and no two added toasts are
    about the same identifier. *)
Definition toastStep (p p' : Page) : Prop :=
  seenQuakes (shared p) ⊆ seenQuakes (shared p') /\
  exists new,
    toasts (shared p') = toasts (shared p) ++ new /\
    NoDup (toastIds new) /\
    forall i, i ∈ toastIds new ->
      (i ∉ seenQuakes (shared p)) /\ (i ∈ seenQuakes (shared p')).

(** The clock reads a time from 1970 on that a [Date] can hold. *)
Definition saneClock (t : Z) : Prop := 0 <= t <= JsDate.maxTimeValue.

(** A request to the feed with the given query parameters. *)
Definition usgsQuery (ps : list (string * ParamValue)) : Url :=
  {| base := "https://earthquake.usgs.gov/fdsnws/event/1/query"; params := ps |}.

(** The query parameters of a request for the events of the Philippine
    bounding box since [start], newest first, at most [lim] of them, with
    an optional magnitude floor. *)
Definition queryParams (start : string) (lim : Q) (floor : option Q)
    : list (string * ParamValue) :=
  [ ("format", PStr "geojson"); ("orderby", PStr "time"); ("limit", PNum lim);
    ("minlatitude", PNum 4.5); ("maxlatitude", PNum 21);
    ("minlongitude", PNum 116); ("maxlongitude", PNum 127);
    ("starttime", PStr start) ]%string
  ++ match floor with
     | Some m => [("minmagnitude"%string, PNum m)]
     | None => []
     end.

(** Whether the 7-day answer is a parsed body without events. *)
Definition firstEmpty (r7 : FetchOutcome) : bool :=
  match r7 with
  | Response true (Data fs) => noFeatures fs
  | _ => false
  end.

(** The event [updateMajorHighlight] is to show, given the answers to its
    two requests: the first event of the 7-day answer, or else of the
    30-day answer.  [Some None] is the empty state, [None] an error. *)
Definition highlightOf (r7 r30 : FetchOutcome) : option (option Feature) :=
  match r7 with
  | Response true (Data (Some (top :: _))) => Some (Some top)
  | Response true (Data _) =>
      match r30 with
      | Response _ (Data (Some (top :: _))) => Some (Some top)
      | Response _ (Data _) => Some None
      | _ => None
      end
  | _ => None
  end.

(** ** Sample data *)

(** 2025-10-02T12:00:00Z *)
Definition sampleNow : Z := 1759406400000.

Definition sampleEvent (i : string) (m : option Q) (t : Z) : Feature :=
  {| f_id := i;
     f_properties := Some {| p_mag := m; p_place := Some "Mindanao"%string;
                             p_time := Some t; p_url := None |};
     f_geometry := Some [126%Q; 7%Q; 35%Q] |}.

(** A feed that has no major event of the last 7 days (the request capped
    at 50) and answers every other request with the same three events. *)
Definition sampleFeed (u : Url) : FetchOutcome :=
  match params u with
  | _ :: _ :: (_, PNum l) :: _ =>
      if Qeq_bool l 50 then Response true (Data (Some []))
      else Response true (Data (Some
             [ sampleEvent "us7000a" (Some 6.2%Q) (sampleNow - 1000);
               sampleEvent "us7000b" (Some 4.9%Q) (sampleNow - 2000);
               sampleEvent "us7000c" None (sampleNow - 3 * 86400000) ]))
  | _ => NetworkFailure
  end.

Definition sampleEnv : Env :=
  {| net := sampleFeed; clock0 := sampleNow; clock1 := sampleNow + 400;
     tz := JsDate.manila; timeRange := Some (Num 7) |}.

(** A page on which one event has been seen already. *)
Definition samplePageSeen : Page :=
  withShared (fun s =>
    {| seenQuakes := {[ "us7000a"%string ]}; toasts := toasts s;
       requests := requests s; consoleErrors := consoleErrors s |})
    initialPage.

(** ** Vocabulary of the refresh cycle *)

(** The time-range selector is missing or holds a number of days between
    0 and 100 years, as its options (1, 7, 30) do. *)
Definition saneRange (v : option JsNum) : Prop :=
  match v with
  | None => True
  | Some (Num d) => (0 <= d)%Q /\ (d <= 36500)%Q
  | Some _ => False
  end.

Definition saneEnv (env : Env) : Prop :=
  saneClock (clock0 env) /\ saneRange (timeRange env).

(** What the lines of an operation that stand outside its [try] need in
    order not to throw: [fetchQuakesAndRender] renders the start of the
    selected range, [updateMajorHighlight] the starts of its two windows,
    and [updateStatistics] has no such line. *)
Definition opReady (op : Op) (env : Env) : Prop :=
  match op with
  | OpFetchQuakes => saneEnv env
  | OpMajorHighlight => saneClock (clock0 env)
  | OpStatistics => True
  end.

(** The regions an operation does not own are as they were. *)
Definition untouched (op : Op) (p p' : Page) : Prop :=
  match op with
  | OpFetchQuakes =>
      majorRegion p' = majorRegion p /\ statsRegion p' = statsRegion p
  | OpMajorHighlight =>
      listRegion p' = listRegion p /\ statsRegion p' = statsRegion p
  | OpStatistics =>
      listRegion p' = listRegion p /\ majorRegion p' = majorRegion p
  end.

(** The first request of an operation. *)
Definition requestOf (op : Op) (env : Env) : option Url :=
  match op with
  | OpFetchQuakes => quakesUrl env
  | OpMajorHighlight => majorUrl (clock0 env) 7 50
  | OpStatistics => statsUrl (clock0 env)
  end.

(** A request that did not bring a parsed body with a [features] field:
    the network failed, the status was not a success, or the body was
    not JSON or was [null]. *)
Definition failed (r : FetchOutcome) : bool :=
  match r with
  | Response true (Data _) => false
  | _ => true
  end.

Definition requestFailed (op : Op) (env : Env) : bool :=
  match requestOf op env with
  | Some u => failed (net env u)
  | None => false
  end.

(** The error state of an operation's own region. *)
Definition errorShown (op : Op) (p : Page) : Prop :=
  match op with
  | OpFetchQuakes =>
      quakeList (listRegion p) = ListError /\
      lastUpdated (listRegion p) = LabelError
  | OpMajorHighlight =>
      mhContent (majorRegion p) = MhUnable /\
      mhUpdated (majorRegion p) = LabelError
  | OpStatistics =>
      statDailyCount (statsRegion p) = StatDash /\
      statWeeklyCount (statsRegion p) = StatDash /\
      statLargest24h (statsRegion p) = StatDash
  end.

(** The magnitude field of a feature is [null] or [undefined] (also when
    there is no [properties] object to hold it). *)
Definition noMagnitude (f : Feature) : Prop :=
  match f_properties f with
  | Some props => p_mag props = None
  | None => True
  end.

(** ** Vocabulary of the calendar *)

(** The ten characters [YYYY-MM-DD]. *)
Definition isoDate (y m d : Z) : string :=
  (JsDate.pad4 y ++ String "-"%char (JsDate.pad2 m ++ String "-"%char
   (JsDate.pad2 d)))%string.

(** The UTC calendar day of a time value, as [toISOString] writes it. *)
Definition utcDate (t : Z) : string :=
  let '(y, m, d) := JsDate.civil_from_days (JsDate.Day t) in isoDate y m d.

(** The clock reads a time between 1970 and the end of the year 9999. *)
Definition fourDigitClock (t : Z) : Prop := 0 <= t <= 253402300799999.

(** The zone's offsets from UTC are at most a day. *)
Definition saneZone (zone : JsDate.TimeZone) : Prop :=
  forall t, Z.abs (JsDate.tzaUtc zone t) <= JsDate.msPerDay /\
            Z.abs (JsDate.tzaLocal zone t) <= JsDate.msPerDay.

(** ** Vocabulary of the statistics *)

(** [f.properties && f.properties.time], when it is truthy. *)
Definition eventTime (f : Feature) : option Z :=
  match f_properties f with
  | Some props => truthyTime (p_time props)
  | None => None
  end.

(** [f.properties && f.properties.mag], when it is a number. *)
Definition eventMag (f : Feature) : option Q :=
  match f_properties f with
  | Some props => p_mag props
  | None => None
  end.

(** The day key the statistics compute for an event: the first ten
    characters of the ISO string of its time.  [None] for an event
    without a time, or with a time no [Date] can hold. *)
Definition eventKey (f : Feature) : option string :=
  match eventTime f with
  | Some t => dayKey (JsDate.newDate t)
  | None => None
  end.

(** Every time of the batch is one a [Date] can hold. *)
Definition validTimes (fs : list Feature) : Prop :=
  Forall (fun f => match eventTime f with
                   | Some t => Z.abs t <= JsDate.maxTimeValue
                   | None => True
                   end) fs.

(** How many events of the batch have the day key [k]. *)
Definition countFor (k : string) (fs : list Feature) : nat :=
  length (filter (fun f => eventKey f = Some k) fs).

(** The record [largest24] made from an event of magnitude [m]. *)
Definition largestOf (f : Feature) (m : Q) : Largest :=
  let props := default emptyProps (f_properties f) in
  {| l_mag := m; l_place := p_place props; l_time := p_time props;
     l_id := f_id f; l_url := p_url props |}.

(** The events of the trailing 24 hours, as line 298 selects them. *)
Definition last24 (now : Z) (fs : list Feature) : list Feature :=
  filter (fun f => within24 (now - 24 * 60 * 60 * 1000) f = true) fs.

(** [buckets[k] = 0] for each key in turn. *)
Definition zeroAll (keys : list string) (b : Buckets) : Buckets :=
  fold_left (fun acc k => bucketSet k 0%nat acc) keys b.

(** The instant [d] holds after [d.setDate(d.getDate() - i)]. *)
Definition daysBack (zone : JsDate.TimeZone) (now i : Z) : Z :=
  JsDate.UTC zone (JsDate.LocalTime zone now - i * JsDate.msPerDay).

(** The Philippine calendar day of a time value: the date the clocks of
    the region (UTC+8) show at that time. *)
Definition manilaDate (t : Z) : string := utcDate (t + 8 * JsDate.msPerHour).

(** The counting as the specification words it: each bar counts the
    events whose Philippine calendar day is the bar's label. *)
Definition countedByManilaDay (feats : list Feature) (c : Chart) : Prop :=
  forall (i : nat) (k : string),
    chart_labels c !! i = Some k ->
    chart_data c !! i =
      Some (length (filter (fun f => manilaDate <$> eventTime f = Some k) feats)).

(** One event at 2025-10-01T20:00:00Z, which is 04:00 on 2 October in
    the Philippines, seen by a browser in the Philippines at
    2025-10-02T12:00:00Z. *)
Definition nightEvent : Feature :=
  sampleEvent "us7000n" (Some 4%Q) 1759348800000.

Definition nightEnv : Env :=
  {| net := fun _ => Response true (Data (Some [nightEvent]));
     clock0 := sampleNow; clock1 := sampleNow;
     tz := JsDate.manila; timeRange := Some (Num 7) |}.

(** British time in 2025: one hour ahead of UTC from 30 March 01:00 UTC
    to 26 October 01:00 UTC.  A local reading in the hour the clocks skip
    is taken with the offset from before the change. *)
Definition london2025 : JsDate.TimeZone :=
  {| JsDate.tzaUtc := fun t =>
       if (1743296400000 <=? t) && (t <? 1761440400000)
       then JsDate.msPerHour else 0;
     JsDate.tzaLocal := fun t =>
       if (1743296400000 + JsDate.msPerHour <=? t)
          && (t <? 1761440400000 + JsDate.msPerHour)
       then JsDate.msPerHour else 0 |}.

(** 2025-03-30T23:30:00Z, half past midnight on 31 March in London. *)
Definition londonNow : Z := 1743377400000.

Definition londonEnv : Env :=
  {| net := fun _ => Response true (Data (Some []));
     clock0 := londonNow; clock1 := londonNow;
     tz := london2025; timeRange := Some (Num 7) |}.

(** ** Vocabulary of the scheduler *)

(** An interval value as [startAuto] can take it without leaving the
    whole numbers that doubles hold exactly: not a number or minus
    infinity (both are replaced by 30), or a number below
    9 007 199 254 740, whose whole part in milliseconds is below
    [2^53]. *)
Definition moderate (v : JsNum) : Prop :=
  match v with
  | Num q => (q < 9007199254740)%Q
  | NaN | NegInf => True
  | PosInf => False
  end.

Definition moderateInput (input : option JsNum) : Prop :=
  match input with
  | Some v => moderate v
  | None => True
  end.

Definition moderateEvent (e : Event) : Prop :=
  match e with
  | IntervalEdit v => moderate v
  | _ => True
  end.

(** The interval is a whole number [k] of seconds, five or more and
    below [2^53] in milliseconds, and [v] is a whole number between 1
    and [k]. *)
Definition countdownInRange (interval v : JsNum) : Prop :=
  exists (k n : Z) (qi qv : Q),
    interval = Num qi /\ (qi == inject_Z (k * 1000))%Q /\
    v = Num qv /\ (qv == inject_Z n)%Q /\
    5 <= k /\ k * 1000 < 2 ^ 53 /\ 1 <= n <= k.

(** What holds of the scheduler at every moment: the input holds a
    moderate value; while a timer is set, auto-refresh is enabled and
    the remaining seconds are in range; and a number on the display is
    in range and goes with a running one-second timer. *)
Definition schedulerInv (a : Auto) : Prop :=
  moderateInput (refreshSeconds a) /\
  (is_Some (autoTimerId a) \/ is_Some (countdownTimerId a) ->
   autoEnabled a = true /\
   countdownInRange (autoInterval a) (countdownRemaining a)) /\
  (forall v, countdownText a = CountdownShows v ->
             autoEnabled a = true /\ is_Some (countdownTimerId a) /\
             countdownInRange (autoInterval a) v).

(** Both timers run, the cycle timer with a delay of 30 s. *)
Definition rearmedWith30 (a : Auto) : Prop :=
  autoTimerId a = Some {| delay := Num 30000 |} /\
  countdownTimerId a = Some {| delay := Num 1000 |}.

(** A scheduler that was started and then paused by the user. *)
Definition pausedAuto : Auto :=
  runEvents [InitDone; ToggleClick] (initialAuto (Some (Num 30))).

(** [Number("1e308")]: the double nearest to [10^308]. *)
Definition hugeSeconds : JsNum := roundDouble (inject_Z (10 ^ 308)).

(** ** Vocabulary of the top level *)

(** The controls whose listeners the script registers, each with the id
    of its element. *)
Definition controls : list (string * string) :=
  [ ("timeRangeSel", "timeRange"); ("refreshBtn", "refreshBtn");
    ("toggleAutoBtn", "toggleAuto");
    ("refreshSecondsInput", "refreshSeconds") ]%string.

(** Lines 13-51 run through: the element [weekChart], if there is
    one, is a canvas; Leaflet is loaded; and the page has the map
    container. *)
Definition startsUp (h : TopLevel.HostPage) : bool :=
  (negb (TopLevel.hasElement h "weekChart") || TopLevel.isCanvas h "weekChart")
  && TopLevel.leaflet h && TopLevel.hasElement h "map".

(** The exception of lines 13-51 when they do not run through: the
    TypeError of [getContext] on line 30, or on line 43 the
    ReferenceError of [L] or the Error of Leaflet. *)
Definition startupError (h : TopLevel.HostPage) : JsError :=
  if TopLevel.hasElement h "weekChart" && negb (TopLevel.isCanvas h "weekChart")
  then TypeError
  else if negb (TopLevel.leaflet h) then ReferenceError "L"
  else Error "Map container not found.".

(** The effects the script has had when it stops: nothing when lines
    13-51 do not run through; otherwise a listener on each control that
    exists, the first refresh, and the cleared table when there is a
    table body. *)
Definition effectsOfScript (h : TopLevel.HostPage) : list TopLevel.Effect :=
  if startsUp h then
    flat_map (fun c => if TopLevel.hasElement h (snd c)
                       then [TopLevel.ListenerAdded (fst c)] else []) controls
    ++ [TopLevel.InitCalled]
    ++ (if TopLevel.hasElement h "quake-table-body"
        then [TopLevel.TableCleared] else [])
  else [].

(** A page that answers as [h] does, with the answers the control flow
    depends on written out. *)
Definition withAnswers (b1 b2 b3 b4 b5 b6 b7 c5 : bool) (h : TopLevel.HostPage)
    : TopLevel.HostPage :=
  {| TopLevel.hasElement := fun i =>
       if String.eqb i "timeRange" then b1
       else if String.eqb i "refreshBtn" then b2
       else if String.eqb i "toggleAuto" then b3
       else if String.eqb i "refreshSeconds" then b4
       else if String.eqb i "weekChart" then b5
       else if String.eqb i "quake-table-body" then b6
       else if String.eqb i "map" then b7
       else TopLevel.hasElement h i;
     TopLevel.isCanvas := fun i =>
       if String.eqb i "weekChart" then c5 else TopLevel.isCanvas h i;
     TopLevel.leaflet := TopLevel.leaflet h;
     TopLevel.quakesEmpty := TopLevel.quakesEmpty h |}.

(** ** Vocabulary of the requests *)

(** [params.get(k)]: the value of the first entry with the key [k]. *)
Fixpoint paramGet (k : string) (ps : list (string * ParamValue))
    : option ParamValue :=
  match ps with
  | [] => None
  | (k', v) :: r => if String.eqb k k' then Some v else paramGet k r
  end.

(** The keys of the entries, in order. *)
Definition paramKeys (ps : list (string * ParamValue)) : list string :=
  map fst ps.

(** ** Vocabulary of the list refresh *)

(** The event happened less than an hour before [now] (line 187); an
    event without a time counts as happening at [now]. *)
Definition isRecent (now : Z) (f : Feature) : bool :=
  now - orTime (p_time (default emptyProps (f_properties f))) now
  <? 60 * 60 * 1000.

(** The toast of line 188 for an event. *)
Definition newQuakeToast (f : Feature) : Toast :=
  let props := default emptyProps (f_properties f) in
  {| t_title := "New Quake"; t_id := f_id f; t_mag := renderMag props;
     t_place := Some (orStr (p_place props) "Unknown location");
     t_duration := 5000 |}.

(** The identifiers of a batch of events. *)
Definition batchIds (fs : list Feature) : gset string :=
  list_to_set (map f_id fs).

(** The events of a batch that are announced on a page whose seen set
    is [seen]: those not seen before that are recent. *)
Definition announced (now : Z) (seen : gset string) (fs : list Feature)
    : list Feature :=
  filter (fun f => (f_id f ∉ seen) /\ isRecent now f = true) fs.

(** The map position of an event: [(coords[1], coords[0])]. *)
Definition positionOf (m : Marker) : Q * Q := (mk_lat m, mk_lon m).

(** The answer was a success whose body is the JSON value [null]. *)
Definition parsedNull (r : FetchOutcome) : bool :=
  match r with
  | Response true JsonNull => true
  | _ => false
  end.

(** ** Vocabulary of the statistics refresh *)

(** The toast of line 317 for the largest event of the last 24 hours. *)
Definition majorToast (l : Largest) : Toast :=
  {| t_title := "Major (24h)"; t_id := l_id l; t_mag := l_mag l;
     t_place := l_place l; t_duration := 8000 |}.

(** The event the statistics announce on a page whose seen set is
    [seen]: the largest of the last 24 hours, when its magnitude is 5 or
    more and it has not been seen. *)
Definition majorToAnnounce (now : Z) (seen : gset string) (fs : list Feature)
    : option Largest :=
  match scanLargest (last24 now fs) with
  | Some l =>
      if Qge_bool (l_mag l) 5 && bool_decide (l_id l ∉ seen) then Some l
      else None
  | None => None
  end.

(** The time of the event is one no [Date] can hold. *)
Definition invalidTime (f : Feature) : Prop :=
  match eventTime f with
  | Some t => JsDate.maxTimeValue < Z.abs t
  | None => False
  end.

(** The sum of the bars of a chart. *)
Definition barTotal (c : Chart) : nat := sum_list (chart_data c).

(** ** Vocabulary of the controls *)

(** Either no timer is set, or both are: the cycle timer with the
    current interval as its delay, the countdown timer with one second,
    and auto-refresh is enabled. *)
Definition timersPaired (a : Auto) : Prop :=
  (autoTimerId a = None /\ countdownTimerId a = None) \/
  (autoTimerId a = Some {| delay := autoInterval a |} /\
   countdownTimerId a = Some {| delay := Num 1000 |} /\
   autoEnabled a = true).

(** While auto-refresh is off, no timer is set and the page says so;
    and the page says so only while it is off. *)
Definition pauseShown (a : Auto) : Prop :=
  (autoEnabled a = false ->
   autoTimerId a = None /\ countdownTimerId a = None /\
   countdownText a = CountdownPaused /\ toggleText a = ToggleResume) /\
  (countdownText a = CountdownPaused \/ toggleText a = ToggleResume ->
   autoEnabled a = false).

Definition isToggleClick (e : Event) : bool :=
  match e with
  | ToggleClick => true
  | _ => false
  end.

Definition isRefreshClick (e : Event) : bool :=
  match e with
  | RefreshClick => true
  | _ => false
  end.

(** ** Vocabulary of the first load *)

(** What the [catch] block of an operation logs. *)
Definition errorLabel (op : Op) : string :=
  match op with
  | OpFetchQuakes => "fetchQuakesAndRender error"
  | OpMajorHighlight => "updateMajorHighlight error"
  | OpStatistics => "updateStatistics error"
  end.

(** A feed that cannot be reached. *)
Definition offlineEnv : Env :=
  {| net := fun _ => NetworkFailure; clock0 := sampleNow;
     clock1 := sampleNow; tz := JsDate.manila; timeRange := None |}.

(** The page as it is loaded, with 30 in the interval input. *)
Definition freshApp : App :=
  {| page := initialPage; auto := initialAuto (Some (Num 30)) |}.

(** ** Vocabulary of the weather panel *)

(** The weather an answer brings: a success whose body has a
    [current_weather] object. *)
Definition currentWeatherOf (r : Weather.Outcome)
    : option Weather.CurrentWeather :=
  match r with
  | Weather.Response true _ (Weather.Data (Some cw)) => Some cw
  | _ => None
  end.

(** * Reasoning about computations over the page *)

Lemma bind_unfold {A B : Type} (m : M A) (f : A -> M B) (p : Page) :
  (m ≫= f) p =
  match m p with
  | (Normal a, p1) => f a p1
  | (Throw e, p1) => (Throw e, p1)
  end.
Proof. reflexivity. Qed.

Lemma tryCatch_unfold (body : M unit) (handler : JsError -> M unit) (p : Page) :
  tryCatch body handler p =
  match body p with
  | (Normal a, p1) => (Normal a, p1)
  | (Throw e, p1) => handler e p1
  end.
Proof. reflexivity. Qed.

(** A relation between the page before and after that every step of a
    computation keeps, whether the computation throws or not. *)
Section Preserved.

Variable R : Page -> Page -> Prop.
Hypothesis R_refl : forall p, R p p.
Hypothesis R_trans : forall p q r, R p q -> R q r -> R p r.

Lemma preserves_ret {A : Type} (a : A) : preserves R (mret a).
Proof. intros p. apply R_refl. Qed.

Lemma preserves_throw {A : Type} (e : JsError) : preserves R (@throw A e).
Proof. intros p. apply R_refl. Qed.

Lemma preserves_gets {A : Type} (f : Page -> A) : preserves R (gets f).
Proof. intros p. apply R_refl. Qed.

Lemma preserves_modify (g : Page -> Page) :
  (forall p, R p (g p)) -> preserves R (modify g).
Proof. intros H p. apply H. Qed.

Lemma preserves_bind {A B : Type} (m : M A) (f : A -> M B) :
  preserves R m -> (forall a, preserves R (f a)) -> preserves R (m ≫= f).
Proof.
  intros Hm Hf p. rewrite bind_unfold.
  specialize (Hm p). destruct (m p) as [[a|e] p1]; simpl in *.
  - eapply R_trans; [exact Hm | apply Hf].
  - exact Hm.
Qed.

Lemma preserves_tryCatch (body : M unit) (handler : JsError -> M unit) :
  preserves R body -> (forall e, preserves R (handler e)) ->
  preserves R (tryCatch body handler).
Proof.
  intros Hb Hh p. rewrite tryCatch_unfold.
  specialize (Hb p). destruct (body p) as [[a|e] p1]; simpl in *.
  - exact Hb.
  - eapply R_trans; [exact Hb | apply Hh].
Qed.

Lemma preserves_orThrow {A : Type} (e : JsError) (o : option A) :
  preserves R (orThrow e o).
Proof. destruct o; [apply preserves_ret | apply preserves_throw]. Qed.

Lemma preserves_forEach {A : Type} (f : A -> M unit) (l : list A) :
  (forall x, preserves R (f x)) -> preserves R (forEach f l).
Proof.
  intros Hf. induction l as [|x l IH]; simpl.
  - apply preserves_ret.
  - apply preserves_bind; [apply Hf | intros _; exact IH].
Qed.

Lemma preserves_resJson (b : Body) : preserves R (resJson b).
Proof. destruct b; [apply preserves_throw | apply preserves_ret ..]. Qed.

Lemma preserves_dataFeatures (b : Body) : preserves R (dataFeatures b).
Proof. destruct b; [apply preserves_throw .. | apply preserves_ret]. Qed.

End Preserved.

Lemma total_ret {A : Type} (a : A) : total (mret a).
Proof. intros p. exists a. reflexivity. Qed.

Lemma total_modify (g : Page -> Page) : total (modify g).
Proof. intros p. exists tt. reflexivity. Qed.

Lemma total_gets {A : Type} (f : Page -> A) : total (gets f).
Proof. intros p. eexists. reflexivity. Qed.

Lemma total_bind {A B : Type} (m : M A) (f : A -> M B) :
  total m -> (forall a, total (f a)) -> total (m ≫= f).
Proof.
  intros Hm Hf p. rewrite bind_unfold.
  destruct (Hm p) as [a Ha]. destruct (m p) as [[a'|e] p1]; simpl in Ha.
  - apply Hf.
  - discriminate.
Qed.

Lemma total_tryCatch (body : M unit) (handler : JsError -> M unit) :
  (forall e, total (handler e)) -> total (tryCatch body handler).
Proof.
  intros Hh p. rewrite tryCatch_unfold.
  destruct (body p) as [[[]|e] p1].
  - exists tt. reflexivity.
  - apply Hh.
Qed.

Lemma total_forEach {A : Type} (f : A -> M unit) (l : list A) :
  (forall x, total (f x)) -> total (forEach f l).
Proof.
  intros Hf. induction l as [|x l IH]; simpl.
  - apply total_ret.
  - apply total_bind; [apply Hf | intros _; exact IH].
Qed.

(** * Rounding *)

Lemma Qred_whole (q : Q) (z : Z) : (q == inject_Z z)%Q -> Qred q = inject_Z z.
Proof.
  intros H. rewrite (Qred_complete _ _ H). unfold Qred, inject_Z.
  pose proof (Z.ggcd_gcd z 1) as Hg.
  pose proof (Z.ggcd_correct_divisors z 1) as Hd.
  destruct (Z.ggcd z 1) as [g [aa bb]]. cbn [fst snd] in *.
  rewrite Z.gcd_1_r in Hg. subst g. destruct Hd as [Ha Hb].
  rewrite Z.mul_1_l in Ha, Hb. subst aa bb. reflexivity.
Qed.

Lemma roundHalfEven_whole (q : Q) (n : Z) :
  (q == inject_Z n)%Q -> roundHalfEven q = n.
Proof.
  intros H. unfold roundHalfEven.
  assert (Hf : Qfloor q = n) by (rewrite (Qfloor_comp _ _ H); apply Qfloor_Z).
  rewrite Hf.
  assert (Hlt : (q - inject_Z n < 1 # 2)%Q) by (rewrite H; unfold Qlt, Qminus, Qplus, Qopp, inject_Z; simpl; lia).
  rewrite (proj1 (Qlt_alt _ _) Hlt). reflexivity.
Qed.

Lemma Qpow2_nonneg (e : Z) : 0 <= e -> Qpow2 e = inject_Z (2 ^ e).
Proof. intros H. unfold Qpow2. destruct (Z.leb_spec 0 e); [reflexivity | lia]. Qed.

Lemma Qpow2_neg (e : Z) : e < 0 -> Qpow2 e = 1 # Z.to_pos (2 ^ (- e)).
Proof. intros H. unfold Qpow2. destruct (Z.leb_spec 0 e); [lia | reflexivity]. Qed.

(** A whole number below [2^53] is a double: rounding leaves it as it
    is. *)
Lemma roundMagnitude_whole (z : Z) :
  0 <= z < 2 ^ 53 -> roundMagnitude (inject_Z z) = Some (inject_Z z).
Proof.
  intros Hz. unfold roundMagnitude.
  destruct (Z.eq_dec z 0) as [->|Hnz]; [reflexivity|].
  assert (Hpos : 0 < z) by lia.
  assert (E0 : Qeq_bool (inject_Z z) 0 = false).
  { destruct (Qeq_bool (inject_Z z) 0) eqn:E; [|reflexivity]. exfalso.
    apply Qeq_bool_iff in E. unfold Qeq, inject_Z in E. simpl in E. lia. }
  rewrite E0.
  set (k := Z.log2 z).
  assert (Hk : 0 <= k) by apply Z.log2_nonneg.
  assert (Hk53 : k < 53) by (apply Z.log2_lt_pow2; lia).
  destruct (Z.log2_spec z Hpos) as [Hlo Hhi]. fold k in Hlo, Hhi.
  assert (Hlog : Qlog2 (inject_Z z) = k).
  { unfold Qlog2. cbn [Qnum Qden inject_Z]. change (Z.log2 1) with 0.
    rewrite Z.sub_0_r. fold k. rewrite (Qpow2_nonneg k Hk).
    assert (E : Qle_bool (inject_Z (2 ^ k)) (inject_Z z) = true).
    { apply Qle_bool_iff. rewrite <- Zle_Qle. exact Hlo. }
    rewrite E. reflexivity. }
  rewrite Hlog. rewrite Z.max_l by lia.
  set (e := k - 52).
  assert (Hp : 0 < 2 ^ (- e)) by (apply Z.pow_pos_nonneg; lia).
  assert (Hq : (Qpow2 e == 1 # Z.to_pos (2 ^ (- e)))%Q).
  { destruct (Z.eq_dec e 0) as [E|E].
    - rewrite E. reflexivity.
    - rewrite Qpow2_neg by lia. reflexivity. }
  assert (Hm : roundHalfEven (inject_Z z / Qpow2 e) = z * 2 ^ (- e)).
  { apply roundHalfEven_whole. rewrite Hq.
    unfold Qeq, Qdiv, Qmult, Qinv, inject_Z. cbn [Qnum Qden].
    rewrite Z2Pos.id by exact Hp. simpl. destruct (2 ^ (- e)); simpl; lia. }
  rewrite Hm.
  assert (Hr : (inject_Z (z * 2 ^ (- e)) * Qpow2 e == inject_Z z)%Q).
  { rewrite Hq. unfold Qeq, Qmult, inject_Z. cbn [Qnum Qden].
    rewrite Pos.mul_1_l, Z2Pos.id by exact Hp. lia. }
  assert (Ho : Qle_bool (Qpow2 1024) (inject_Z (z * 2 ^ (- e)) * Qpow2 e) = false).
  { destruct (Qle_bool _ _) eqn:E; [|reflexivity]. exfalso.
    apply Qle_bool_iff in E. rewrite Hr in E.
    rewrite (Qpow2_nonneg 1024) in E by lia. rewrite <- Zle_Qle in E.
    assert (2 ^ 53 < 2 ^ 1024) by (apply Z.pow_lt_mono_r; lia). lia. }
  rewrite Ho. rewrite (Qred_whole _ z Hr). reflexivity.
Qed.

Lemma roundDouble_whole (q : Q) (z : Z) :
  (q == inject_Z z)%Q -> Z.abs z < 2 ^ 53 -> roundDouble q = Num (inject_Z z).
Proof.
  intros H Hz. unfold roundDouble. rewrite (Qred_whole q z H).
  destruct (Z_le_gt_dec 0 z) as [Hs|Hs].
  - assert (Ea : Qabs (inject_Z z) = inject_Z z).
    { unfold Qabs, inject_Z. rewrite Z.abs_eq by lia. reflexivity. }
    rewrite Ea, roundMagnitude_whole by lia.
    assert (E : Qle_bool 0 (inject_Z z) = true).
    { apply Qle_bool_iff. change 0%Q with (inject_Z 0). rewrite <- Zle_Qle. lia. }
    rewrite E. reflexivity.
  - assert (Ea : Qabs (inject_Z z) = inject_Z (- z)).
    { unfold Qabs, inject_Z. rewrite Z.abs_neq by lia. reflexivity. }
    rewrite Ea, roundMagnitude_whole by lia.
    assert (E : Qle_bool 0 (inject_Z z) = false).
    { destruct (Qle_bool 0 (inject_Z z)) eqn:E; [|reflexivity]. exfalso.
      apply Qle_bool_iff in E. change 0%Q with (inject_Z 0) in E.
      rewrite <- Zle_Qle in E. lia. }
    rewrite E. f_equal. apply Qred_whole.
    unfold Qeq, Qopp, inject_Z. simpl. lia.
Qed.

(** * The calendar *)

Module DateFacts.
Import JsDate.

Lemma days_from_civil_from_days (z : Z) : days_from_civil (civil_from_days z) = z.
Proof.
  unfold days_from_civil, civil_from_days. cbv zeta.
  repeat match goal with
         | |- context [if ?b then _ else _] => destruct b eqn:?
         end;
    Z.div_mod_to_equations; lia.
Qed.

Lemma civil_from_days_inj (z1 z2 : Z) :
  civil_from_days z1 = civil_from_days z2 -> z1 = z2.
Proof.
  intros H. rewrite <- (days_from_civil_from_days z1), H.
  apply days_from_civil_from_days.
Qed.

Lemma civil_from_days_range (z y m d : Z) :
  civil_from_days z = (y, m, d) -> 1 <= m <= 12 /\ 1 <= d <= 31.
Proof.
  unfold civil_from_days. cbv zeta. intros [= Hy Hm Hd]. subst m d.
  clear Hy.
  repeat match goal with
         | |- context [if ?b then _ else _] => destruct b eqn:?
         end;
    Z.div_mod_to_equations; lia.
Qed.

(** Day numbers outside the years 0000 to 9999. *)
Lemma days_from_civil_late (y m d : Z) :
  10000 <= y -> 1 <= m <= 12 -> 1 <= d -> 2932897 <= days_from_civil (y, m, d).
Proof.
  intros. unfold days_from_civil. cbv zeta.
  repeat match goal with
         | |- context [if ?b then _ else _] => destruct b eqn:?
         end;
    Z.div_mod_to_equations; lia.
Qed.

Lemma days_from_civil_early (y m d : Z) :
  y <= -1 -> 1 <= m <= 12 -> d <= 31 -> days_from_civil (y, m, d) < -719528.
Proof.
  intros. unfold days_from_civil. cbv zeta.
  repeat match goal with
         | |- context [if ?b then _ else _] => destruct b eqn:?
         end;
    Z.div_mod_to_equations; lia.
Qed.

Lemma civil_from_days_year (z y m d : Z) :
  civil_from_days z = (y, m, d) ->
  -719528 <= z <= 2932896 -> 0 <= y <= 9999.
Proof.
  intros E Hz. destruct (civil_from_days_range _ _ _ _ E) as [Hm Hd].
  pose proof (days_from_civil_from_days z) as Hrt. rewrite E in Hrt.
  split.
  - destruct (Z_lt_le_dec y 0) as [Hneg|]; [|assumption].
    pose proof (days_from_civil_early y m d). lia.
  - destruct (Z_lt_le_dec 9999 y) as [Hbig|]; [|assumption].
    pose proof (days_from_civil_late y m d). lia.
Qed.

(** Moving the day of the month moves the day number by as much. *)
Lemma MakeDay_back (t i : Z) :
  MakeDay (YearFromTime t) (MonthFromTime t) (DateFromTime t - i) = Day t - i.
Proof.
  unfold MakeDay, YearFromTime, MonthFromTime, DateFromTime.
  pose proof (days_from_civil_from_days (Day t)) as Hrt.
  destruct (civil_from_days (Day t)) as [[y m] d] eqn:E.
  destruct (civil_from_days_range _ _ _ _ E) as [Hm Hd].
  assert (H0 : (m - 1) / 12 = 0) by (Z.div_mod_to_equations; lia).
  assert (H1 : (m - 1) mod 12 + 1 = m) by (Z.div_mod_to_equations; lia).
  cbv zeta. rewrite H0, H1, Z.add_0_r. rewrite <- Hrt.
  unfold days_from_civil. lia.
Qed.

Lemma MakeDate_back (t i : Z) :
  MakeDate (Day t - i) (TimeWithinDay t) = t - i * msPerDay.
Proof.
  unfold MakeDate, Day, TimeWithinDay, msPerDay.
  Z.div_mod_to_equations. lia.
Qed.

(** [d.setDate(d.getDate() - i)] takes [i] days off the local reading of
    the clock and reads the result back as a UTC instant. *)
Lemma setDate_back (zone : TimeZone) (now i : Z) :
  setDate zone now (getDate zone now - i)
  = TimeClip (UTC zone (LocalTime zone now - i * msPerDay)).
Proof.
  unfold setDate, getDate. cbv zeta.
  rewrite MakeDay_back, MakeDate_back. reflexivity.
Qed.

Lemma setDate_fixedZone (off now i : Z) :
  setDate (fixedZone off) now (getDate (fixedZone off) now - i)
  = TimeClip (now - i * msPerDay).
Proof.
  rewrite setDate_back. unfold UTC, LocalTime, fixedZone. simpl.
  f_equal. lia.
Qed.

Lemma Day_back (t i : Z) : Day (t - i * msPerDay) = Day t - i.
Proof. unfold Day, msPerDay. Z.div_mod_to_equations. lia. Qed.

Lemma digit_inj (a b : Z) : digit a = digit b -> a mod 10 = b mod 10.
Proof.
  unfold digit. intros H.
  assert (Ha : 0 <= a mod 10 < 10) by (apply Z.mod_pos_bound; lia).
  assert (Hb : 0 <= b mod 10 < 10) by (apply Z.mod_pos_bound; lia).
  apply (f_equal nat_of_ascii) in H.
  rewrite !nat_ascii_embedding in H by lia. lia.
Qed.

End DateFacts.

Lemma isoDate_inj (y1 m1 d1 y2 m2 d2 : Z) :
  0 <= y1 <= 9999 -> 0 <= y2 <= 9999 ->
  0 <= m1 <= 99 -> 0 <= m2 <= 99 -> 0 <= d1 <= 99 -> 0 <= d2 <= 99 ->
  isoDate y1 m1 d1 = isoDate y2 m2 d2 -> y1 = y2 /\ m1 = m2 /\ d1 = d2.
Proof.
  intros Hy1 Hy2 Hm1 Hm2 Hd1 Hd2. unfold isoDate, JsDate.pad4, JsDate.pad3, JsDate.pad2.
  cbn [String.append]. intros H.
  injection H as Ha Hb Hc He Hf Hg Hh Hi.
  apply DateFacts.digit_inj in Ha, Hb, Hc, He, Hf, Hg, Hh, Hi.
  repeat split; Z.div_mod_to_equations; lia.
Qed.

(** The first ten characters of the ISO string of a time in the years
    0000 to 9999 are its UTC date. *)
Lemma dayKey_utcDate (t : Z) :
  -719528 <= JsDate.Day t <= 2932896 ->
  dayKey (Some t) = Some (utcDate t).
Proof.
  intros Ht. unfold dayKey, utcDate, JsDate.toISOString, JsDate.isoOfTime.
  destruct (JsDate.civil_from_days (JsDate.Day t)) as [[y m] d] eqn:E.
  pose proof (DateFacts.civil_from_days_year _ _ _ _ E Ht) as Hy.
  unfold JsDate.isoYear.
  replace ((0 <=? y) && (y <=? 9999)) with true
    by (symmetry; apply andb_true_iff; split; apply Z.leb_le; lia).
  reflexivity.
Qed.

(** Two times in the years 0000 to 9999 have the same date exactly when
    they fall on the same UTC day. *)
Lemma utcDate_inj (t1 t2 : Z) :
  -719528 <= JsDate.Day t1 <= 2932896 ->
  -719528 <= JsDate.Day t2 <= 2932896 ->
  utcDate t1 = utcDate t2 -> JsDate.Day t1 = JsDate.Day t2.
Proof.
  intros H1 H2. unfold utcDate.
  destruct (JsDate.civil_from_days (JsDate.Day t1)) as [[y1 m1] d1] eqn:E1.
  destruct (JsDate.civil_from_days (JsDate.Day t2)) as [[y2 m2] d2] eqn:E2.
  pose proof (DateFacts.civil_from_days_year _ _ _ _ E1 H1) as Hy1.
  pose proof (DateFacts.civil_from_days_year _ _ _ _ E2 H2) as Hy2.
  destruct (DateFacts.civil_from_days_range _ _ _ _ E1) as [Hm1 Hd1].
  destruct (DateFacts.civil_from_days_range _ _ _ _ E2) as [Hm2 Hd2].
  intros Heq. apply isoDate_inj in Heq; try lia.
  destruct Heq as (-> & -> & ->).
  apply DateFacts.civil_from_days_inj. congruence.
Qed.

(** Steps through a computation built from binds, [try]/[catch], loops
    and case distinctions; [leaf] closes what is left. *)
Ltac preserve_with Hrefl Htrans leaf :=
  repeat first
    [ apply (preserves_ret _ Hrefl)
    | apply (preserves_throw _ Hrefl)
    | apply (preserves_gets _ Hrefl)
    | apply (preserves_orThrow _ Hrefl)
    | apply (preserves_resJson _ Hrefl)
    | apply (preserves_dataFeatures _ Hrefl)
    | progress leaf
    | apply (preserves_bind _ Htrans); [| intros ?]
    | apply (preserves_tryCatch _ Htrans); [| intros ?]
    | apply (preserves_forEach _ Hrefl Htrans); intros ?
    | match goal with
      | |- preserves _ (match ?x with _ => _ end) => destruct x
      | |- preserves _ (if ?b then _ else _) => destruct b
      end ].

(** * Notifications and the seen set *)

Lemma toastStep_refl (p : Page) : toastStep p p.
Proof.
  split; [set_solver|]. exists []. rewrite app_nil_r.
  split; [reflexivity|]. split; [constructor|].
  intros i Hi. inversion Hi.
Qed.

Lemma toastStep_trans (p q r : Page) :
  toastStep p q -> toastStep q r -> toastStep p r.
Proof.
  intros [Hs1 (n1 & Ht1 & Hd1 & Hi1)] [Hs2 (n2 & Ht2 & Hd2 & Hi2)].
  split; [etrans; eassumption|]. exists (n1 ++ n2).
  split; [rewrite Ht2, Ht1, app_assoc; reflexivity|].
  unfold toastIds in *. rewrite map_app. split.
  - apply NoDup_app. split; [exact Hd1|]. split; [|exact Hd2].
    intros i H1 H2. destruct (Hi1 i H1) as [_ Hin]. destruct (Hi2 i H2) as [Hnot _].
    contradiction.
  - intros i Hi. apply elem_of_app in Hi. destruct Hi as [Hi|Hi].
    + destruct (Hi1 i Hi) as [Hn Hy]. split; [assumption | apply Hs2, Hy].
    + destruct (Hi2 i Hi) as [Hn Hy]. split; [|assumption].
      intros Hp. apply Hn, Hs1, Hp.
Qed.

(** A step that leaves the seen set and the toasts as they are. *)
Lemma toastStep_same (p p' : Page) :
  seenQuakes (shared p') = seenQuakes (shared p) ->
  toasts (shared p') = toasts (shared p) ->
  toastStep p p'.
Proof.
  intros Hs Ht. split; [rewrite Hs; set_solver|]. exists [].
  rewrite Ht, app_nil_r. split; [reflexivity|]. split; [constructor|].
  intros i Hi. inversion Hi.
Qed.

Lemma toastStep_seenAdd (i : string) : preserves toastStep (seenAdd i).
Proof.
  intros p. split; [simpl; set_solver|]. exists []. simpl.
  rewrite app_nil_r. split; [reflexivity|]. split; [constructor|].
  intros j Hj. inversion Hj.
Qed.

(** [if (!seenQuakes.has(id)) { seenQuakes.add(id); if (recent)
    showToast(...) }] (lines 185-190). *)
Lemma toastStep_newQuake (i : string) (recent : bool) (t : Toast) :
  t_id t = i ->
  preserves toastStep
    (seen ← seenHas i ;
     if negb seen then
       seenAdd i ;; (if recent then showToast t else mret tt)
     else mret tt).
Proof.
  intros Hid p. unfold seenHas, gets. rewrite bind_unfold.
  destruct (bool_decide (i ∈ seenQuakes (shared p))) eqn:Hseen; simpl.
  - apply toastStep_refl.
  - apply bool_decide_eq_false in Hseen. destruct recent; simpl.
    + split; [set_solver|]. exists [t]. split; [reflexivity|].
      split; [repeat constructor; set_solver|].
      intros j Hj. apply list_elem_of_singleton in Hj. subst j. rewrite Hid.
      split; [assumption | set_solver].
    + split; [set_solver|]. exists []. rewrite app_nil_r.
      split; [reflexivity|]. split; [constructor|].
      intros j Hj. inversion Hj.
Qed.

(** [if (largest24 && largest24.mag >= 5.0 && !seenQuakes.has(id)) {
    showToast(...); seenQuakes.add(id) }] (lines 316-319). *)
Lemma toastStep_major24 (i : string) (big : bool) (t : Toast) :
  t_id t = i ->
  preserves toastStep
    (seen ← seenHas i ;
     if big && negb seen then showToast t ;; seenAdd i else mret tt).
Proof.
  intros Hid p. unfold seenHas, gets. rewrite bind_unfold.
  destruct (bool_decide (i ∈ seenQuakes (shared p))) eqn:Hseen;
    destruct big; simpl; try apply toastStep_refl.
  apply bool_decide_eq_false in Hseen.
  split; [set_solver|]. exists [t]. split; [reflexivity|].
  split; [repeat constructor; set_solver|].
  intros j Hj. apply list_elem_of_singleton in Hj. subst j. rewrite Hid.
  split; [assumption | set_solver].
Qed.

Ltac toast_leaf :=
  first
    [ apply toastStep_seenAdd
    | apply toastStep_newQuake; reflexivity
    | apply toastStep_major24; reflexivity
    | apply (preserves_modify toastStep); intros ?;
      apply toastStep_same; reflexivity ].

Ltac toast_tac := preserve_with toastStep_refl toastStep_trans toast_leaf.

Lemma toastStep_fetch (env : Env) (u : Url) : preserves toastStep (fetch env u).
Proof. unfold fetch. toast_tac. Qed.

Lemma toastStep_fetchQuakesAndRender (env : Env) :
  preserves toastStep (fetchQuakesAndRender env).
Proof.
  unfold fetchQuakesAndRender, renderFeature, setQuakeList, setLastUpdated,
    clearLayers, consoleError, appendCard, addLayer, fetch.
  toast_tac.
Qed.

Lemma toastStep_updateMajorHighlight (env : Env) :
  preserves toastStep (updateMajorHighlight env).
Proof.
  unfold updateMajorHighlight, setMhContent, setMhUpdated, addMajorMarker,
    consoleError, fetch.
  toast_tac.
Qed.

Lemma toastStep_updateStatistics (env : Env) :
  preserves toastStep (updateStatistics env).
Proof.
  unfold updateStatistics, setStats, setChart, consoleError, fetch.
  toast_tac.
Qed.

Lemma toastStep_runOp (op : Op) (env : Env) (p : Page) :
  toastStep p (snd (runOp op env p)).
Proof.
  destruct op; simpl.
  - apply toastStep_fetchQuakesAndRender.
  - apply toastStep_updateMajorHighlight.
  - apply toastStep_updateStatistics.
Qed.

Lemma toastStep_runOps (calls : list (Op * Env)) (p : Page) :
  toastStep p (snd (runOps calls p)).
Proof.
  revert p. induction calls as [|[op env] calls IH]; intros p; simpl.
  - apply toastStep_refl.
  - pose proof (toastStep_runOp op env p) as H1.
    destruct (runOp op env p) as [c p1]. simpl in H1.
    specialize (IH p1). destruct (runOps calls p1) as [ss p2]. simpl in *.
    eapply toastStep_trans; eassumption.
Qed.

(** [updateMajorHighlight] shows no toast. *)
Lemma updateMajorHighlight_no_toast (env : Env) (p : Page) :
  toasts (shared (snd (updateMajorHighlight env p))) = toasts (shared p).
Proof.
  assert (Hrefl : forall q : Page, toasts (shared q) = toasts (shared q))
    by reflexivity.
  assert (Htrans : forall q1 q2 q3 : Page,
             toasts (shared q2) = toasts (shared q1) ->
             toasts (shared q3) = toasts (shared q2) ->
             toasts (shared q3) = toasts (shared q1))
    by (intros; congruence).
  revert p.
  change (preserves (fun q q' => toasts (shared q') = toasts (shared q))
                    (updateMajorHighlight env)).
  unfold updateMajorHighlight, setMhContent, setMhUpdated, addMajorMarker,
    consoleError, fetch, seenAdd.
  preserve_with Hrefl Htrans
    ltac:(apply (preserves_modify (fun q q' => toasts (shared q') = toasts (shared q)));
          intros ?; reflexivity).
Qed.

(** * The requests *)

Lemma isoOfTime_truthy (t : Z) :
  truthyStr (Some (JsDate.isoOfTime t)) = Some (JsDate.isoOfTime t).
Proof.
  unfold JsDate.isoOfTime.
  destruct (JsDate.civil_from_days (JsDate.Day t)) as [[y m] d].
  unfold JsDate.isoYear. destruct ((0 <=? y) && (y <=? 9999)); reflexivity.
Qed.

Lemma newDate_back (now days : Z) :
  saneClock now -> 0 <= days <= 36500 ->
  JsDate.newDate (now - days * 24 * 60 * 60 * 1000)
  = Some (now - days * 24 * 60 * 60 * 1000).
Proof.
  unfold saneClock, JsDate.newDate, JsDate.TimeClip, JsDate.maxTimeValue.
  intros Hn Hd.
  destruct (Z.leb_spec (Z.abs (now - days * 24 * 60 * 60 * 1000))
                       8640000000000000) as [_|H]; [reflexivity | lia].
Qed.

Lemma majorUrl_sane (now days : Z) (lim : Q) :
  saneClock now -> 0 <= days <= 36500 ->
  majorUrl now days lim =
  Some (usgsQuery (queryParams
          (JsDate.isoOfTime (now - days * 24 * 60 * 60 * 1000)) lim (Some 5%Q))).
Proof.
  intros Hn Hd. unfold majorUrl. rewrite newDate_back by assumption.
  cbn [JsDate.toISOString]. unfold buildUSGSUrl.
  cbn [startTimeISO endTimeISO orderby limit minmag bbox].
  rewrite isoOfTime_truthy. reflexivity.
Qed.

Lemma statsUrl_sane (now : Z) :
  saneClock now ->
  statsUrl now =
  Some (usgsQuery (queryParams
          (JsDate.isoOfTime (now - 7 * 24 * 60 * 60 * 1000)) 2000 None)).
Proof.
  intros Hn. unfold statsUrl. rewrite (newDate_back now 7) by (assumption || lia).
  cbn [JsDate.toISOString]. unfold buildUSGSUrl.
  cbn [startTimeISO endTimeISO orderby limit minmag bbox].
  rewrite isoOfTime_truthy. reflexivity.
Qed.

(** Runs a computation on a page as far as its definition goes. *)
Ltac run_page :=
  cbv beta iota zeta delta
    [mbind mret M_bind M_ret tryCatch throw modify gets orThrow forEach
     fetch resJson dataFeatures noFeatures seenAdd seenHas showToast
     consoleError withShared withList withMajor withStats
     setMhContent setMhUpdated addMajorMarker
     setQuakeList setLastUpdated clearLayers appendCard addLayer
     setStats setChart negb andb
     fst snd shared listRegion majorRegion statsRegion
     seenQuakes toasts requests consoleErrors
     quakeList lastUpdated quakeLayer
     mhContent mhUpdated majorMarkers
     statDailyCount statWeeklyCount statLargest24h weekChart
     ];
  cbn [fst snd].

(** * The major highlight *)

Lemma updateMajorHighlight_run (env : Env) (p : Page) (u7 u30 : Url) :
  majorUrl (clock0 env) 7 50 = Some u7 ->
  majorUrl (clock0 env) 30 200 = Some u30 ->
  let r := updateMajorHighlight env p in
  fst r = Normal tt /\
  requests (shared (snd r)) =
    requests (shared p) ++ (if firstEmpty (net env u7) then [u7; u30] else [u7]) /\
  toasts (shared (snd r)) = toasts (shared p) /\
  listRegion (snd r) = listRegion p /\
  statsRegion (snd r) = statsRegion p /\
  match highlightOf (net env u7) (net env u30) with
  | Some (Some top) =>
      mhContent (majorRegion (snd r)) = MhShown (panelOf (clock1 env) top) /\
      mhUpdated (majorRegion (snd r)) = LabelUpdated /\
      seenQuakes (shared (snd r)) = {[ f_id top ]} ∪ seenQuakes (shared p) /\
      consoleErrors (shared (snd r)) = consoleErrors (shared p)
  | Some None =>
      mhContent (majorRegion (snd r)) = MhNoMajor /\
      mhUpdated (majorRegion (snd r)) = LabelChecked /\
      majorMarkers (majorRegion (snd r)) = majorMarkers (majorRegion p) /\
      seenQuakes (shared (snd r)) = seenQuakes (shared p) /\
      consoleErrors (shared (snd r)) = consoleErrors (shared p)
  | None =>
      mhContent (majorRegion (snd r)) = MhUnable /\
      mhUpdated (majorRegion (snd r)) = LabelError /\
      seenQuakes (shared (snd r)) = seenQuakes (shared p) /\
      consoleErrors (shared (snd r)) =
        consoleErrors (shared p) ++ ["updateMajorHighlight error"%string]
  end.
Proof.
  intros H7 H30. unfold updateMajorHighlight. rewrite H7, H30.
  destruct p as [sh lr mr sr].
  destruct (net env u7) as [|[] [| |[[|top rest]|]]] eqn:E7;
    run_page; rewrite ?E7; run_page;
    try (repeat split; rewrite <- ?app_assoc; reflexivity);
    try (destruct (majorMarkerOf top); run_page;
         repeat split; rewrite <- ?app_assoc; reflexivity).
  all: destruct (net env u30) as [|ok30 [| |[[|top30 rest30]|]]] eqn:E30;
    run_page; rewrite ?E30; run_page;
    try (repeat split; rewrite <- ?app_assoc; reflexivity);
    try (destruct (majorMarkerOf top30); run_page;
         repeat split; rewrite <- ?app_assoc; reflexivity).
Qed.

(** C6.  [updateMajorHighlight] first asks for the events of magnitude
    5.0 and more of the last 7 days, at most 50, newest first.  It sends
    a second request, the same over the last 30 days with at most 200
    events, exactly when the first answer is a parsed body without
    events.  The first event of the answer it ends with becomes the
    highlight; when both answers are empty the panel shows its empty
    state, the call completes normally and nothing is logged as an
    error. *)
Theorem major_highlight_two_stage_query (env : Env) (p : Page) :
  saneClock (clock0 env) ->
  let u7 := usgsQuery (queryParams
    (JsDate.isoOfTime (clock0 env - 7 * 24 * 60 * 60 * 1000)) 50 (Some 5%Q)) in
  let u30 := usgsQuery (queryParams
    (JsDate.isoOfTime (clock0 env - 30 * 24 * 60 * 60 * 1000)) 200 (Some 5%Q)) in
  let r := updateMajorHighlight env p in
  requests (shared (snd r)) =
    requests (shared p) ++ (if firstEmpty (net env u7) then [u7; u30] else [u7]) /\
  match highlightOf (net env u7) (net env u30) with
  | Some (Some top) =>
      fst r = Normal tt /\
      mhContent (majorRegion (snd r)) = MhShown (panelOf (clock1 env) top)
  | Some None =>
      fst r = Normal tt /\
      mhContent (majorRegion (snd r)) = MhNoMajor /\
      mhUpdated (majorRegion (snd r)) = LabelChecked /\
      majorMarkers (majorRegion (snd r)) = majorMarkers (majorRegion p) /\
      consoleErrors (shared (snd r)) = consoleErrors (shared p)
  | None =>
      mhContent (majorRegion (snd r)) = MhUnable
  end.
Proof.
  intros Hclock u7 u30 r.
  assert (H7 : majorUrl (clock0 env) 7 50 = Some u7)
    by (apply majorUrl_sane; [assumption | lia]).
  assert (H30 : majorUrl (clock0 env) 30 200 = Some u30)
    by (apply majorUrl_sane; [assumption | lia]).
  destruct (updateMajorHighlight_run env p u7 u30 H7 H30)
    as (Hn & Hreq & _ & _ & _ & Hout).
  fold r in Hn, Hreq, Hout. split; [exact Hreq|].
  destruct (highlightOf (net env u7) (net env u30)) as [[top|]|].
  - destruct Hout as (Hc & _). split; assumption.
  - destruct Hout as (Hc & Hu & Hm & _ & He). repeat split; assumption.
  - destruct Hout as (Hc & _). exact Hc.
Qed.

Lemma major_highlight_two_stage_query_witness :
  saneClock (clock0 sampleEnv) /\
  let r := updateMajorHighlight sampleEnv initialPage in
  length (requests (shared (snd r))) = 2%nat /\
  mhContent (majorRegion (snd r)) =
    MhShown (panelOf (clock1 sampleEnv)
               (sampleEvent "us7000a" (Some 6.2%Q) (sampleNow - 1000))).
Proof.
  assert (Hclock : saneClock (clock0 sampleEnv))
    by (unfold saneClock; simpl; unfold sampleNow, JsDate.maxTimeValue; lia).
  split; [exact Hclock|].
  pose proof (major_highlight_two_stage_query sampleEnv initialPage Hclock)
    as [Hreq Hout].
  split.
  - rewrite Hreq. reflexivity.
  - apply Hout.
Defined.

(** * Once seen, never notified *)

(** C1.  Whatever operations run, in whatever order and on whatever
    answers of the feed, an identifier that is in the seen set beforehand
    stays in it and none of the toasts shown from then on is about it.
    More precisely, over any run the toasts shown are about pairwise
    different identifiers, none of which was in the seen set before and
    all of which are in it afterwards; and [updateMajorHighlight] shows
    no toast at all and puts the identifier of the event it highlights
    into the seen set. *)
Theorem seen_id_never_notified_again
    (calls : list (Op * Env)) (p : Page) (i : string) :
  i ∈ seenQuakes (shared p) ->
  let p' := snd (runOps calls p) in
  i ∈ seenQuakes (shared p') /\
  (exists new,
     toasts (shared p') = toasts (shared p) ++ new /\
     (i ∉ toastIds new) /\
     NoDup (toastIds new) /\
     forall j, j ∈ toastIds new ->
       (j ∉ seenQuakes (shared p)) /\ (j ∈ seenQuakes (shared p'))) /\
  (forall env q,
     toasts (shared (snd (runOp OpMajorHighlight env q))) = toasts (shared q)) /\
  (forall env q panel,
     saneClock (clock0 env) ->
     mhContent (majorRegion (snd (runOp OpMajorHighlight env q)))
       = MhShown panel ->
     mh_id panel ∈ seenQuakes (shared (snd (runOp OpMajorHighlight env q)))).
Proof.
  intros Hseen p'.
  destruct (toastStep_runOps calls p) as [Hsub (new & Hnew & Hdup & Hids)].
  fold p' in Hsub, Hnew, Hids.
  split; [apply Hsub, Hseen|]. split.
  - exists new. split; [exact Hnew|]. split; [|split; assumption].
    intros Hin. destruct (Hids i Hin) as [Hnot _]. exact (Hnot Hseen).
  - split; [intros env q; apply updateMajorHighlight_no_toast|].
    intros env q panel Hclock. cbn [runOp].
    destruct (updateMajorHighlight_run env q _ _
                (majorUrl_sane _ 7 50 Hclock ltac:(lia))
                (majorUrl_sane _ 30 200 Hclock ltac:(lia)))
      as (_ & _ & _ & _ & _ & Hout).
    destruct (highlightOf _ _) as [[top|]|].
    + destruct Hout as (-> & _ & -> & _). intros [= <-].
      apply elem_of_union_l, elem_of_singleton. reflexivity.
    + destruct Hout as (-> & _). discriminate.
    + destruct Hout as (-> & _). discriminate.
Qed.

Lemma seen_id_never_notified_again_witness :
  let calls := [(OpFetchQuakes, sampleEnv); (OpStatistics, sampleEnv);
                (OpFetchQuakes, sampleEnv)] in
  "us7000a"%string ∈ seenQuakes (shared samplePageSeen) /\
  exists new,
    toasts (shared (snd (runOps calls samplePageSeen)))
      = toasts (shared samplePageSeen) ++ new /\
    ("us7000a"%string ∉ toastIds new).
Proof.
  intros calls.
  assert (Hseen : "us7000a"%string ∈ seenQuakes (shared samplePageSeen))
    by (cbn; apply elem_of_singleton; reflexivity).
  split; [exact Hseen|].
  destruct (seen_id_never_notified_again calls samplePageSeen _ Hseen)
    as (_ & (new & Hnew & Hnot & _) & _).
  exists new. split; assumption.
Defined.

(** * The refresh cycle *)

Lemma Qtrunc_bounds (q : Q) (lo hi : Z) :
  (inject_Z lo <= q)%Q -> (q <= inject_Z hi)%Q -> lo <= Qtrunc q <= hi.
Proof.
  intros Hlo Hhi. unfold Qtrunc.
  destruct (Qle_bool 0 q).
  - split.
    + rewrite <- (Qfloor_Z lo). apply Qfloor_resp_le. exact Hlo.
    + rewrite <- (Qfloor_Z hi). apply Qfloor_resp_le. exact Hhi.
  - split.
    + rewrite <- (Qceiling_Z lo). apply Qceiling_resp_le. exact Hlo.
    + rewrite <- (Qceiling_Z hi). apply Qceiling_resp_le. exact Hhi.
Qed.

Lemma startOfRange_sane (now : Z) (v : option JsNum) :
  saneClock now -> saneRange v ->
  exists t, startOfRange now (default (Num 7) v) = Some t.
Proof.
  intros Hn Hv.
  assert (Hd : exists d, default (Num 7) v = Num d /\ (0 <= d)%Q /\ (d <= 36500)%Q).
  { destruct v as [[| | |d]|]; simpl in *; try contradiction.
    - exists d. split; [reflexivity | exact Hv].
    - exists 7%Q. split; [reflexivity|]. split; discriminate. }
  destruct Hd as (d & -> & Hd0 & Hd1). unfold startOfRange, newDateNum.
  set (q := (inject_Z now - d * 24 * 60 * 60 * 1000)%Q).
  assert (Hb : -3153600000000 <= Qtrunc q <= JsDate.maxTimeValue).
  { unfold saneClock in Hn. apply Qtrunc_bounds; unfold q.
    - assert (H0 : (0 <= inject_Z now)%Q)
        by (change 0%Q with (inject_Z 0); rewrite <- Zle_Qle; lia).
      change (inject_Z (-3153600000000)) with (-3153600000000)%Q. lra.
    - assert (H1 : (inject_Z now <= inject_Z JsDate.maxTimeValue)%Q)
        by (rewrite <- Zle_Qle; lia).
      lra. }
  exists (Qtrunc q). unfold JsDate.TimeClip.
  destruct (Z.leb_spec (Z.abs (Qtrunc q)) JsDate.maxTimeValue) as [_|H];
    [reflexivity|].
  unfold JsDate.maxTimeValue in *. lia.
Qed.

Lemma quakesUrl_sane (env : Env) :
  saneEnv env -> exists u, quakesUrl env = Some u.
Proof.
  intros [Hn Hv]. unfold quakesUrl.
  destruct (startOfRange_sane _ _ Hn Hv) as [t ->]. simpl. eauto.
Qed.

(** The body of [data.features.forEach] never throws. *)
Lemma total_renderFeature (now : Z) (f : Feature) : total (renderFeature now f).
Proof.
  unfold renderFeature, appendCard, addLayer, seenHas, seenAdd, showToast.
  repeat first
    [ apply total_ret | apply total_modify | apply total_gets
    | apply total_bind; [| intros ?]
    | match goal with
      | |- total (match ?x with _ => _ end) => destruct x
      | |- total (if ?b then _ else _) => destruct b
      end ].
Qed.

Ltac total_handler :=
  intros ?; unfold consoleError, setLastUpdated, setQuakeList, setMhContent,
    setMhUpdated, setStats;
  repeat first [ apply total_modify | apply total_bind; [| intros ?] ].

(** Past its first line, [fetchQuakesAndRender] is a [try] with a handler
    that cannot throw. *)
Lemma fetchQuakesAndRender_total (env : Env) :
  saneEnv env -> total (fetchQuakesAndRender env).
Proof.
  intros Hs. unfold fetchQuakesAndRender.
  destruct (quakesUrl_sane env Hs) as [u ->].
  apply total_bind; [apply total_ret | intros u'].
  apply total_bind; [apply total_modify | intros _].
  apply total_tryCatch. total_handler.
Qed.

Lemma updateMajorHighlight_total (env : Env) :
  saneClock (clock0 env) -> total (updateMajorHighlight env).
Proof.
  intros Hn. unfold updateMajorHighlight.
  rewrite !majorUrl_sane by (assumption || lia).
  apply total_bind; [apply total_ret | intros u7].
  apply total_bind; [apply total_ret | intros u30].
  apply total_bind; [apply total_modify | intros _].
  apply total_bind; [apply total_modify | intros _].
  apply total_tryCatch. total_handler.
Qed.

(** All of [updateStatistics] is inside its [try]. *)
Lemma updateStatistics_total (env : Env) : total (updateStatistics env).
Proof. unfold updateStatistics. apply total_tryCatch. total_handler. Qed.

Lemma runOp_total (op : Op) (env : Env) (p : Page) :
  opReady op env -> fst (runOp op env p) = Normal tt.
Proof.
  intros Hs.
  assert (H : total (runOp op env)).
  { destruct op; simpl in Hs |- *.
    - apply fetchQuakesAndRender_total, Hs.
    - apply updateMajorHighlight_total, Hs.
    - apply updateStatistics_total. }
  destruct (H p) as [[] Ha]. exact Ha.
Qed.

(** Each operation writes to its own region and to the shared state
    only. *)
Lemma untouched_refl (op : Op) (p : Page) : untouched op p p.
Proof. destruct op; split; reflexivity. Qed.

Lemma untouched_trans (op : Op) (p q r : Page) :
  untouched op p q -> untouched op q r -> untouched op p r.
Proof. destruct op; intros [H1 H2] [H3 H4]; split; congruence. Qed.

Ltac untouched_tac op :=
  preserve_with (untouched_refl op) (untouched_trans op)
    ltac:(apply (preserves_modify (untouched op)); intros ?;
          split; reflexivity).

Lemma runOp_untouched (op : Op) (env : Env) :
  preserves (untouched op) (runOp op env).
Proof.
  destruct op; simpl.
  - unfold fetchQuakesAndRender, renderFeature, setQuakeList, setLastUpdated,
      clearLayers, consoleError, appendCard, addLayer, fetch, seenHas,
      seenAdd, showToast.
    untouched_tac OpFetchQuakes.
  - unfold updateMajorHighlight, setMhContent, setMhUpdated, addMajorMarker,
      consoleError, fetch, seenAdd.
    untouched_tac OpMajorHighlight.
  - unfold updateStatistics, setStats, setChart, consoleError, fetch,
      seenHas, seenAdd, showToast.
    untouched_tac OpStatistics.
Qed.

(** A failed request ends in the error state of the operation's region. *)
Lemma runOp_errorShown (op : Op) (env : Env) (p : Page) :
  opReady op env ->
  requestFailed op env = true -> errorShown op (snd (runOp op env p)).
Proof.
  intros Hs. unfold requestFailed.
  destruct (requestOf op env) as [u|] eqn:Hu; [|discriminate].
  intros Hf. destruct p as [sh lr mr sr]. destruct op; simpl in Hu, Hs |- *.
  - unfold fetchQuakesAndRender. rewrite Hu.
    destruct (net env u) as [|[] [| |fs]] eqn:E; try discriminate;
      run_page; rewrite ?E; run_page; split; reflexivity.
  - unfold updateMajorHighlight. rewrite Hu.
    rewrite (majorUrl_sane _ 30) by (assumption || lia).
    destruct (net env u) as [|[] [| |fs]] eqn:E; try discriminate;
      run_page; rewrite ?E; run_page; split; reflexivity.
  - unfold updateStatistics. rewrite Hu.
    destruct (net env u) as [|[] [| |fs]] eqn:E; try discriminate;
      run_page; rewrite ?E; run_page; repeat split; reflexivity.
Qed.

(** C5.  A full refresh never fails as a whole.  The only lines of the
    three operations that stand outside a [try] render a start time; with
    the clock and the time-range selector in their normal ranges they do
    not throw.  Then each operation completes normally whatever the
    network answers (a rejected fetch, an error status, a body that is
    not JSON, any events), so the [Promise.all] of [doFullRefresh] is
    fulfilled; an operation whose request failed shows the error state of
    its own region; and no operation writes to the regions of the other
    two or to the timers. *)
Theorem full_refresh_never_rejects (envF envM envS : Env) (p : Page) :
  opReady OpFetchQuakes envF -> opReady OpMajorHighlight envM ->
  fst (doFullRefresh envF envM envS p) = Fulfilled /\
  (forall op env q,
     opReady op env ->
     settle (fst (runOp op env q)) = Fulfilled /\
     (requestFailed op env = true -> errorShown op (snd (runOp op env q)))) /\
  (forall op env q, untouched op q (snd (runOp op env q))) /\
  (forall op env app, auto (snd (appRunOp op env app)) = auto app).
Proof.
  intros HF HM. repeat split.
  - unfold doFullRefresh, runOps.
    pose proof (runOp_total OpFetchQuakes envF p HF) as H1.
    destruct (runOp OpFetchQuakes envF p) as [c1 p1]. simpl in H1. subst c1.
    pose proof (runOp_total OpMajorHighlight envM p1 HM) as H2.
    destruct (runOp OpMajorHighlight envM p1) as [c2 p2]. simpl in H2. subst c2.
    pose proof (runOp_total OpStatistics envS p2 I) as H3.
    destruct (runOp OpStatistics envS p2) as [c3 p3]. simpl in H3. subst c3.
    reflexivity.
  - rewrite runOp_total by assumption. reflexivity.
  - intros Hf. apply runOp_errorShown; assumption.
  - intros op env q. apply runOp_untouched.
  - intros op env app. unfold appRunOp.
    destruct (runOp op env (page app)) as [c p1]. reflexivity.
Qed.

Lemma sampleEnv_sane : saneEnv sampleEnv.
Proof.
  split.
  - unfold saneClock, JsDate.maxTimeValue. simpl. unfold sampleNow. lia.
  - simpl. split; discriminate.
Defined.

Lemma full_refresh_never_rejects_witness :
  opReady OpFetchQuakes sampleEnv /\ opReady OpMajorHighlight sampleEnv /\
  fst (doFullRefresh sampleEnv sampleEnv sampleEnv initialPage) = Fulfilled.
Proof.
  split; [exact sampleEnv_sane|]. split; [exact (proj1 sampleEnv_sane)|].
  pose proof (full_refresh_never_rejects sampleEnv sampleEnv sampleEnv
                initialPage sampleEnv_sane (proj1 sampleEnv_sane))
    as [H _].
  exact H.
Defined.

(** * The list and the map *)

(** The tiers and colours at their thresholds. *)
Example magClass_thresholds :
  magClass 5 = "high"%string /\ magClass 4.9 = "mid"%string /\
  magClass 4 = "mid"%string /\ magClass 3.9 = "low"%string /\
  magClass 0 = "low"%string.
Proof. repeat split; reflexivity. Qed.

Example magColor_thresholds :
  magColor 6 = "#d32f2f"%string /\ magColor 5 = "#ff5c5c"%string /\
  magColor 4 = "#ffb86b"%string /\ magColor 3.9 = "#64ffda"%string /\
  magColor 0 = "#64ffda"%string.
Proof. repeat split; reflexivity. Qed.

Lemma renderFeature_region (now : Z) (f : Feature) (p : Page) :
  let r := renderFeature now f p in
  fst r = Normal tt /\
  quakeList (listRegion (snd r)) =
    match quakeList (listRegion p) with
    | ListCards cs => ListCards (cs ++ [cardOf now f])
    | _ => ListCards [cardOf now f]
    end /\
  quakeLayer (listRegion (snd r)) =
    quakeLayer (listRegion p) ++ match markerOf f with
                                 | Some m => [m]
                                 | None => []
                                 end /\
  lastUpdated (listRegion (snd r)) = lastUpdated (listRegion p).
Proof.
  destruct p as [[seen ts rq ce] lr mr sr]. unfold renderFeature.
  destruct (markerOf f) as [m|];
    destruct (now - orTime (p_time (default emptyProps (f_properties f))) now
              <? 60 * 60 * 1000);
    run_page;
    destruct (bool_decide (f_id f ∈ seen));
    rewrite ?app_nil_r; repeat split; reflexivity.
Qed.

Lemma forEach_renderFeature_region (now : Z) (fs : list Feature) :
  forall (p : Page) (cs : list Card),
    quakeList (listRegion p) = ListCards cs ->
    let r := forEach (renderFeature now) fs p in
    fst r = Normal tt /\
    quakeList (listRegion (snd r)) = ListCards (cs ++ map (cardOf now) fs) /\
    quakeLayer (listRegion (snd r)) =
      quakeLayer (listRegion p) ++ omap markerOf fs /\
    lastUpdated (listRegion (snd r)) = lastUpdated (listRegion p).
Proof.
  induction fs as [|f fs IH]; intros p cs Hcs.
  - simpl. rewrite !app_nil_r. repeat split; first [assumption | reflexivity].
  - cbv zeta. cbn [forEach]. rewrite bind_unfold.
    destruct (renderFeature_region now f p) as (Hn & Hl & Hm & Hu).
    destruct (renderFeature now f p) as [c p1]. simpl in Hn, Hl, Hm, Hu.
    subst c. rewrite Hcs in Hl.
    destruct (IH p1 _ Hl) as (Hn' & Hl' & Hm' & Hu').
    split; [exact Hn'|]. split; [|split].
    + rewrite Hl'. cbn [map]. rewrite <- app_assoc. reflexivity.
    + rewrite Hm', Hm. cbn [omap list_omap].
      destruct (markerOf f); rewrite <- app_assoc; reflexivity.
    + congruence.
Qed.

(** A successful request with events: one card per event and one marker
    per event with coordinates, in the order of the feed. *)
Lemma fetchQuakesAndRender_rendered (env : Env) (p : Page) (u : Url)
    (f : Feature) (fs : list Feature) :
  quakesUrl env = Some u ->
  net env u = Response true (Data (Some (f :: fs))) ->
  let r := fetchQuakesAndRender env p in
  fst r = Normal tt /\
  quakeList (listRegion (snd r)) =
    ListCards (map (cardOf (clock1 env)) (f :: fs)) /\
  quakeLayer (listRegion (snd r)) = omap markerOf (f :: fs) /\
  lastUpdated (listRegion (snd r)) = LabelUpdated.
Proof.
  intros Hu Hnet. unfold fetchQuakesAndRender. rewrite Hu.
  destruct p as [sh lr mr sr].
  cbv beta iota zeta delta
    [mbind mret M_bind M_ret tryCatch throw modify orThrow fetch resJson
     dataFeatures noFeatures withShared withList setQuakeList
     setLastUpdated clearLayers negb fst snd shared listRegion].
  rewrite Hnet.
  cbv beta iota zeta delta
    [mbind mret M_bind M_ret tryCatch throw modify orThrow fetch resJson
     dataFeatures noFeatures withShared withList setQuakeList
     setLastUpdated clearLayers negb fst snd shared listRegion default].
  match goal with
  | |- context [forEach ?g ?l ?q] =>
      destruct (forEach_renderFeature_region (clock1 env) l q [] eq_refl)
        as (Hn & Hl & Hm & Hup);
      destruct (forEach g l q) as [c p1]
  end.
  simpl in Hn, Hl, Hm, Hup. subst c. simpl.
  repeat split; assumption.
Qed.

Lemma Qmax_lower (a b : Q) : (a <= Qmax a b)%Q.
Proof.
  unfold Qmax. destruct (Qle_bool a b) eqn:E.
  - apply Qle_bool_iff, E.
  - apply Qle_refl.
Qed.

Lemma markerOf_radius (f : Feature) (m : Marker) :
  markerOf f = Some m -> (4 <= mk_radius m)%Q.
Proof.
  unfold markerOf.
  destruct (latLon (default [] (f_geometry f))) as [[lat lon]|]; [|discriminate].
  intros [= <-]. apply Qmax_lower.
Qed.

Lemma renderMag_noMagnitude (f : Feature) :
  noMagnitude f -> renderMag (default emptyProps (f_properties f)) = 0%Q.
Proof.
  unfold noMagnitude, renderMag.
  destruct (f_properties f) as [props|]; simpl.
  - intros ->. reflexivity.
  - reflexivity.
Qed.

(** C10.  An event whose magnitude is [null] or [undefined] is rendered
    with magnitude 0: its list card is in the low tier, and when it has
    coordinates it gets a marker, which is teal and has radius 4, the
    least radius a marker can have.  The cards and markers of a
    successful call are those of its events, in order. *)
Theorem missing_magnitude_renders_low (env : Env) (p : Page) (u : Url)
    (f0 : Feature) (fs : list Feature) :
  quakesUrl env = Some u ->
  net env u = Response true (Data (Some (f0 :: fs))) ->
  let r := fetchQuakesAndRender env p in
  quakeList (listRegion (snd r)) =
    ListCards (map (cardOf (clock1 env)) (f0 :: fs)) /\
  quakeLayer (listRegion (snd r)) = omap markerOf (f0 :: fs) /\
  (forall f, f ∈ f0 :: fs -> noMagnitude f ->
     card_mag (cardOf (clock1 env) f) = 0%Q /\
     card_class (cardOf (clock1 env) f) = "low"%string /\
     (forall lat lon,
        latLon (default [] (f_geometry f)) = Some (lat, lon) ->
        exists m, markerOf f = Some m /\
                  mk_color m = "#64ffda"%string /\ mk_radius m = 4%Q)) /\
  (forall m, m ∈ quakeLayer (listRegion (snd r)) -> (4 <= mk_radius m)%Q).
Proof.
  intros Hu Hnet r.
  destruct (fetchQuakesAndRender_rendered env p u f0 fs Hu Hnet)
    as (_ & Hl & Hm & _).
  fold r in Hl, Hm. split; [exact Hl|]. split; [exact Hm|]. split.
  - intros f _ Hmag. unfold cardOf, markerOf. cbn [card_mag card_class].
    rewrite (renderMag_noMagnitude f Hmag). split; [reflexivity|].
    split; [reflexivity|].
    intros lat lon ->. eexists. split; [reflexivity|].
    split; reflexivity.
  - intros m. rewrite Hm. intros Hin.
    apply list_elem_of_omap in Hin. destruct Hin as (f & _ & Hf).
    apply (markerOf_radius f m Hf).
Qed.

Lemma missing_magnitude_renders_low_witness :
  let u := usgsQuery (queryParams "2025-09-25T12:00:00.000Z" 500 None) in
  let f0 := sampleEvent "us7000a" (Some 6.2%Q) (sampleNow - 1000) in
  let fs := [ sampleEvent "us7000b" (Some 4.9%Q) (sampleNow - 2000);
              sampleEvent "us7000c" None (sampleNow - 3 * 86400000) ] in
  quakesUrl sampleEnv = Some u /\
  net sampleEnv u = Response true (Data (Some (f0 :: fs))) /\
  quakeLayer (listRegion (snd (fetchQuakesAndRender sampleEnv initialPage)))
    = omap markerOf (f0 :: fs).
Proof.
  intros u f0 fs.
  assert (Hu : quakesUrl sampleEnv = Some u) by reflexivity.
  assert (Hnet : net sampleEnv u = Response true (Data (Some (f0 :: fs))))
    by reflexivity.
  split; [exact Hu|]. split; [exact Hnet|].
  pose proof (missing_magnitude_renders_low sampleEnv initialPage u f0 fs
                Hu Hnet) as (_ & H & _).
  exact H.
Defined.

(** * The statistics *)

(** ** The scan for the largest magnitude *)

Lemma scanLargest_snoc (fs : list Feature) (f : Feature) :
  scanLargest (fs ++ [f]) = largestStep (scanLargest fs) f.
Proof. unfold scanLargest. rewrite fold_left_app. reflexivity. Qed.

Lemma largestStep_cases (acc : option Largest) (f : Feature) :
  largestStep acc f =
  match eventMag f with
  | None => acc
  | Some m =>
      match acc with
      | None => Some (largestOf f m)
      | Some l => if Qgt_bool m (l_mag l) then Some (largestOf f m) else acc
      end
  end.
Proof.
  unfold largestStep, eventMag, largestOf.
  destruct (f_properties f) as [props|]; [|reflexivity].
  destruct (p_mag props); reflexivity.
Qed.

Lemma Qgt_bool_true (a b : Q) : Qgt_bool a b = true -> (b < a)%Q.
Proof.
  unfold Qgt_bool. intros H. apply negb_true_iff in H.
  apply Qnot_le_lt. intros Hle. apply Qle_bool_iff in Hle. congruence.
Qed.

Lemma Qgt_bool_false (a b : Q) : Qgt_bool a b = false -> (a <= b)%Q.
Proof.
  unfold Qgt_bool. intros H. apply negb_false_iff in H.
  apply Qle_bool_iff, H.
Qed.

(** The scan returns nothing exactly when no event has a magnitude. *)
Lemma scanLargest_None (fs : list Feature) :
  scanLargest fs = None <-> forall f, f ∈ fs -> eventMag f = None.
Proof.
  induction fs as [|f fs IH] using rev_ind.
  - split; [intros _ f Hf; inversion Hf | reflexivity].
  - rewrite scanLargest_snoc, largestStep_cases. split.
    + intros H g Hg. apply elem_of_app in Hg.
      destruct (eventMag f) as [m|] eqn:Em.
      * destruct (scanLargest fs) as [l|]; [|discriminate].
        destruct (Qgt_bool m (l_mag l)); discriminate.
      * destruct Hg as [Hg|Hg]; [apply IH; assumption|].
        apply list_elem_of_singleton in Hg. subst g. exact Em.
    + intros H. rewrite (H f) by (apply elem_of_app; right; constructor).
      apply IH. intros g Hg. apply H, elem_of_app. left. exact Hg.
Qed.

(** What the scan returns is made from the first event among those of
    the largest magnitude. *)
Lemma scanLargest_Some (fs : list Feature) (l : Largest) :
  scanLargest fs = Some l ->
  exists (i : nat) (f : Feature),
    fs !! i = Some f /\ eventMag f = Some (l_mag l) /\
    l = largestOf f (l_mag l) /\
    (forall g m, g ∈ fs -> eventMag g = Some m -> (m <= l_mag l)%Q) /\
    (forall (j : nat) g m, (j < i)%nat -> fs !! j = Some g ->
                           eventMag g = Some m -> (m < l_mag l)%Q).
Proof.
  revert l. induction fs as [|f fs IH] using rev_ind; intros l.
  - discriminate.
  - rewrite scanLargest_snoc, largestStep_cases.
    destruct (eventMag f) as [m|] eqn:Em.
    + destruct (scanLargest fs) as [l0|] eqn:E0.
      * destruct (Qgt_bool m (l_mag l0)) eqn:Egt.
        -- (* the new event is strictly larger *)
           intros [= <-]. apply Qgt_bool_true in Egt.
           destruct (IH l0 eq_refl) as (i0 & f0 & _ & _ & _ & Hmax & _).
           exists (length fs), f. cbn [l_mag largestOf].
           split; [apply list_lookup_middle; reflexivity|].
           split; [exact Em|]. split; [reflexivity|]. split.
           ++ intros g m' Hg Hm'. apply elem_of_app in Hg.
              destruct Hg as [Hg|Hg].
              ** apply Qlt_le_weak. eapply Qle_lt_trans; [|exact Egt].
                 eapply Hmax; eassumption.
              ** apply list_elem_of_singleton in Hg. subst g.
                 rewrite Em in Hm'. injection Hm' as <-. apply Qle_refl.
           ++ intros j g m' Hj Hg Hm'.
              rewrite lookup_app_l in Hg by exact Hj.
              eapply Qle_lt_trans; [|exact Egt].
              eapply Hmax; [|exact Hm'].
              apply list_elem_of_lookup. eauto.
        -- (* the earlier event stays *)
           intros [= <-]. apply Qgt_bool_false in Egt.
           destruct (IH l0 eq_refl) as (i0 & f0 & Hi0 & Hm0 & Hl0 & Hmax & Hfirst).
           exists i0, f0.
           split; [apply lookup_app_l_Some; exact Hi0|].
           split; [exact Hm0|]. split; [exact Hl0|]. split.
           ++ intros g m' Hg Hm'. apply elem_of_app in Hg.
              destruct Hg as [Hg|Hg]; [eapply Hmax; eassumption|].
              apply list_elem_of_singleton in Hg. subst g.
              rewrite Em in Hm'. injection Hm' as <-. exact Egt.
           ++ intros j g m' Hj Hg Hm'.
              assert (Hlt : (i0 < length fs)%nat)
                by (eapply lookup_lt_Some; exact Hi0).
              rewrite lookup_app_l in Hg by lia.
              eapply Hfirst; eassumption.
      * (* the first event with a magnitude *)
        intros [= <-]. cbn [l_mag largestOf].
        pose proof (proj1 (scanLargest_None fs) E0) as Hnone.
        exists (length fs), f.
        split; [apply list_lookup_middle; reflexivity|].
        split; [exact Em|]. split; [reflexivity|]. split.
        -- intros g m' Hg Hm'. apply elem_of_app in Hg.
           destruct Hg as [Hg|Hg].
           ++ rewrite (Hnone g Hg) in Hm'. discriminate.
           ++ apply list_elem_of_singleton in Hg. subst g.
              rewrite Em in Hm'. injection Hm' as <-. apply Qle_refl.
        -- intros j g m' Hj Hg Hm'.
           rewrite lookup_app_l in Hg by exact Hj.
           rewrite (Hnone g) in Hm' by (apply list_elem_of_lookup; eauto).
           discriminate.
    + intros E0.
      destruct (IH l E0) as (i0 & f0 & Hi0 & Hm0 & Hl0 & Hmax & Hfirst).
      exists i0, f0.
      split; [apply lookup_app_l_Some; exact Hi0|].
      split; [exact Hm0|]. split; [exact Hl0|]. split.
      * intros g m' Hg Hm'. apply elem_of_app in Hg.
        destruct Hg as [Hg|Hg]; [eapply Hmax; eassumption|].
        apply list_elem_of_singleton in Hg. subst g. congruence.
      * intros j g m' Hj Hg Hm'.
        assert (Hlt : (i0 < length fs)%nat)
          by (eapply lookup_lt_Some; exact Hi0).
        rewrite lookup_app_l in Hg by lia.
        eapply Hfirst; eassumption.
Qed.

Lemma within24_eventTime (cutoff : Z) (f : Feature) :
  within24 cutoff f = true <-> exists t, eventTime f = Some t /\ cutoff <= t.
Proof.
  unfold within24, eventTime. destruct (f_properties f) as [props|].
  - destruct (truthyTime (p_time props)) as [t|].
    + split.
      * intros H. exists t. split; [reflexivity | apply Z.leb_le, H].
      * intros (t' & [= <-] & H). apply Z.leb_le, H.
    + split; [discriminate | intros (t' & H & _); discriminate].
  - split; [discriminate | intros (t' & H & _); discriminate].
Qed.

(** ** The buckets *)

Lemma bucketHas_labels (k : string) (b : Buckets) :
  bucketHas k b = true <-> k ∈ bucketLabels b.
Proof.
  induction b as [|[k' c] b IH]; simpl.
  - split; [discriminate | intros H; inversion H].
  - rewrite orb_true_iff, IH, elem_of_cons, String.eqb_eq. reflexivity.
Qed.

Lemma bucketLabels_set (k : string) (v : nat) (b : Buckets) :
  bucketLabels (bucketSet k v b) =
  if bucketHas k b then bucketLabels b else bucketLabels b ++ [k].
Proof.
  induction b as [|[k' c] b IH]; simpl; [reflexivity|].
  destruct (String.eqb k k') eqn:E; simpl; [reflexivity|].
  rewrite IH. destruct (bucketHas k b); reflexivity.
Qed.

Lemma bucketLabels_incr (k : string) (b : Buckets) :
  bucketLabels (bucketIncr k b) = bucketLabels b.
Proof.
  induction b as [|[k' c] b IH]; simpl; [reflexivity|].
  destruct (String.eqb k k'); simpl; [reflexivity|]. rewrite IH. reflexivity.
Qed.

Lemma bucketGet_incr (k k' : string) (b : Buckets) :
  bucketGet k' (bucketIncr k b) =
  if bucketHas k b && String.eqb k' k then S (bucketGet k' b)
  else bucketGet k' b.
Proof.
  induction b as [|[k0 c] b IH]; simpl; [reflexivity|].
  destruct (String.eqb k k0) eqn:E; simpl.
  - apply String.eqb_eq in E. subst k0.
    destruct (String.eqb k' k); reflexivity.
  - destruct (String.eqb k' k0) eqn:E'; simpl.
    + apply String.eqb_eq in E'. subst k0.
      rewrite String.eqb_sym, E, andb_false_r. reflexivity.
    + exact IH.
Qed.

Lemma bucketGet_set_absent (k : string) (v : nat) (b : Buckets) :
  bucketHas k b = false ->
  forall k', bucketGet k' (bucketSet k v b) =
             if String.eqb k' k then v else bucketGet k' b.
Proof.
  induction b as [|[k0 c] b IH]; simpl; intros H k'.
  - reflexivity.
  - apply orb_false_iff in H. destruct H as [E Hb]. rewrite E. simpl.
    destruct (String.eqb k' k0) eqn:E'.
    + apply String.eqb_eq in E'. subst k0. rewrite String.eqb_sym, E.
      reflexivity.
    + apply IH, Hb.
Qed.

Lemma bucketSet_absent (k : string) (v : nat) (b : Buckets) :
  bucketHas k b = false -> bucketSet k v b = b ++ [(k, v)].
Proof.
  induction b as [|[k0 c] b IH]; simpl; intros H; [reflexivity|].
  apply orb_false_iff in H. destruct H as [E Hb]. rewrite E, IH by exact Hb.
  reflexivity.
Qed.

Lemma bucketHas_false (k : string) (b : Buckets) :
  k ∉ bucketLabels b -> bucketHas k b = false.
Proof.
  intros H. destruct (bucketHas k b) eqn:E; [|reflexivity].
  apply bucketHas_labels in E. contradiction.
Qed.

Lemma bucketSet_NoDup (k : string) (v : nat) (b : Buckets) :
  NoDup (bucketLabels b) -> NoDup (bucketLabels (bucketSet k v b)).
Proof.
  intros H. rewrite bucketLabels_set. destruct (bucketHas k b) eqn:E.
  - exact H.
  - apply NoDup_app. split; [exact H|]. split.
    + intros x Hx Hk. apply list_elem_of_singleton in Hk. subst x.
      apply bucketHas_labels in Hx. congruence.
    + apply NoDup_singleton.
Qed.

Lemma bucketSet_zero (k : string) (b : Buckets) :
  Forall (fun kc => snd kc = 0%nat) b ->
  Forall (fun kc => snd kc = 0%nat) (bucketSet k 0%nat b).
Proof.
  induction 1 as [|[k0 c] b Hc Hb IH]; simpl.
  - repeat constructor.
  - destruct (String.eqb k k0); constructor; assumption || reflexivity.
Qed.

(** After the loop of lines 323-328 the keys are pairwise different,
    every count is zero, and the keys are those the loop computed. *)
Lemma zeroAll_wf (keys : list string) :
  forall b : Buckets,
    NoDup (bucketLabels b) -> Forall (fun kc => snd kc = 0%nat) b ->
    NoDup (bucketLabels (zeroAll keys b)) /\
    Forall (fun kc => snd kc = 0%nat) (zeroAll keys b) /\
    (forall k, k ∈ bucketLabels (zeroAll keys b) <->
               k ∈ bucketLabels b \/ k ∈ keys).
Proof.
  induction keys as [|k keys IH]; intros b Hnd Hz; simpl.
  - split; [exact Hnd|]. split; [exact Hz|].
    intros k. split; [auto | intros [H|H]; [exact H | inversion H]].
  - destruct (IH (bucketSet k 0%nat b) (bucketSet_NoDup _ _ _ Hnd)
                 (bucketSet_zero _ _ Hz)) as (H1 & H2 & H3).
    split; [exact H1|]. split; [exact H2|].
    intros k'. rewrite H3, bucketLabels_set, elem_of_cons.
    destruct (bucketHas k b) eqn:E.
    + apply bucketHas_labels in E. split.
      * intros [H|H]; auto.
      * intros [H|[->|H]]; auto.
    + rewrite elem_of_app, list_elem_of_singleton. tauto.
Qed.

(** With pairwise different keys the loop builds one zero bucket per
    key, in the order of the loop. *)
Lemma zeroAll_NoDup (keys : list string) :
  forall b : Buckets,
    NoDup (bucketLabels b ++ keys) ->
    zeroAll keys b = b ++ map (fun k => (k, 0%nat)) keys.
Proof.
  induction keys as [|k keys IH]; intros b Hnd; simpl.
  - rewrite app_nil_r. reflexivity.
  - assert (Hk : bucketHas k b = false).
    { apply bucketHas_false. apply NoDup_app in Hnd.
      destruct Hnd as (_ & Hd & _). intros Hin.
      apply (Hd k Hin). left. }
    rewrite (bucketSet_absent _ _ _ Hk), IH.
    + rewrite <- app_assoc. reflexivity.
    + unfold bucketLabels. rewrite map_app. simpl.
      rewrite <- app_assoc. exact Hnd.
Qed.

Lemma initBuckets_zeroAll (zone : JsDate.TimeZone) (now : Z)
    (key : Z -> string) (backs : list Z) :
  (forall i, i ∈ backs -> bucketKey zone now i = Some (key i)) ->
  forall b, initBuckets zone now backs b = Some (zeroAll (map key backs) b).
Proof.
  induction backs as [|i backs IH]; intros Hk b;
    cbn [initBuckets map zeroAll fold_left]; [reflexivity|].
  rewrite (Hk i) by left. apply IH. intros j Hj. apply Hk. right. exact Hj.
Qed.

Lemma TimeClip_in_range (t : Z) :
  Z.abs t <= JsDate.maxTimeValue -> JsDate.TimeClip t = Some t.
Proof.
  intros H. unfold JsDate.TimeClip.
  destruct (Z.leb_spec (Z.abs t) JsDate.maxTimeValue); [reflexivity | lia].
Qed.

(** The key of the bucket [i] days back is the first ten characters of
    the ISO string of [daysBack zone now i]. *)
Lemma bucketKey_daysBack (zone : JsDate.TimeZone) (now i : Z) :
  saneZone zone -> fourDigitClock now -> 0 <= i <= 6 ->
  bucketKey zone now i =
  Some (JsDate.slice_0_10 (JsDate.isoOfTime (daysBack zone now i))).
Proof.
  intros Hz Hn Hi. unfold bucketKey.
  rewrite DateFacts.setDate_back. fold (daysBack zone now i).
  rewrite TimeClip_in_range; [reflexivity|].
  unfold daysBack, JsDate.UTC, JsDate.LocalTime, fourDigitClock in *.
  destruct (Hz now) as [H1 _].
  destruct (Hz (now + JsDate.tzaUtc zone now - i * JsDate.msPerDay)) as [_ H2].
  unfold JsDate.msPerDay, JsDate.maxTimeValue in *. lia.
Qed.

Lemma sixToZero_range (i : Z) : i ∈ sixToZero -> 0 <= i <= 6.
Proof.
  unfold sixToZero. intros H.
  repeat (apply elem_of_cons in H; destruct H as [->|H]; [lia|]).
  inversion H.
Qed.

(** The loop of lines 323-328 completes under any sane zone. *)
Lemma initBuckets_sane (zone : JsDate.TimeZone) (now : Z) :
  saneZone zone -> fourDigitClock now ->
  initBuckets zone now sixToZero [] =
  Some (zeroAll
          (map (fun i => JsDate.slice_0_10
                           (JsDate.isoOfTime (daysBack zone now i)))
               sixToZero) []).
Proof.
  intros Hz Hn. apply initBuckets_zeroAll. intros i Hi.
  apply bucketKey_daysBack; [assumption .. | apply sixToZero_range, Hi].
Qed.

(** ** Counting *)

Lemma countStep_cases (b : Buckets) (f : Feature) :
  countStep b f =
  match eventTime f with
  | None => Some b
  | Some t =>
      match dayKey (JsDate.newDate t) with
      | Some key => Some (if bucketHas key b then bucketIncr key b else b)
      | None => None
      end
  end.
Proof.
  unfold countStep, eventTime. destruct (f_properties f); reflexivity.
Qed.

Lemma dayKey_valid (t : Z) :
  Z.abs t <= JsDate.maxTimeValue ->
  dayKey (JsDate.newDate t) =
  Some (JsDate.slice_0_10 (JsDate.isoOfTime t)).
Proof.
  intros H. unfold JsDate.newDate. rewrite TimeClip_in_range by exact H.
  reflexivity.
Qed.

Lemma countFor_cons (k : string) (f : Feature) (fs : list Feature) :
  countFor k (f :: fs) =
  ((if decide (eventKey f = Some k) then 1 else 0) + countFor k fs)%nat.
Proof.
  unfold countFor. rewrite filter_cons.
  destruct (decide (eventKey f = Some k)); reflexivity.
Qed.

(** The loop of lines 329-335: the keys stay as they are, and the count
    of each key grows by the number of events that have this key. *)
Lemma countAll_spec (fs : list Feature) :
  forall b : Buckets,
    validTimes fs ->
    exists b',
      countAll fs b = Some b' /\
      bucketLabels b' = bucketLabels b /\
      forall k, bucketGet k b' =
                (bucketGet k b +
                 if bucketHas k b then countFor k fs else 0)%nat.
Proof.
  induction fs as [|f fs IH]; intros b Hv.
  - exists b. split; [reflexivity|]. split; [reflexivity|].
    intros k. unfold countFor. simpl. destruct (bucketHas k b); lia.
  - apply Forall_cons in Hv. destruct Hv as [Hf Hv].
    cbn [countAll]. rewrite countStep_cases.
    unfold eventKey in *. 
    destruct (eventTime f) as [t|] eqn:Et.
    + rewrite (dayKey_valid t Hf).
      set (key := JsDate.slice_0_10 (JsDate.isoOfTime t)).
      destruct (IH (if bucketHas key b then bucketIncr key b else b) Hv)
        as (b' & Hc & Hl & Hg).
      exists b'. split; [exact Hc|]. split.
      * rewrite Hl. destruct (bucketHas key b);
          [apply bucketLabels_incr | reflexivity].
      * intros k. rewrite Hg, countFor_cons. unfold eventKey.
        rewrite Et, (dayKey_valid t Hf). fold key.
        destruct (bucketHas key b) eqn:Hkey.
        -- assert (Hsame : bucketHas k (bucketIncr key b) = bucketHas k b).
           { destruct (bucketHas k b) eqn:Hk.
             - apply bucketHas_labels. rewrite bucketLabels_incr.
               apply bucketHas_labels, Hk.
             - apply bucketHas_false. rewrite bucketLabels_incr.
               intros Hin. apply bucketHas_labels in Hin. congruence. }
           rewrite Hsame, bucketGet_incr, Hkey. simpl.
           destruct (String.eqb k key) eqn:E.
           ++ apply String.eqb_eq in E. subst k. rewrite Hkey.
              rewrite decide_True by reflexivity. lia.
           ++ apply String.eqb_neq in E.
              rewrite decide_False by congruence.
              destruct (bucketHas k b); lia.
        -- destruct (decide (Some key = Some k)) as [[= ->]|Hne].
           ++ rewrite Hkey. lia.
           ++ destruct (bucketHas k b); lia.
    + destruct (IH b Hv) as (b' & Hc & Hl & Hg).
      exists b'. split; [exact Hc|]. split; [exact Hl|].
      intros k. rewrite Hg, countFor_cons. unfold eventKey. rewrite Et.
      rewrite decide_False by discriminate. reflexivity.
Qed.

(** ** The whole of [updateStatistics] *)

(** A successful call: what the statistics panel and the chart show. *)
Lemma updateStatistics_run (env : Env) (p : Page) (u : Url)
    (fs : option (list Feature)) (b0 b : Buckets) :
  statsUrl (clock0 env) = Some u ->
  net env u = Response true (Data fs) ->
  initBuckets (tz env) (clock1 env) sixToZero [] = Some b0 ->
  countAll (default [] fs) b0 = Some b ->
  let r := updateStatistics env p in
  fst r = Normal tt /\
  statsRegion (snd r) =
    {| statDailyCount := StatCount (length (last24 (clock1 env) (default [] fs)));
       statWeeklyCount := StatCount (length (default [] fs));
       statLargest24h :=
         match scanLargest (last24 (clock1 env) (default [] fs)) with
         | Some l => StatMag (l_mag l)
         | None => StatDash
         end;
       weekChart := Some {| chart_labels := bucketLabels b;
                            chart_data := bucketCounts b;
                            chart_colors := map barColor (bucketCounts b) |} |} /\
  consoleErrors (shared (snd r)) = consoleErrors (shared p).
Proof.
  intros Hu Hnet Hb0 Hb. unfold updateStatistics, last24. rewrite Hu.
  destruct p as [[seen ts rq ce] lr mr sr].
  run_page. rewrite Hnet. run_page.
  destruct (scanLargest _) as [l|]; run_page.
  - destruct (Qge_bool (l_mag l) 5); destruct (bool_decide (l_id l ∈ seen));
      run_page; rewrite Hb0; run_page; rewrite Hb; run_page;
      repeat split; reflexivity.
  - rewrite Hb0. run_page. rewrite Hb. run_page. repeat split; reflexivity.
Qed.

(** With a sane zone and clock and with times a [Date] can hold, the
    buckets are built and filled without an exception. *)
Lemma buckets_built (zone : JsDate.TimeZone) (now : Z) (fs : list Feature) :
  saneZone zone -> fourDigitClock now -> validTimes fs ->
  exists b0 b,
    initBuckets zone now sixToZero [] = Some b0 /\
    countAll fs b0 = Some b /\
    NoDup (bucketLabels b0) /\
    Forall (fun kc => snd kc = 0%nat) b0 /\
    bucketLabels b = bucketLabels b0 /\
    forall k, k ∈ bucketLabels b0 -> bucketGet k b = countFor k fs.
Proof.
  intros Hz Hn Hv. rewrite (initBuckets_sane zone now Hz Hn).
  set (keys := map _ sixToZero).
  destruct (zeroAll_wf keys [] (NoDup_nil_2) (Forall_nil_2 _))
    as (Hnd & Hzero & _).
  destruct (countAll_spec fs (zeroAll keys []) Hv) as (b & Hc & Hl & Hg).
  exists (zeroAll keys []), b.
  split; [reflexivity|]. split; [exact Hc|]. split; [exact Hnd|].
  split; [exact Hzero|]. split; [exact Hl|].
  intros k Hk. rewrite Hg.
  apply bucketHas_labels in Hk. rewrite Hk.
  assert (H0 : bucketGet k (zeroAll keys []) = 0%nat).
  { clear -Hzero. induction Hzero as [|[k0 c] b' Hc _ IH]; simpl.
    - reflexivity.
    - simpl in Hc. subst c. destruct (String.eqb k k0); [reflexivity | exact IH]. }
  rewrite H0. reflexivity.
Qed.

Lemma bucketCounts_countFor (feats : list Feature) (b0 b : Buckets) :
  bucketLabels b = bucketLabels b0 ->
  (forall k, k ∈ bucketLabels b0 -> bucketGet k b = countFor k feats) ->
  bucketCounts b = map (fun k => countFor k feats) (bucketLabels b).
Proof.
  intros Hl Hg. unfold bucketCounts. apply map_ext_in.
  intros k Hk. apply Hg. rewrite <- Hl. apply list_elem_of_In, Hk.
Qed.

Lemma sampleZone_sane : saneZone JsDate.manila.
Proof.
  intros t. unfold JsDate.manila, JsDate.fixedZone, JsDate.msPerHour,
    JsDate.msPerDay. simpl. lia.
Defined.

Lemma sampleClock_fourDigit : fourDigitClock (clock1 sampleEnv).
Proof. unfold fourDigitClock. simpl. unfold sampleNow. lia. Defined.

(** C8.  In [updateStatistics] the largest event of the last 24 hours is
    found by one scan over the events whose time is at or after the
    cut-off.  Events without a magnitude are passed over.  The result is
    made from the first event among those of the largest magnitude (a
    later event replaces the current one only when it is strictly
    larger), and the panel shows its magnitude; when no event has a
    magnitude the panel shows the dash. *)
Theorem largest24_first_maximum (env : Env) (p : Page) (u : Url)
    (fs : option (list Feature)) :
  statsUrl (clock0 env) = Some u ->
  net env u = Response true (Data fs) ->
  saneZone (tz env) -> fourDigitClock (clock1 env) ->
  validTimes (default [] fs) ->
  let feats := default [] fs in
  let features24 := last24 (clock1 env) feats in
  let shown := statLargest24h (statsRegion (snd (updateStatistics env p))) in
  (forall f, f ∈ features24 <->
             f ∈ feats /\
             exists t, eventTime f = Some t /\
                       clock1 env - 24 * 60 * 60 * 1000 <= t) /\
  shown = match scanLargest features24 with
          | Some l => StatMag (l_mag l)
          | None => StatDash
          end /\
  (scanLargest features24 = None <->
   forall f, f ∈ features24 -> eventMag f = None) /\
  (forall l, scanLargest features24 = Some l ->
     exists (i : nat) (f : Feature),
       features24 !! i = Some f /\ eventMag f = Some (l_mag l) /\
       l = largestOf f (l_mag l) /\
       (forall g m, g ∈ features24 -> eventMag g = Some m ->
                    (m <= l_mag l)%Q) /\
       (forall (j : nat) g m, (j < i)%nat -> features24 !! j = Some g ->
                              eventMag g = Some m -> (m < l_mag l)%Q)).
Proof.
  intros Hu Hnet Hz Hn Hv feats features24 shown.
  destruct (buckets_built (tz env) (clock1 env) feats Hz Hn Hv)
    as (b0 & b & Hb0 & Hb & _).
  destruct (updateStatistics_run env p u fs b0 b Hu Hnet Hb0 Hb)
    as (_ & Hr & _).
  split; [|split; [|split]].
  - intros f. unfold features24, last24. rewrite list_elem_of_filter.
    rewrite within24_eventTime. tauto.
  - unfold shown. rewrite Hr. reflexivity.
  - apply scanLargest_None.
  - apply scanLargest_Some.
Qed.

Lemma largest24_first_maximum_witness :
  let u := usgsQuery (queryParams "2025-09-25T12:00:00.000Z" 2000 None) in
  let fs := Some [ sampleEvent "us7000a" (Some 6.2%Q) (sampleNow - 1000);
                   sampleEvent "us7000b" (Some 4.9%Q) (sampleNow - 2000);
                   sampleEvent "us7000c" None (sampleNow - 3 * 86400000) ] in
  statsUrl (clock0 sampleEnv) = Some u /\
  net sampleEnv u = Response true (Data fs) /\
  saneZone (tz sampleEnv) /\ fourDigitClock (clock1 sampleEnv) /\
  validTimes (default [] fs) /\
  statLargest24h (statsRegion (snd (updateStatistics sampleEnv initialPage)))
    = StatMag 6.2%Q.
Proof.
  intros u fs.
  assert (Hu : statsUrl (clock0 sampleEnv) = Some u) by reflexivity.
  assert (Hnet : net sampleEnv u = Response true (Data fs)) by reflexivity.
  assert (Hv : validTimes (default [] fs)).
  { unfold validTimes, fs. cbn [default].
    repeat constructor; unfold sampleEvent, eventTime, sampleNow,
      JsDate.maxTimeValue; simpl; lia. }
  split; [exact Hu|]. split; [exact Hnet|].
  split; [exact sampleZone_sane|]. split; [exact sampleClock_fourDigit|].
  split; [exact Hv|].
  pose proof (largest24_first_maximum sampleEnv initialPage u fs Hu Hnet
                sampleZone_sane sampleClock_fourDigit Hv) as (_ & H & _).
  rewrite H. reflexivity.
Defined.

(** The chart of a successful call, against the buckets the loop built. *)
Lemma events_counted_by_utc_day_aux (env : Env) (p : Page) (u : Url)
    (fs : option (list Feature)) :
  statsUrl (clock0 env) = Some u ->
  net env u = Response true (Data fs) ->
  saneZone (tz env) -> fourDigitClock (clock1 env) ->
  validTimes (default [] fs) ->
  exists b0 c,
    initBuckets (tz env) (clock1 env) sixToZero [] = Some b0 /\
    weekChart (statsRegion (snd (updateStatistics env p))) = Some c /\
    chart_labels c = bucketLabels b0 /\
    NoDup (chart_labels c) /\
    chart_data c = map (fun k => countFor k (default [] fs)) (chart_labels c).
Proof.
  intros Hu Hnet Hz Hn Hv.
  destruct (buckets_built (tz env) (clock1 env) (default [] fs) Hz Hn Hv)
    as (b0 & b & Hb0 & Hb & Hnd & _ & Hl & Hg).
  destruct (updateStatistics_run env p u fs b0 b Hu Hnet Hb0 Hb)
    as (_ & Hr & _).
  exists b0. eexists. split; [exact Hb0|]. rewrite Hr. cbn [weekChart].
  split; [reflexivity|]. cbn [chart_labels chart_data].
  split; [exact Hl|]. split; [rewrite Hl; exact Hnd|].
  apply (bucketCounts_countFor (default [] fs) b0 b Hl Hg).
Qed.

(** C3, as amended.  In a successful [updateStatistics] every bar of the
    chart counts the events whose day key is the bar's label, where the
    day key of an event is the first ten characters of the ISO string of
    its time: its UTC calendar day.  The labels are the keys the bucket
    loop built and are pairwise different.  An event whose key is not
    among them is counted nowhere; the call still completes normally and
    logs no error. *)
Theorem events_counted_by_utc_day (env : Env) (p : Page) (u : Url)
    (fs : option (list Feature)) :
  statsUrl (clock0 env) = Some u ->
  net env u = Response true (Data fs) ->
  saneZone (tz env) -> fourDigitClock (clock1 env) ->
  validTimes (default [] fs) ->
  let feats := default [] fs in
  let r := updateStatistics env p in
  fst r = Normal tt /\
  consoleErrors (shared (snd r)) = consoleErrors (shared p) /\
  (exists b0 c,
     initBuckets (tz env) (clock1 env) sixToZero [] = Some b0 /\
     weekChart (statsRegion (snd r)) = Some c /\
     chart_labels c = bucketLabels b0 /\
     NoDup (chart_labels c) /\
     chart_data c = map (fun k => countFor k feats) (chart_labels c)) /\
  (forall f t, eventTime f = Some t ->
               -719528 <= JsDate.Day t <= 2932896 ->
               eventKey f = Some (utcDate t)).
Proof.
  intros Hu Hnet Hz Hn Hv feats r.
  destruct (buckets_built (tz env) (clock1 env) feats Hz Hn Hv)
    as (b0 & b & Hb0 & Hb & Hnd & _ & Hl & Hg).
  destruct (updateStatistics_run env p u fs b0 b Hu Hnet Hb0 Hb)
    as (Hnorm & Hr & Hce).
  fold r in Hnorm, Hr, Hce.
  split; [exact Hnorm|]. split; [exact Hce|]. split.
  - apply (events_counted_by_utc_day_aux env p u fs Hu Hnet Hz Hn Hv).
  - intros f t Ht Hday. unfold eventKey. rewrite Ht.
    rewrite <- (dayKey_utcDate t Hday). f_equal.
    apply TimeClip_in_range.
    unfold JsDate.Day, JsDate.msPerDay, JsDate.maxTimeValue in *.
    Z.div_mod_to_equations. lia.
Qed.

Lemma events_counted_by_utc_day_witness :
  let u := usgsQuery (queryParams "2025-09-25T12:00:00.000Z" 2000 None) in
  let fs := Some [nightEvent] in
  statsUrl (clock0 nightEnv) = Some u /\
  net nightEnv u = Response true (Data fs) /\
  saneZone (tz nightEnv) /\ fourDigitClock (clock1 nightEnv) /\
  validTimes (default [] fs) /\
  fst (updateStatistics nightEnv initialPage) = Normal tt.
Proof.
  intros u fs.
  assert (Hu : statsUrl (clock0 nightEnv) = Some u) by reflexivity.
  assert (Hnet : net nightEnv u = Response true (Data fs)) by reflexivity.
  assert (Hv : validTimes (default [] fs)).
  { unfold validTimes, fs. cbn [default].
    repeat constructor; unfold nightEvent, sampleEvent, eventTime,
      JsDate.maxTimeValue; simpl; lia. }
  split; [exact Hu|]. split; [exact Hnet|].
  split; [exact sampleZone_sane|]. split; [exact sampleClock_fourDigit|].
  split; [exact Hv|].
  pose proof (events_counted_by_utc_day nightEnv initialPage u fs Hu Hnet
                sampleZone_sane sampleClock_fourDigit Hv) as (H & _).
  exact H.
Defined.

(** C3, as the specification words it, fails: an event at 04:00 on
    2 October, Philippine time, falls on 1 October in UTC.  The bar of
    2 October is there and counts nothing; the bar of 1 October counts
    the event. *)
Lemma events_not_counted_by_local_day :
  eventTime nightEvent = Some 1759348800000 /\
  manilaDate 1759348800000 = "2025-10-02"%string /\
  utcDate 1759348800000 = "2025-10-01"%string /\
  exists c,
    weekChart (statsRegion (snd (updateStatistics nightEnv initialPage)))
      = Some c /\
    chart_labels c !! 6%nat = Some "2025-10-02"%string /\
    chart_data c !! 6%nat = Some 0%nat /\
    chart_labels c !! 5%nat = Some "2025-10-01"%string /\
    chart_data c !! 5%nat = Some 1%nat /\
    (countedByManilaDay [nightEvent] c -> False).
Proof.
  split; [reflexivity|]. split; [reflexivity|]. split; [reflexivity|].
  eexists. split; [vm_compute; reflexivity|].
  split; [reflexivity|]. split; [reflexivity|].
  split; [reflexivity|]. split; [reflexivity|].
  intros H. specialize (H 6%nat "2025-10-02"%string eq_refl).
  vm_compute in H. discriminate H.
Qed.

(** ** Seven buckets *)

Lemma bucketKey_fixedZone (off now i : Z) :
  fourDigitClock now -> 0 <= i <= 6 ->
  bucketKey (JsDate.fixedZone off) now i
  = Some (utcDate (now - i * JsDate.msPerDay)).
Proof.
  intros Hn Hi. unfold bucketKey. rewrite DateFacts.setDate_fixedZone.
  unfold fourDigitClock in Hn.
  rewrite TimeClip_in_range
    by (unfold JsDate.msPerDay, JsDate.maxTimeValue; lia).
  apply dayKey_utcDate. rewrite DateFacts.Day_back.
  unfold JsDate.Day, JsDate.msPerDay. Z.div_mod_to_equations. lia.
Qed.

Lemma utcDate_back_inj (now i j : Z) :
  fourDigitClock now -> 0 <= i <= 6 -> 0 <= j <= 6 ->
  utcDate (now - i * JsDate.msPerDay) = utcDate (now - j * JsDate.msPerDay) ->
  i = j.
Proof.
  intros Hn Hi Hj H. unfold fourDigitClock in Hn.
  apply utcDate_inj in H.
  - rewrite !DateFacts.Day_back in H. lia.
  - rewrite DateFacts.Day_back. unfold JsDate.Day, JsDate.msPerDay.
    Z.div_mod_to_equations. lia.
  - rewrite DateFacts.Day_back. unfold JsDate.Day, JsDate.msPerDay.
    Z.div_mod_to_equations. lia.
Qed.

(** In a zone whose offset from UTC never changes, as Philippine time,
    the loop of lines 323-328 builds seven zero buckets, keyed oldest to
    newest by the seven UTC calendar days that end with the day of the
    clock. *)
Lemma initBuckets_fixedZone (off now : Z) :
  fourDigitClock now ->
  initBuckets (JsDate.fixedZone off) now sixToZero [] =
  Some (map (fun i => (utcDate (now - i * JsDate.msPerDay), 0%nat)) sixToZero).
Proof.
  intros Hn.
  rewrite (initBuckets_zeroAll (JsDate.fixedZone off) now
             (fun i => utcDate (now - i * JsDate.msPerDay)) sixToZero)
    by (intros i Hi; apply bucketKey_fixedZone;
        [exact Hn | apply sixToZero_range, Hi]).
  rewrite zeroAll_NoDup.
  - rewrite List.map_map. reflexivity.
  - assert (Hinj : forall i j, 0 <= i <= 6 -> 0 <= j <= 6 ->
               utcDate (now - i * JsDate.msPerDay)
               = utcDate (now - j * JsDate.msPerDay) -> i = j)
      by (intros i j; apply utcDate_back_inj; exact Hn).
    cbn [bucketLabels map app]. unfold sixToZero. cbn [map].
    repeat (apply NoDup_cons; split;
            [ rewrite ?elem_of_cons; intros Hin;
              repeat (destruct Hin as [Hin|Hin];
                      [apply Hinj in Hin; lia|]);
              inversion Hin
            | ]).
    apply NoDup_nil_2.
Qed.

(** In such a zone the chart of every successful statistics refresh has
    exactly these seven labels, whatever the events. *)
Lemma seven_buckets_fixed_zone (env : Env) (p : Page) (u : Url)
    (fs : option (list Feature)) (off : Z) :
  statsUrl (clock0 env) = Some u ->
  net env u = Response true (Data fs) ->
  tz env = JsDate.fixedZone off -> Z.abs off <= JsDate.msPerDay ->
  fourDigitClock (clock1 env) ->
  validTimes (default [] fs) ->
  exists c,
    weekChart (statsRegion (snd (updateStatistics env p))) = Some c /\
    chart_labels c =
      map (fun i => utcDate (clock1 env - i * JsDate.msPerDay)) sixToZero /\
    length (chart_labels c) = 7%nat /\
    NoDup (chart_labels c) /\
    chart_data c = map (fun k => countFor k (default [] fs)) (chart_labels c).
Proof.
  intros Hu Hnet Htz Hoff Hn Hv.
  assert (Hz : saneZone (tz env)).
  { rewrite Htz. intros t. simpl. split; exact Hoff. }
  destruct (events_counted_by_utc_day_aux env p u fs Hu Hnet Hz Hn Hv)
    as (b0 & c & Hb0 & Hc & Hl & Hnd & Hd).
  exists c. rewrite Htz, (initBuckets_fixedZone off _ Hn) in Hb0.
  injection Hb0 as <-.
  assert (Hlab : chart_labels c =
                 map (fun i => utcDate (clock1 env - i * JsDate.msPerDay))
                     sixToZero).
  { rewrite Hl. reflexivity. }
  split; [exact Hc|]. split; [exact Hlab|].
  split; [rewrite Hlab; reflexivity|]. split; [exact Hnd | exact Hd].
Qed.

(** C7 at its failing input.  A browser on British time, half an hour
    after midnight on the day after the clocks went forward: going one
    day back in local time lands 23 hours earlier, on the same UTC date,
    so the loop writes the key 2025-03-30 twice and the chart has six
    bars. *)
Lemma six_buckets_after_clock_change :
  initBuckets london2025 londonNow sixToZero [] =
    Some [ ("2025-03-25", 0); ("2025-03-26", 0); ("2025-03-27", 0);
           ("2025-03-28", 0); ("2025-03-29", 0); ("2025-03-30", 0) ]%string%nat /\
  bucketKey london2025 londonNow 1 = Some "2025-03-30"%string /\
  bucketKey london2025 londonNow 0 = Some "2025-03-30"%string /\
  exists c,
    weekChart (statsRegion (snd (updateStatistics londonEnv initialPage)))
      = Some c /\
    length (chart_labels c) = 6%nat.
Proof.
  split; [vm_compute; reflexivity|].
  split; [vm_compute; reflexivity|].
  split; [vm_compute; reflexivity|].
  eexists. split; [vm_compute; reflexivity | reflexivity].
Qed.
(** * The scheduler *)

(** An input of 7.9 s gives an interval of 7 s; three ticks later the
    display shows 4; an edit to "abc" restarts from 30. *)
Example countdown_trace :
  let a := runEvents [InitDone; CountdownTimerFires; CountdownTimerFires;
                      CountdownTimerFires]
                     (initialAuto (Some (roundDouble 7.9))) in
  autoInterval a = Num 7000 /\ countdownText a = CountdownShows (Num 4) /\
  countdownText (handle (IntervalEdit NaN) a) = CountdownShows (Num 30).
Proof. vm_compute. repeat split; reflexivity. Qed.

Lemma Qfloor_thousands (q : Q) (k : Z) :
  (q == inject_Z (k * 1000))%Q -> Qfloor (q / 1000) = k.
Proof.
  intros H. rewrite <- (Qfloor_Z k). apply Qfloor_comp.
  rewrite H. unfold Qeq, Qdiv, Qmult, Qinv, inject_Z. simpl. lia.
Qed.

(** What [startAuto] validates a moderate value to is a number whose
    whole part is at least 5 and, in milliseconds, below [2^53]. *)
Lemma validatedSecs_floor (secs : JsNum) :
  moderate secs ->
  exists q, validatedSecs secs = Num q /\ 5 <= Qfloor q /\
            Qfloor q * 1000 < 2 ^ 53.
Proof.
  unfold validatedSecs.
  assert (H30 : exists q, Num 30 = Num q /\ 5 <= Qfloor q /\
                          Qfloor q * 1000 < 2 ^ 53).
  { exists 30%Q. split; [reflexivity|]. split; [discriminate | reflexivity]. }
  destruct secs as [| | |q]; cbn [moderate isNaN js_ge negb andb];
    intros Hm; try contradiction; try exact H30.
  destruct (Qle_bool 5 q) eqn:E; [|exact H30].
  exists q. split; [reflexivity|]. apply Qle_bool_iff in E. split.
  - change 5 with (Qfloor 5). apply Qfloor_resp_le, E.
  - assert (Hf : Qfloor q <= 9007199254739).
    { assert (Hlt : Qfloor q < 9007199254740).
      { apply Z.lt_nge. intros Hge.
        assert (Hq : (inject_Z 9007199254740 <= q)%Q).
        { eapply Qle_trans; [|apply Qfloor_le]. rewrite <- Zle_Qle. exact Hge. }
        apply (Qlt_not_le _ _ Hm). exact Hq. }
      lia. }
    change (2 ^ 53) with 9007199254740992. lia.
Qed.

Lemma Qmax_5000 (k : Z) :
  5 <= k -> (Qmax 5000 (inject_Z k * 1000) == inject_Z (k * 1000))%Q.
Proof.
  intros Hk. unfold Qmax.
  assert (E : Qle_bool 5000 (inject_Z k * 1000) = true).
  { apply Qle_bool_iff. unfold Qle, Qmult, inject_Z. simpl. lia. }
  rewrite E. unfold Qeq, Qmult, inject_Z. simpl. lia.
Qed.

(** The arithmetic of lines 411-412 on a whole number of seconds that
    is moderate: nothing is rounded. *)
Lemma interval_of_whole (k : Z) :
  5 <= k -> k * 1000 < 2 ^ 53 ->
  jsMax (Num 5000) (jsMul (Num (inject_Z k)) (Num 1000))
  = Num (inject_Z (k * 1000)).
Proof.
  intros Hk Hb. cbn [jsMul].
  rewrite (roundDouble_whole _ (k * 1000))
    by (try (unfold Qeq, Qmult, inject_Z; simpl; lia); lia).
  cbn [jsMax]. unfold Qmax.
  assert (E : Qle_bool 5000 (inject_Z (k * 1000)) = true).
  { apply Qle_bool_iff. change 5000%Q with (inject_Z 5000).
    rewrite <- Zle_Qle. lia. }
  rewrite E. reflexivity.
Qed.

Lemma seconds_of_interval (qi : Q) (k : Z) :
  (qi == inject_Z (k * 1000))%Q -> 0 <= k -> k * 1000 < 2 ^ 53 ->
  jsFloor (jsDiv (Num qi) 1000) = Num (inject_Z k).
Proof.
  intros Hi Hk Hb. cbn [jsDiv].
  rewrite (roundDouble_whole _ k).
  - cbn [jsFloor]. rewrite Qfloor_Z. reflexivity.
  - rewrite Hi. unfold Qeq, Qdiv, Qmult, Qinv, inject_Z. simpl. lia.
  - lia.
Qed.

(** The interval and the remaining seconds [startAuto] computes from a
    moderate input value. *)
Lemma startAuto_values (secs : JsNum) :
  moderate secs ->
  let interval :=
    jsMax (Num 5000) (jsMul (jsFloor (validatedSecs secs)) (Num 1000)) in
  countdownInRange interval (jsFloor (jsDiv interval 1000)).
Proof.
  intros Hm. destruct (validatedSecs_floor secs Hm) as (q & -> & Hq & Hb).
  cbv zeta. cbn [jsFloor]. set (k := Qfloor q) in *.
  rewrite (interval_of_whole k Hq Hb).
  rewrite (seconds_of_interval _ k) by (reflexivity || lia).
  exists k, k, (inject_Z (k * 1000)), (inject_Z k).
  split; [reflexivity|]. split; [reflexivity|]. split; [reflexivity|].
  split; [reflexivity|]. lia.
Qed.

Lemma schedulerInv_startAuto (a : Auto) :
  moderateInput (refreshSeconds a) -> schedulerInv (startAuto a).
Proof.
  intros Hm.
  assert (Hs : moderate (default (Num 30) (refreshSeconds a))).
  { destruct (refreshSeconds a) as [v|]; [exact Hm|]. cbn. reflexivity. }
  pose proof (startAuto_values _ Hs) as Hv. cbv zeta in Hv.
  unfold startAuto. cbn [stopAuto autoEnabled refreshSeconds].
  destruct (autoEnabled a) eqn:En;
    cbn [negb]; unfold schedulerInv;
    cbn [refreshSeconds autoTimerId countdownTimerId autoEnabled
         autoInterval countdownRemaining countdownText].
  - split; [exact Hm|]. split.
    + intros _. split; [reflexivity | exact Hv].
    + intros v [= <-]. split; [reflexivity|]. split; [eauto | exact Hv].
  - split; [exact Hm|]. split.
    + intros [[t H]|[t H]]; discriminate.
    + intros v H. discriminate.
Qed.

Lemma countdownInRange_full (interval v : JsNum) :
  countdownInRange interval v ->
  countdownInRange interval (jsFloor (jsDiv interval 1000)).
Proof.
  intros (k & n & qi & qv & -> & Hi & _ & _ & Hk & Hb & _).
  rewrite (seconds_of_interval qi k Hi) by lia.
  exists k, k, qi, (inject_Z k).
  split; [reflexivity|]. split; [exact Hi|]. split; [reflexivity|].
  split; [reflexivity|]. lia.
Qed.

(** One tick of the one-second timer keeps the remaining seconds in
    range: it takes one off and, at zero, starts again from the full
    interval. *)
Lemma countdownInRange_tick (interval v : JsNum) :
  countdownInRange interval v ->
  countdownInRange interval
    (if js_le (jsSub v (Num 1)) 0
     then jsFloor (jsDiv interval 1000)
     else jsSub v (Num 1)).
Proof.
  intros Hr. pose proof (countdownInRange_full _ _ Hr) as Hfull.
  destruct Hr as (k & n & qi & qv & -> & Hi & -> & Hv & Hk & Hb & Hn).
  cbn [jsSub].
  rewrite (roundDouble_whole _ (n - 1))
    by (try (rewrite Hv; unfold Qeq, Qminus, Qplus, Qopp, inject_Z; simpl; lia);
        change (2 ^ 53) with 9007199254740992 in *; lia).
  cbn [js_le].
  destruct (Qle_bool (inject_Z (n - 1)) 0) eqn:E; [exact Hfull|].
  assert (Hn1 : 1 < n).
  { destruct (Z_lt_le_dec 1 n) as [|Hle]; [assumption|]. exfalso.
    assert (Hle0 : Qle_bool (inject_Z (n - 1)) 0 = true).
    { apply Qle_bool_iff. change 0%Q with (inject_Z 0).
      rewrite <- Zle_Qle. lia. }
    congruence. }
  exists k, (n - 1), qi, (inject_Z (n - 1)).
  split; [reflexivity|]. split; [exact Hi|]. split; [reflexivity|].
  split; [reflexivity|]. lia.
Qed.

Lemma schedulerInv_handle (e : Event) (a : Auto) :
  moderateEvent e -> schedulerInv a -> schedulerInv (handle e a).
Proof.
  intros He (Hm & Harmed & Htext). destruct e; cbn [handle].
  - apply schedulerInv_startAuto, Hm.
  - apply schedulerInv_startAuto. exact Hm.
  - destruct (refreshSeconds a) eqn:Hr; [|rewrite <- Hr in Hm; split; [|split]; assumption].
    apply schedulerInv_startAuto. unfold onIntervalChange.
    cbn [setRefreshSeconds refreshSeconds default from_option id].
    destruct (isNaN v || js_lt v 5); cbn [setRefreshSeconds refreshSeconds moderateInput].
    + cbn. reflexivity.
    + exact He.
  - split; [|split]; cbn; assumption.
  - destruct (autoTimerId a) as [t|] eqn:Et in |- *;
      [|split; [|split]; assumption].
    destruct (Harmed (or_introl (mk_is_Some _ _ Et))) as [En Hr].
    split; [exact Hm|]. split; cbn.
    + intros _. split; [exact En|]. apply (countdownInRange_full _ _ Hr).
    + exact Htext.
  - destruct (countdownTimerId a) as [t|] eqn:Et in |- *;
      [|split; [|split]; assumption].
    destruct (Harmed (or_intror (mk_is_Some _ _ Et))) as [En Hr].
    pose proof (countdownInRange_tick _ _ Hr) as Hnew.
    split; [exact Hm|]. split; cbn.
    + intros _. split; [exact En | exact Hnew].
    + intros v [= <-]. split; [exact En|]. split; [eauto | exact Hnew].
Qed.

Lemma schedulerInv_initial (input : option JsNum) :
  moderateInput input -> schedulerInv (initialAuto input).
Proof.
  intros Hm. split; [exact Hm|]. split; cbn.
  - intros [[t H]|[t H]]; discriminate.
  - intros v H. discriminate.
Qed.

Lemma schedulerInv_runEvents (es : list Event) (a : Auto) :
  Forall moderateEvent es -> schedulerInv a -> schedulerInv (runEvents es a).
Proof.
  intros Hes. revert a. induction Hes as [|e es He Hes IH]; intros a Ha; cbn.
  - exact Ha.
  - apply IH, schedulerInv_handle; assumption.
Qed.

(** C4, as amended.  Let the interval input hold, at the start and
    after every edit, a moderate value: something that is not a number,
    or a number below 9 007 199 254 740 (seconds), for which the
    arithmetic of [startAuto] stays within the whole numbers that
    doubles hold exactly.  Then whatever happens (clicks, edits of the
    interval, ticks of the two timers, in any order), a number shown in
    the countdown is a whole number between 1 and the interval in
    seconds, the interval being a whole number of seconds, five or more;
    and a number is shown only while auto-refresh is enabled. *)
Theorem countdown_display_in_range
    (input : option JsNum) (es : list Event) (v : JsNum) :
  moderateInput input ->
  Forall moderateEvent es ->
  let a := runEvents es (initialAuto input) in
  countdownText a = CountdownShows v ->
  autoEnabled a = true /\
  exists (k n : Z) (qi qv : Q),
    autoInterval a = Num qi /\ (qi == inject_Z (k * 1000))%Q /\
    v = Num qv /\ (qv == inject_Z n)%Q /\
    5 <= k /\ 1 <= n <= k.
Proof.
  intros Hm Hes a Hv.
  destruct (schedulerInv_runEvents es _ Hes (schedulerInv_initial input Hm))
    as (_ & _ & Htext).
  destruct (Htext v Hv) as (En & _ & Hr). split; [exact En|].
  destruct Hr as (k & n & qi & qv & H1 & H2 & H3 & H4 & H5 & _ & H6).
  exists k, n, qi, qv. repeat split; assumption || lia.
Qed.

Lemma countdown_display_in_range_witness :
  let es := [InitDone; CountdownTimerFires; CountdownTimerFires;
             CycleTimerFires; CountdownTimerFires] in
  let a := runEvents es (initialAuto (Some (Num 5.5))) in
  moderateInput (Some (Num 5.5)) /\ Forall moderateEvent es /\
  countdownText a = CountdownShows (Num 4) /\ autoEnabled a = true.
Proof.
  intros es a.
  assert (Hm : moderateInput (Some (Num 5.5))) by reflexivity.
  assert (Hes : Forall moderateEvent es) by (repeat constructor).
  assert (Hv : countdownText a = CountdownShows (Num 4))
    by (vm_compute; reflexivity).
  split; [exact Hm|]. split; [exact Hes|]. split; [exact Hv|].
  destruct (countdown_display_in_range (Some (Num 5.5)) es (Num 4) Hm Hes Hv)
    as [En _].
  exact En.
Defined.

(** C4 as the specification words it fails for an interval that is too
    large for doubles: with 1e308 in the input, which is a number and
    not below 5, [Math.floor(secs) * 1000] overflows, the interval and
    the remaining seconds are Infinity, and with auto-refresh enabled
    the display shows Infinity, before and after a tick. *)
Lemma countdown_shows_infinity :
  let a0 := runEvents [InitDone] (initialAuto (Some hugeSeconds)) in
  let a1 := runEvents [InitDone; CountdownTimerFires]
                      (initialAuto (Some hugeSeconds)) in
  (exists q, hugeSeconds = Num q /\ Qle_bool 5 q = true) /\
  autoEnabled a0 = true /\
  autoInterval a0 = PosInf /\
  countdownText a0 = CountdownShows PosInf /\
  countdownText a1 = CountdownShows PosInf /\
  ((exists qv, countdownText a1 = CountdownShows (Num qv)) -> False) /\
  (moderate hugeSeconds -> False).
Proof.
  split; [eexists; split; vm_compute; reflexivity|].
  split; [vm_compute; reflexivity|].
  split; [vm_compute; reflexivity|].
  split; [vm_compute; reflexivity|].
  split; [vm_compute; reflexivity|].
  split.
  - intros [qv H]. vm_compute in H. discriminate H.
  - intros H. vm_compute in H. discriminate H.
Qed.

(** C9, as amended.  When the interval input is edited to a value that is
    not a number or is below 5, the change handler puts 30 into the input
    and [startAuto] takes it: the interval becomes 30 s and the remaining
    seconds 30.  If auto-refresh is enabled both timers are set again,
    the cycle timer with 30 s, and the display shows 30; if it is paused
    no timer is set and the display says so. *)
Theorem invalid_interval_becomes_30 (a : Auto) (v : JsNum) :
  is_Some (refreshSeconds a) ->
  isNaN v || js_lt v 5 = true ->
  let a' := handle (IntervalEdit v) a in
  refreshSeconds a' = Some (Num 30) /\
  autoInterval a' = Num 30000 /\
  countdownRemaining a' = Num 30 /\
  (autoEnabled a = true ->
   rearmedWith30 a' /\ countdownText a' = CountdownShows (Num 30)) /\
  (autoEnabled a = false ->
   autoTimerId a' = None /\ countdownTimerId a' = None /\
   countdownText a' = CountdownPaused).
Proof.
  intros [s Hs] Hbad. cbn [handle]. rewrite Hs.
  unfold onIntervalChange.
  cbn [setRefreshSeconds refreshSeconds default from_option id].
  rewrite Hbad. unfold startAuto, rearmedWith30.
  cbn [stopAuto setRefreshSeconds autoEnabled refreshSeconds default
       from_option id].
  assert (Hi : jsMax (Num 5000)
                 (jsMul (jsFloor (validatedSecs (Num 30))) (Num 1000))
               = Num 30000) by (vm_compute; reflexivity).
  assert (Hr : jsFloor (jsDiv (Num 30000) 1000) = Num 30)
    by (vm_compute; reflexivity).
  rewrite Hi, Hr.
  destruct (autoEnabled a);
    cbn [negb refreshSeconds autoInterval countdownRemaining autoTimerId
         countdownTimerId countdownText].
  - repeat split; discriminate || reflexivity.
  - repeat split; discriminate || reflexivity.
Qed.

Lemma invalid_interval_becomes_30_witness :
  let a := runEvents [InitDone] (initialAuto (Some (Num 10))) in
  is_Some (refreshSeconds a) /\
  isNaN (Num 3) || js_lt (Num 3) 5 = true /\
  rearmedWith30 (handle (IntervalEdit (Num 3)) a).
Proof.
  intros a.
  assert (Hs : is_Some (refreshSeconds a)) by (eexists; reflexivity).
  assert (Hb : isNaN (Num 3) || js_lt (Num 3) 5 = true) by reflexivity.
  split; [exact Hs|]. split; [exact Hb|].
  destruct (invalid_interval_becomes_30 a (Num 3) Hs Hb)
    as (_ & _ & _ & Hen & _).
  destruct (Hen eq_refl) as [Harm _]. exact Harm.
Defined.

(** C9 as the specification words it fails while auto-refresh is paused:
    the interval still falls back to 30 s, but no timer is set. *)
Lemma paused_interval_change_sets_no_timer :
  autoEnabled pausedAuto = false /\
  autoInterval (handle (IntervalEdit NaN) pausedAuto) = Num 30000 /\
  autoTimerId (handle (IntervalEdit NaN) pausedAuto) = None /\
  countdownTimerId (handle (IntervalEdit NaN) pausedAuto) = None /\
  (rearmedWith30 (handle (IntervalEdit NaN) pausedAuto) -> False).
Proof.
  repeat split; try (vm_compute; reflexivity).
  intros [H _]. vm_compute in H. discriminate H.
Qed.
(** * The top level *)

Module TopLevelFacts.
Import TopLevel.

(** The script sees the page only through the answers of
    [getElementById], through whether an element is a canvas, through
    the global [L], and through the test of line 485. *)
Lemma eval_ext (h1 h2 : HostPage) :
  (forall i, hasElement h1 i = hasElement h2 i) ->
  (forall i, isCanvas h1 i = isCanvas h2 i) ->
  leaflet h1 = leaflet h2 ->
  forall e r, eval h1 e r = eval h2 e r.
Proof.
  intros Hh Hc Hl e.
  assert (Hn : forall x r, lookupName h1 x r = lookupName h2 x r).
  { intros x r. unfold lookupName, hostGlobals. rewrite Hl. reflexivity. }
  induction e; intros r; cbn [eval];
    rewrite ?Hh, ?Hc, ?Hn, ?IHe, ?IHe1; try reflexivity.
  - destruct (eval h2 e1 r) as [[[|]|err] r1];
      [apply IHe3 | apply IHe2 | reflexivity].
  - destruct (eval h2 e1 r) as [[v|err] r1]; [apply IHe2 | reflexivity].
Qed.

Lemma exec_ext (h1 h2 : HostPage) :
  (forall i, hasElement h1 i = hasElement h2 i) ->
  (forall i, isCanvas h1 i = isCanvas h2 i) ->
  leaflet h1 = leaflet h2 ->
  quakesEmpty h1 = quakesEmpty h2 ->
  forall s r, exec h1 s r = exec h2 s r.
Proof.
  intros Hh Hc Hl Hq s r. destruct s; cbn [exec];
    rewrite ?(eval_ext h1 h2 Hh Hc Hl), ?Hq; try reflexivity.
  destruct (eval h2 test r) as [[v|err] r1]; [|reflexivity].
  rewrite (eval_ext h1 h2 Hh Hc Hl). reflexivity.
Qed.

Lemma execAll_ext (h1 h2 : HostPage) :
  (forall i, hasElement h1 i = hasElement h2 i) ->
  (forall i, isCanvas h1 i = isCanvas h2 i) ->
  leaflet h1 = leaflet h2 ->
  quakesEmpty h1 = quakesEmpty h2 ->
  forall ss r, execAll h1 ss r = execAll h2 ss r.
Proof.
  intros Hh Hc Hl Hq ss. induction ss as [|s ss IH]; intros r; cbn [execAll].
  - reflexivity.
  - rewrite (exec_ext h1 h2 Hh Hc Hl Hq).
    destruct (exec h2 s r) as [[[]|err] r1]; [apply IH | reflexivity].
Qed.

Lemma withAnswers_same (h : HostPage) :
  runScript h =
  runScript (withAnswers (hasElement h "timeRange") (hasElement h "refreshBtn")
                         (hasElement h "toggleAuto")
                         (hasElement h "refreshSeconds")
                         (hasElement h "weekChart")
                         (hasElement h "quake-table-body")
                         (hasElement h "map")
                         (isCanvas h "weekChart") h).
Proof.
  unfold runScript. apply execAll_ext; try reflexivity.
  - intros i. cbn [withAnswers hasElement].
    repeat match goal with
           | |- context [String.eqb i ?s] =>
               destruct (String.eqb_spec i s) as [->|_]; [reflexivity|]
           end.
    reflexivity.
  - intros i. cbn [withAnswers isCanvas].
    destruct (String.eqb_spec i "weekChart") as [->|_]; reflexivity.
Qed.

End TopLevelFacts.

(** On a page with every element, a canvas for the chart and Leaflet
    loaded, the script stops at the test of line 485. *)
Example runScript_full_page :
  let r := TopLevel.runScript
             {| TopLevel.hasElement := fun _ => true;
                TopLevel.isCanvas := fun _ => true;
                TopLevel.leaflet := true;
                TopLevel.quakesEmpty := true |} in
  fst r = Throw (ReferenceError "quakes") /\
  TopLevel.effects (snd r) =
    [ TopLevel.ListenerAdded "timeRangeSel";
      TopLevel.ListenerAdded "refreshBtn";
      TopLevel.ListenerAdded "toggleAutoBtn";
      TopLevel.ListenerAdded "refreshSecondsInput";
      TopLevel.InitCalled; TopLevel.TableCleared ]%string.
Proof. vm_compute. split; reflexivity. Qed.

(** On the same page without the map container the script stops on line
    43, before any listener is registered. *)
Example runScript_no_map :
  let r := TopLevel.runScript
             {| TopLevel.hasElement := fun i => negb (String.eqb i "map");
                TopLevel.isCanvas := fun _ => true;
                TopLevel.leaflet := true;
                TopLevel.quakesEmpty := true |} in
  fst r = Throw (Error "Map container not found.") /\
  TopLevel.completed (snd r) = 16%nat /\
  TopLevel.effects (snd r) = [].
Proof. vm_compute. repeat split; reflexivity. Qed.

Lemma runScript_observed (h : TopLevel.HostPage) :
  let r := TopLevel.runScript h in
  fst r = Throw (if startsUp h
                 then if TopLevel.hasElement h "quake-table-body"
                      then ReferenceError "quakes" else TypeError
                 else startupError h) /\
  TopLevel.completed (snd r) =
    (if startsUp h
     then if TopLevel.hasElement h "quake-table-body" then 33 else 32
     else if TopLevel.hasElement h "weekChart"
             && negb (TopLevel.isCanvas h "weekChart")
          then 14 else 16)%nat /\
  TopLevel.bindings (snd r) !! "quakes"%string = Some None /\
  TopLevel.lookupName h "data" (snd r) = Throw (ReferenceError "data") /\
  TopLevel.bindings (snd r) !! "loadWeather"%string
    = Some (Some TopLevel.VObject) /\
  TopLevel.effects (snd r) = effectsOfScript h.
Proof.
  cbv zeta. rewrite (TopLevelFacts.withAnswers_same h).
  unfold effectsOfScript, startsUp, startupError, controls.
  cbn [flat_map fst snd app]. destruct h as [he ca lf qe].
  cbn [TopLevel.hasElement TopLevel.isCanvas TopLevel.leaflet
       TopLevel.quakesEmpty].
  destruct (he "timeRange"), (he "refreshBtn"), (he "toggleAuto"),
    (he "refreshSeconds"), (he "weekChart"), (he "quake-table-body"),
    (he "map"), (ca "weekChart"), lf;
    vm_compute; repeat split; reflexivity.
Qed.

(** C2.  The script always stops with an exception before it reaches its
    last statements, so the calls of [loadWeather] and [testUSGS] are
    never made, although both functions are bound; [quakes] is declared
    and never initialised, and a read of [data], which is bound nowhere,
    would throw.

    When lines 13-51 run through (Leaflet is loaded, the page has the
    map container, and the element [weekChart], if there is one, is a
    canvas), the exception is the ReferenceError of reading [quakes] in
    its temporal dead zone (the test of line 485, after 33 completed
    statements) on a page with a table body, and the TypeError of line
    483, one statement earlier, on a page without one; the listeners of
    the controls that exist and the first refresh have been set up
    before and stay.

    Otherwise the script stops earlier, on line 30 or on line 43, and
    nothing has been set up. *)
Theorem top_level_always_throws (h : TopLevel.HostPage) :
  let r := TopLevel.runScript h in
  (exists err, fst r = Throw err) /\
  (TopLevel.WeatherCalled ∉ TopLevel.effects (snd r)) /\
  (TopLevel.TestUSGSCalled ∉ TopLevel.effects (snd r)) /\
  TopLevel.bindings (snd r) !! "quakes"%string = Some None /\
  TopLevel.lookupName h "data" (snd r) = Throw (ReferenceError "data") /\
  TopLevel.bindings (snd r) !! "loadWeather"%string
    = Some (Some TopLevel.VObject) /\
  TopLevel.effects (snd r) = effectsOfScript h /\
  (startsUp h = true ->
   fst r = Throw (if TopLevel.hasElement h "quake-table-body"
                  then ReferenceError "quakes" else TypeError) /\
   TopLevel.completed (snd r) =
     (if TopLevel.hasElement h "quake-table-body" then 33 else 32)%nat /\
   (TopLevel.InitCalled ∈ TopLevel.effects (snd r)) /\
   (forall c, c ∈ controls ->
      (TopLevel.ListenerAdded (fst c) ∈ TopLevel.effects (snd r)
       <-> TopLevel.hasElement h (snd c) = true))) /\
  (startsUp h = false ->
   fst r = Throw (startupError h) /\
   (TopLevel.completed (snd r) <= 16)%nat /\
   TopLevel.effects (snd r) = []).
Proof.
  intros r. destruct (runScript_observed h) as (H1 & H2 & H4 & H5 & H6 & H3).
  fold r in H1, H2, H3, H4, H5, H6.
  split; [eexists; exact H1|].
  assert (Heff : forall e, e ∈ effectsOfScript h ->
            startsUp h = true /\
            (e = TopLevel.InitCalled \/ e = TopLevel.TableCleared \/
             exists c, c ∈ controls /\ e = TopLevel.ListenerAdded (fst c) /\
                       TopLevel.hasElement h (snd c) = true)).
  { intros e. unfold effectsOfScript.
    destruct (startsUp h); [|intros He; inversion He].
    intros He. split; [reflexivity|].
    rewrite !elem_of_app in He. destruct He as [He|[He|He]].
    - right. right. apply list_elem_of_In, in_flat_map in He.
      destruct He as (c & Hc & He). exists c.
      split; [apply list_elem_of_In, Hc|].
      destruct (TopLevel.hasElement h (snd c)); [|inversion He].
      destruct He as [<-|[]]. split; reflexivity.
    - left. apply list_elem_of_singleton in He. exact He.
    - right. left. destruct (TopLevel.hasElement h "quake-table-body");
        [apply list_elem_of_singleton in He; exact He | inversion He]. }
  split; [|split].
  - rewrite H3. intros He. destruct (Heff _ He) as [_ [E|[E|(c & _ & E & _)]]];
      discriminate E.
  - rewrite H3. intros He. destruct (Heff _ He) as [_ [E|[E|(c & _ & E & _)]]];
      discriminate E.
  - split; [exact H4|]. split; [exact H5|]. split; [exact H6|].
    split; [exact H3|]. split.
    + intros Hs. rewrite Hs in H1, H2. split; [exact H1|].
      split; [exact H2|]. rewrite H3. unfold effectsOfScript. rewrite Hs.
      split; [rewrite !elem_of_app; right; left; constructor|].
      intros c Hc. split.
      * intros He.
        assert (He' : TopLevel.ListenerAdded (fst c) ∈ effectsOfScript h)
          by (unfold effectsOfScript; rewrite Hs; exact He).
        destruct (Heff _ He') as [_ [E|[E|(c' & Hc' & E & Hel)]]];
          try discriminate E.
        injection E as E.
        assert (c = c').
        { clear - Hc Hc' E. unfold controls in *.
          repeat (apply elem_of_cons in Hc; destruct Hc as [->|Hc]);
            [ .. | inversion Hc ];
            repeat (apply elem_of_cons in Hc'; destruct Hc' as [->|Hc']);
            try reflexivity; try discriminate E; inversion Hc'. }
        subst c'. exact Hel.
      * intros Hel. rewrite !elem_of_app. left.
        apply list_elem_of_In, in_flat_map. exists c.
        split; [apply list_elem_of_In, Hc|]. rewrite Hel. left. reflexivity.
    + intros Hs. rewrite Hs in H1, H2. split; [exact H1|]. split.
      * rewrite H2. destruct (_ && _); lia.
      * rewrite H3. unfold effectsOfScript. rewrite Hs. reflexivity.
Qed.

(** * Further properties of the code *)

(** * The request builder *)

Ltac solve_keys :=
  repeat (apply NoDup_cons_2;
          [ rewrite ?not_elem_of_cons; repeat split;
            first [apply String.eqb_neq; reflexivity | apply not_elem_of_nil]
          | ]);
  apply NoDup_nil_2.

(** What [params.get] finds in the URL that [buildUSGSUrl] builds. *)
Lemma buildUSGSUrl_lookup (a : UrlArgs) :
  let ps := params (buildUSGSUrl a) in
  paramGet "format" ps = Some (PStr "geojson") /\
  paramGet "orderby" ps = Some (PStr (orderby a)) /\
  paramGet "limit" ps = Some (PNum (limit a)) /\
  paramGet "minlatitude" ps = Some (PNum (minlatitude (bbox a))) /\
  paramGet "maxlatitude" ps = Some (PNum (maxlatitude (bbox a))) /\
  paramGet "minlongitude" ps = Some (PNum (minlongitude (bbox a))) /\
  paramGet "maxlongitude" ps = Some (PNum (maxlongitude (bbox a))) /\
  paramGet "starttime" ps = PStr <$> truthyStr (startTimeISO a) /\
  paramGet "endtime" ps = PStr <$> truthyStr (endTimeISO a) /\
  paramGet "minmagnitude" ps = PNum <$> minmag a.
Proof.
  destruct a as [st en ob lim mm bb]. unfold buildUSGSUrl.
  cbn [startTimeISO endTimeISO orderby limit minmag bbox params].
  destruct (truthyStr st) as [s|]; destruct (truthyStr en) as [e|];
    destruct mm as [m|]; cbn; repeat split; reflexivity.
Qed.

Lemma buildUSGSUrl_keys (a : UrlArgs) :
  NoDup (paramKeys (params (buildUSGSUrl a))).
Proof.
  destruct a as [st en ob lim mm bb]. unfold buildUSGSUrl.
  cbn [startTimeISO endTimeISO orderby limit minmag bbox params].
  destruct (truthyStr st) as [s|]; destruct (truthyStr en) as [e|];
    destruct mm as [m|]; cbn; solve_keys.
Qed.

(** X1.  The URL that [buildUSGSUrl] builds names no parameter twice.
    It always carries the format, the order, the limit and the four
    sides of the bounding box.  It carries a start time and an end time
    exactly when the argument is a string that is not empty, and a
    magnitude floor exactly when the argument is not [null]: a floor of
    0 is sent, an empty start time is not. *)
Theorem buildUSGSUrl_parameters (a : UrlArgs) :
  let ps := params (buildUSGSUrl a) in
  NoDup (paramKeys ps) /\
  paramGet "format" ps = Some (PStr "geojson") /\
  paramGet "orderby" ps = Some (PStr (orderby a)) /\
  paramGet "limit" ps = Some (PNum (limit a)) /\
  paramGet "minlatitude" ps = Some (PNum (minlatitude (bbox a))) /\
  paramGet "maxlatitude" ps = Some (PNum (maxlatitude (bbox a))) /\
  paramGet "minlongitude" ps = Some (PNum (minlongitude (bbox a))) /\
  paramGet "maxlongitude" ps = Some (PNum (maxlongitude (bbox a))) /\
  (paramGet "starttime" ps =
     match startTimeISO a with
     | Some s => if String.eqb s EmptyString then None else Some (PStr s)
     | None => None
     end) /\
  (paramGet "endtime" ps =
     match endTimeISO a with
     | Some s => if String.eqb s EmptyString then None else Some (PStr s)
     | None => None
     end) /\
  (paramGet "minmagnitude" ps =
     match minmag a with
     | Some m => Some (PNum m)
     | None => None
     end).
Proof.
  cbv zeta. split; [apply buildUSGSUrl_keys|].
  destruct (buildUSGSUrl_lookup a)
    as (H1 & H2 & H3 & H4 & H5 & H6 & H7 & H8 & H9 & H10).
  repeat (split; [assumption|]).
  split; [|split].
  - rewrite H8. destruct (startTimeISO a) as [[|c s]|]; reflexivity.
  - rewrite H9. destruct (endTimeISO a) as [[|c s]|]; reflexivity.
  - rewrite H10. destruct (minmag a); reflexivity.
Qed.

(** * Tiers and colours *)

Lemma Qle_bool_cases (a b : Q) :
  (Qle_bool a b = true /\ (a <= b)%Q) \/ (Qle_bool a b = false /\ (b < a)%Q).
Proof.
  destruct (Qle_bool a b) eqn:E.
  - left. split; [reflexivity | apply Qle_bool_iff, E].
  - right. split; [reflexivity|]. apply Qnot_le_lt. intros H.
    apply Qle_bool_iff in H. congruence.
Qed.

(** X2.  The class of a list card and the colour of a marker follow
    the same tiers: below 4 the class is low and the colour teal, from 4
    to below 5 mid and orange, from 5 on high and red; within the high
    tier the colour is the darker red from 6 on. *)
Theorem magnitude_tiers (m : Q) :
  (magClass m = "high"%string <-> (5 <= m)%Q) /\
  (magClass m = "mid"%string <-> (4 <= m)%Q /\ (m < 5)%Q) /\
  (magClass m = "low"%string <-> (m < 4)%Q) /\
  (magColor m = "#64ffda"%string <-> magClass m = "low"%string) /\
  (magColor m = "#ffb86b"%string <-> magClass m = "mid"%string) /\
  (magColor m = "#ff5c5c"%string \/ magColor m = "#d32f2f"%string
   <-> magClass m = "high"%string) /\
  (magColor m = "#d32f2f"%string <-> (6 <= m)%Q).
Proof.
  unfold magClass, magColor, Qge_bool.
  destruct (Qle_bool_cases 4 m) as [[-> H4]|[-> H4]];
    destruct (Qle_bool_cases 5 m) as [[-> H5]|[-> H5]];
    destruct (Qle_bool_cases 6 m) as [[-> H6]|[-> H6]];
    try lra;
    repeat split; intros; try discriminate; try reflexivity; try lra;
    try (left; reflexivity); try (right; reflexivity);
    try match goal with H : _ /\ _ |- _ => destruct H; lra end;
    try match goal with H : _ \/ _ |- _ => destruct H; discriminate end.
Qed.

(** * The list refresh and the shared state *)

Lemma seen_absorb (i : string) (X : gset string) : i ∈ X -> {[ i ]} ∪ X = X.
Proof.
  intros H. apply subseteq_union_1_L, singleton_subseteq_l, H.
Qed.

(** One iteration of the loop of lines 140-191, on the shared state. *)
Lemma renderFeature_shared (now : Z) (f : Feature) (p : Page) :
  let r := renderFeature now f p in
  seenQuakes (shared (snd r)) = {[ f_id f ]} ∪ seenQuakes (shared p) /\
  toasts (shared (snd r)) =
    toasts (shared p)
    ++ map newQuakeToast (announced now (seenQuakes (shared p)) [f]) /\
  requests (shared (snd r)) = requests (shared p) /\
  consoleErrors (shared (snd r)) = consoleErrors (shared p).
Proof.
  destruct p as [[seen ts rq ce] lr mr sr].
  unfold renderFeature, announced, isRecent.
  cbn [shared seenQuakes toasts requests consoleErrors].
  rewrite filter_cons, filter_nil.
  destruct (decide _) as [[Hn Hr]|Hno].
  - rewrite Hr. destruct (markerOf f) as [m|]; run_page;
      rewrite (bool_decide_eq_false_2 _ Hn); repeat split; reflexivity.
  - destruct (markerOf f) as [m|]; run_page;
      destruct (bool_decide (f_id f ∈ seen)) eqn:Hs; cbn;
      rewrite ?app_nil_r;
      try (apply bool_decide_eq_true_1 in Hs;
           rewrite (seen_absorb _ _ Hs); repeat split; reflexivity);
      apply bool_decide_eq_false_1 in Hs;
      destruct (_ <? _) eqn:Hr;
      try (exfalso; apply Hno; split; [exact Hs | reflexivity]);
      cbn; rewrite ?app_nil_r; repeat split; reflexivity.
Qed.

Lemma omap_length_le {A B : Type} (f : A -> option B) (l : list A) :
  (length (omap f l) <= length l)%nat.
Proof.
  induction l as [|a l IH]; cbn; [lia|]. destruct (f a); cbn; lia.
Qed.

Lemma filter_iff_in {A : Type} (P1 P2 : A -> Prop)
    `{!forall x, Decision (P1 x)} `{!forall x, Decision (P2 x)} (l : list A) :
  (forall x, x ∈ l -> (P1 x <-> P2 x)) -> filter P1 l = filter P2 l.
Proof.
  induction l as [|a l IH]; intros Hiff; [reflexivity|].
  rewrite !filter_cons.
  rewrite IH by (intros x Hx; apply Hiff; right; exact Hx).
  pose proof (Hiff a ltac:(left)) as Ha.
  destruct (decide (P1 a)), (decide (P2 a)); tauto || reflexivity.
Qed.

Lemma announced_cons (now : Z) (seen : gset string) (f : Feature)
    (fs : list Feature) :
  f_id f ∉ map f_id fs ->
  announced now seen (f :: fs) =
  announced now seen [f] ++ announced now ({[ f_id f ]} ∪ seen) fs.
Proof.
  intros Hf. unfold announced. rewrite (filter_cons _ f fs).
  rewrite filter_cons, filter_nil.
  assert (E : filter (fun g => (f_id g ∉ seen) /\ isRecent now g = true) fs =
              filter (fun g => (f_id g ∉ {[ f_id f ]} ∪ seen)
                               /\ isRecent now g = true) fs).
  { apply filter_iff_in. intros g Hg.
    assert (f_id g <> f_id f).
    { intros E. apply Hf. rewrite <- E. apply list_elem_of_fmap_2, Hg. }
    rewrite not_elem_of_union, not_elem_of_singleton. tauto. }
  rewrite E. destruct (decide _); reflexivity.
Qed.

(** The loop of lines 140-191 puts every identifier of the batch into
    the seen set, and makes no request and logs nothing. *)
Lemma forEach_renderFeature_seen (now : Z) (fs : list Feature) :
  forall p : Page,
    let r := forEach (renderFeature now) fs p in
    fst r = Normal tt /\
    seenQuakes (shared (snd r)) = batchIds fs ∪ seenQuakes (shared p) /\
    requests (shared (snd r)) = requests (shared p) /\
    consoleErrors (shared (snd r)) = consoleErrors (shared p).
Proof.
  induction fs as [|f fs IH]; intros p.
  - cbn. unfold batchIds. cbn. rewrite (left_id_L ∅ (∪)).
    repeat split; reflexivity.
  - cbv zeta. cbn [forEach]. rewrite bind_unfold.
    destruct (renderFeature_shared now f p) as (Hs & _ & Hr & Hc).
    destruct (renderFeature_region now f p) as (Hn & _).
    destruct (renderFeature now f p) as [c p1]. cbn [fst snd] in *.
    subst c. destruct (IH p1) as (Hn' & Hs' & Hr' & Hc').
    rewrite Hs', Hr', Hc', Hs, Hr, Hc.
    unfold batchIds. cbn [map list_to_set].
    repeat split; try reflexivity; try exact Hn'.
    rewrite (assoc_L (∪)), (comm_L (∪) _ {[ f_id f ]}). reflexivity.
Qed.

(** The toasts of the loop, for a batch whose identifiers are pairwise
    different. *)
Lemma forEach_renderFeature_toasts (now : Z) (fs : list Feature) :
  forall p : Page,
    NoDup (map f_id fs) ->
    toasts (shared (snd (forEach (renderFeature now) fs p))) =
      toasts (shared p)
      ++ map newQuakeToast (announced now (seenQuakes (shared p)) fs).
Proof.
  induction fs as [|f fs IH]; intros p Hnd.
  - cbn. rewrite app_nil_r. reflexivity.
  - cbn [map] in Hnd. apply NoDup_cons in Hnd. destruct Hnd as [Hf Hnd].
    cbn [forEach]. rewrite bind_unfold.
    destruct (renderFeature_shared now f p) as (Hs & Ht & _).
    destruct (renderFeature_region now f p) as (Hn & _).
    destruct (renderFeature now f p) as [c p1]. cbn [fst snd] in *.
    subst c. rewrite (IH p1 Hnd), Hs, Ht.
    rewrite (announced_cons now _ f fs Hf), map_app, app_assoc.
    reflexivity.
Qed.

(** Runs a computation as [run_page] does, leaving loops and defaults
    folded. *)
Ltac step_page :=
  cbv beta iota zeta delta
    [mbind mret M_bind M_ret tryCatch throw modify gets orThrow
     fetch resJson dataFeatures noFeatures consoleError
     withShared withList withMajor withStats
     setQuakeList setLastUpdated clearLayers setStats setChart negb andb
     fst snd shared listRegion majorRegion statsRegion
     seenQuakes toasts requests consoleErrors
     quakeList lastUpdated quakeLayer default from_option id];
  cbn [fst snd].

(** A successful list refresh, on the shared state. *)
Lemma fetchQuakesAndRender_shared (env : Env) (p : Page) (u : Url)
    (fs : list Feature) :
  quakesUrl env = Some u ->
  net env u = Response true (Data (Some fs)) ->
  let r := fetchQuakesAndRender env p in
  fst r = Normal tt /\
  seenQuakes (shared (snd r)) = batchIds fs ∪ seenQuakes (shared p) /\
  requests (shared (snd r)) = requests (shared p) ++ [u] /\
  consoleErrors (shared (snd r)) = consoleErrors (shared p) /\
  (NoDup (map f_id fs) ->
   toasts (shared (snd r)) =
     toasts (shared p)
     ++ map newQuakeToast
          (announced (clock1 env) (seenQuakes (shared p)) fs)).
Proof.
  intros Hu Hnet. unfold fetchQuakesAndRender. rewrite Hu.
  destruct p as [[seen ts rq ce] lr mr sr].
  destruct fs as [|f fs].
  - run_page. rewrite Hnet. run_page. unfold batchIds, announced. cbn.
    rewrite (left_id_L ∅ (∪)), app_nil_r. repeat split; reflexivity.
  - step_page. rewrite Hnet. step_page.
    match goal with
    | |- context [forEach ?g ?l ?q] =>
        destruct (forEach_renderFeature_seen (clock1 env) l q)
          as (Hn & Hs & Hr & Hc);
        pose proof (forEach_renderFeature_toasts (clock1 env) l q) as Ht;
        destruct (forEach g l q) as [c p1]
    end.
    cbn [fst snd shared seenQuakes toasts requests consoleErrors] in *.
    subst c. cbn [fst snd].
    split; [reflexivity|]. split; [exact Hs|]. split; [exact Hr|].
    split; [exact Hc | exact Ht].
Qed.

(** X3.  When the feed answers with a body that has no [features] field
    or an empty one, the list says that there are no recent earthquakes,
    the label says when the page was updated, every marker of the
    earlier refresh is gone, and nothing else happens: no toast, no
    change of the seen set, no error logged. *)
Theorem empty_feed_clears_list_and_map (env : Env) (p : Page) (u : Url)
    (fs : option (list Feature)) :
  quakesUrl env = Some u ->
  net env u = Response true (Data fs) ->
  noFeatures fs = true ->
  let r := fetchQuakesAndRender env p in
  fst r = Normal tt /\
  listRegion (snd r) =
    {| quakeList := ListNoQuakes; lastUpdated := LabelUpdated;
       quakeLayer := [] |} /\
  toasts (shared (snd r)) = toasts (shared p) /\
  seenQuakes (shared (snd r)) = seenQuakes (shared p) /\
  consoleErrors (shared (snd r)) = consoleErrors (shared p).
Proof.
  intros Hu Hnet Hno. unfold fetchQuakesAndRender. rewrite Hu.
  destruct p as [[seen ts rq ce] lr mr sr].
  destruct fs as [[|f fs]|]; try discriminate;
    run_page; rewrite Hnet; run_page; repeat split; reflexivity.
Qed.

Lemma empty_feed_clears_list_and_map_witness :
  let env := {| net := fun _ => Response true (Data None);
                clock0 := sampleNow; clock1 := sampleNow;
                tz := JsDate.manila; timeRange := None |} in
  let u := usgsQuery (queryParams "2025-09-25T12:00:00.000Z" 500 None) in
  let p := snd (fetchQuakesAndRender sampleEnv initialPage) in
  quakesUrl env = Some u /\
  quakeLayer (listRegion p) <> [] /\
  quakeLayer (listRegion (snd (fetchQuakesAndRender env p))) = [].
Proof.
  intros env u p.
  assert (Hu : quakesUrl env = Some u) by reflexivity.
  split; [exact Hu|]. split; [vm_compute; discriminate|].
  pose proof (empty_feed_clears_list_and_map env p u None Hu eq_refl eq_refl)
    as (_ & H & _).
  rewrite H. reflexivity.
Defined.

(** X4.  When the request of the list refresh fails (the network, a
    status that is not a success, a body that is not JSON, or the body
    [null]), the call still completes: the list shows the error message,
    the label says Error, one line is logged, and no toast is shown.  The
    markers of the earlier refresh stay on the map, except for the body
    [null], where the layer has been cleared before the failure. *)
Theorem failed_list_refresh_keeps_markers (env : Env) (p : Page) (u : Url) :
  quakesUrl env = Some u ->
  failed (net env u) = true ->
  let r := fetchQuakesAndRender env p in
  fst r = Normal tt /\
  quakeList (listRegion (snd r)) = ListError /\
  lastUpdated (listRegion (snd r)) = LabelError /\
  quakeLayer (listRegion (snd r)) =
    (if parsedNull (net env u) then [] else quakeLayer (listRegion p)) /\
  consoleErrors (shared (snd r)) =
    consoleErrors (shared p) ++ ["fetchQuakesAndRender error"%string] /\
  toasts (shared (snd r)) = toasts (shared p) /\
  seenQuakes (shared (snd r)) = seenQuakes (shared p).
Proof.
  intros Hu Hf. unfold fetchQuakesAndRender. rewrite Hu.
  destruct p as [[seen ts rq ce] lr mr sr].
  destruct (net env u) as [|[] [| |fs]] eqn:E; try discriminate;
    run_page; rewrite ?E; run_page; repeat split; reflexivity.
Qed.

Lemma failed_list_refresh_keeps_markers_witness :
  let env := {| net := fun _ => NetworkFailure;
                clock0 := sampleNow; clock1 := sampleNow;
                tz := JsDate.manila; timeRange := None |} in
  let u := usgsQuery (queryParams "2025-09-25T12:00:00.000Z" 500 None) in
  let p := snd (fetchQuakesAndRender sampleEnv initialPage) in
  quakesUrl env = Some u /\
  failed (net env u) = true /\
  quakeLayer (listRegion p) <> [] /\
  quakeLayer (listRegion (snd (fetchQuakesAndRender env p)))
    = quakeLayer (listRegion p).
Proof.
  intros env u p.
  assert (Hu : quakesUrl env = Some u) by reflexivity.
  assert (Hf : failed (net env u) = true) by reflexivity.
  split; [exact Hu|]. split; [exact Hf|].
  split; [vm_compute; discriminate|].
  pose proof (failed_list_refresh_keeps_markers env p u Hu Hf)
    as (_ & _ & _ & H & _).
  exact H.
Defined.

(** X5.  A successful list refresh puts the identifier of every event of
    the answer into the seen set, recent or not, and makes one request.
    When the identifiers of the answer are pairwise different, the toasts
    it shows are exactly those of the events that were not in the seen
    set before and are recent, in the order of the answer, each for 5 s.
    An event is recent when its time is less than an hour before the
    clock; an event without a time, and one with a time in the future,
    is recent. *)
Theorem list_refresh_announces_unseen_recent (env : Env) (p : Page) (u : Url)
    (fs : list Feature) :
  quakesUrl env = Some u ->
  net env u = Response true (Data (Some fs)) ->
  NoDup (map f_id fs) ->
  let r := fetchQuakesAndRender env p in
  let now := clock1 env in
  let seen := seenQuakes (shared p) in
  seenQuakes (shared (snd r)) = batchIds fs ∪ seen /\
  requests (shared (snd r)) = requests (shared p) ++ [u] /\
  toasts (shared (snd r)) =
    toasts (shared p) ++ map newQuakeToast (announced now seen fs) /\
  (forall f, f ∈ announced now seen fs <->
             f ∈ fs /\ (f_id f ∉ seen) /\ isRecent now f = true) /\
  (forall f, isRecent now f = true <->
             match eventTime f with
             | Some t => now - t < 3600000
             | None => True
             end) /\
  (forall f, t_duration (newQuakeToast f) = 5000).
Proof.
  intros Hu Hnet Hnd r now seen.
  destruct (fetchQuakesAndRender_shared env p u fs Hu Hnet)
    as (_ & Hs & Hr & _ & Ht).
  split; [exact Hs|]. split; [exact Hr|]. split; [exact (Ht Hnd)|].
  split; [|split; [|reflexivity]].
  - intros f. unfold announced. rewrite list_elem_of_filter. tauto.
  - intros f. unfold isRecent, eventTime, orTime.
    destruct (f_properties f) as [props|]; cbn [default from_option id].
    + destruct (truthyTime (p_time props)) as [t|]; rewrite Z.ltb_lt; lia.
    + cbn. rewrite Z.ltb_lt. lia.
Qed.

Lemma list_refresh_announces_unseen_recent_witness :
  let u := usgsQuery (queryParams "2025-09-25T12:00:00.000Z" 500 None) in
  let fs := [ sampleEvent "us7000a" (Some 6.2%Q) (sampleNow - 1000);
              sampleEvent "us7000b" (Some 4.9%Q) (sampleNow - 2000);
              sampleEvent "us7000c" None (sampleNow - 3 * 86400000) ] in
  quakesUrl sampleEnv = Some u /\
  net sampleEnv u = Response true (Data (Some fs)) /\
  NoDup (map f_id fs) /\
  toasts (shared (snd (fetchQuakesAndRender sampleEnv samplePageSeen))) =
    toasts (shared samplePageSeen)
    ++ map newQuakeToast
         (announced (clock1 sampleEnv) (seenQuakes (shared samplePageSeen)) fs).
Proof.
  intros u fs.
  assert (Hu : quakesUrl sampleEnv = Some u) by reflexivity.
  assert (Hnet : net sampleEnv u = Response true (Data (Some fs)))
    by reflexivity.
  assert (Hnd : NoDup (map f_id fs)).
  { change (NoDup ["us7000a"; "us7000b"; "us7000c"]%string). solve_keys. }
  split; [exact Hu|]. split; [exact Hnet|]. split; [exact Hnd|].
  pose proof (list_refresh_announces_unseen_recent sampleEnv samplePageSeen
                u fs Hu Hnet Hnd) as (_ & _ & H & _).
  exact H.
Defined.

(** X6.  A list refresh that follows a successful one and brings no
    identifier that the first did not bring (or that was seen before)
    shows no toast and leaves the seen set as it is, whatever the clock
    reads by then. *)
Theorem repeated_list_refresh_is_silent (env env' : Env) (p : Page)
    (u u' : Url) (fs fs' : list Feature) :
  quakesUrl env = Some u ->
  net env u = Response true (Data (Some fs)) ->
  quakesUrl env' = Some u' ->
  net env' u' = Response true (Data (Some fs')) ->
  batchIds fs' ⊆ batchIds fs ∪ seenQuakes (shared p) ->
  let p1 := snd (fetchQuakesAndRender env p) in
  let p2 := snd (fetchQuakesAndRender env' p1) in
  toasts (shared p2) = toasts (shared p1) /\
  seenQuakes (shared p2) = seenQuakes (shared p1).
Proof.
  intros Hu Hnet Hu' Hnet' Hsub p1 p2.
  destruct (fetchQuakesAndRender_shared env p u fs Hu Hnet)
    as (_ & Hs1 & _).
  destruct (fetchQuakesAndRender_shared env' p1 u' fs' Hu' Hnet')
    as (_ & Hs2 & _).
  fold p1 in Hs1. fold p2 in Hs2.
  assert (Hsame : seenQuakes (shared p2) = seenQuakes (shared p1)).
  { rewrite Hs2. apply subseteq_union_1_L. rewrite Hs1. exact Hsub. }
  split; [|exact Hsame].
  destruct (toastStep_fetchQuakesAndRender env' p1)
    as [_ (new & Hnew & _ & Hids)].
  fold p2 in Hnew, Hids. rewrite Hnew.
  destruct new as [|t new]; [apply app_nil_r|].
  destruct (Hids (t_id t)) as [Hnot Hin]; [left|].
  rewrite Hsame in Hin. contradiction.
Qed.

Lemma repeated_list_refresh_is_silent_witness :
  let u := usgsQuery (queryParams "2025-09-25T12:00:00.000Z" 500 None) in
  let fs := [ sampleEvent "us7000a" (Some 6.2%Q) (sampleNow - 1000);
              sampleEvent "us7000b" (Some 4.9%Q) (sampleNow - 2000);
              sampleEvent "us7000c" None (sampleNow - 3 * 86400000) ] in
  let p1 := snd (fetchQuakesAndRender sampleEnv initialPage) in
  quakesUrl sampleEnv = Some u /\
  net sampleEnv u = Response true (Data (Some fs)) /\
  batchIds fs ⊆ batchIds fs ∪ seenQuakes (shared initialPage) /\
  length (toasts (shared p1)) = 2%nat /\
  toasts (shared (snd (fetchQuakesAndRender sampleEnv p1)))
    = toasts (shared p1).
Proof.
  intros u fs p1.
  assert (Hu : quakesUrl sampleEnv = Some u) by reflexivity.
  assert (Hnet : net sampleEnv u = Response true (Data (Some fs)))
    by reflexivity.
  assert (Hsub : batchIds fs ⊆ batchIds fs ∪ seenQuakes (shared initialPage))
    by apply union_subseteq_l.
  split; [exact Hu|]. split; [exact Hnet|]. split; [exact Hsub|].
  split; [vm_compute; reflexivity|].
  pose proof (repeated_list_refresh_is_silent sampleEnv sampleEnv initialPage
                u u fs fs Hu Hnet Hu Hnet Hsub) as [H _].
  exact H.
Defined.

(** X7.  After a successful list refresh that brought events, the list
    has one card per event of the answer, and the cards that act on a
    click and the markers of the map go together: every marker is where
    some card's click moves the map to, and every card whose click moves
    the map has a marker at that place.  A marker sits at the second
    coordinate as latitude and the first as longitude, so there are
    never more markers than cards. *)
Theorem cards_focus_on_their_markers (env : Env) (p : Page) (u : Url)
    (f0 : Feature) (fs : list Feature) :
  quakesUrl env = Some u ->
  net env u = Response true (Data (Some (f0 :: fs))) ->
  let r := fetchQuakesAndRender env p in
  let layer := quakeLayer (listRegion (snd r)) in
  exists cards,
    quakeList (listRegion (snd r)) = ListCards cards /\
    length cards = length (f0 :: fs) /\
    (length layer <= length cards)%nat /\
    (forall m, m ∈ layer ->
       exists c, c ∈ cards /\ card_focus c = Some (positionOf m)) /\
    (forall c pos, c ∈ cards -> card_focus c = Some pos ->
       exists m, m ∈ layer /\ positionOf m = pos) /\
    (forall f m, f ∈ f0 :: fs -> markerOf f = Some m ->
       coord (default [] (f_geometry f)) 1 = Some (mk_lat m) /\
       coord (default [] (f_geometry f)) 0 = Some (mk_lon m)).
Proof.
  intros Hu Hnet r layer.
  destruct (fetchQuakesAndRender_rendered env p u f0 fs Hu Hnet)
    as (_ & Hl & Hm & _).
  fold r in Hl, Hm. fold layer in Hm.
  assert (Hfocus : forall f, card_focus (cardOf (clock1 env) f)
                             = positionOf <$> markerOf f).
  { intros f. unfold cardOf, markerOf. cbn [card_focus].
    destruct (latLon _) as [[lat lon]|]; reflexivity. }
  exists (map (cardOf (clock1 env)) (f0 :: fs)).
  split; [exact Hl|]. split; [apply length_map|]. rewrite Hm.
  split; [rewrite length_map; apply omap_length_le|].
  split; [|split].
  - intros m Hin. apply list_elem_of_omap in Hin.
    destruct Hin as (f & Hf & Hmk).
    exists (cardOf (clock1 env) f).
    split; [apply list_elem_of_fmap_2, Hf|].
    rewrite Hfocus, Hmk. reflexivity.
  - intros c pos Hc Hpos. apply list_elem_of_fmap in Hc.
    destruct Hc as (f & -> & Hf). rewrite Hfocus in Hpos.
    destruct (markerOf f) as [m|] eqn:Hmk; [|discriminate].
    injection Hpos as <-. exists m. split; [|reflexivity].
    apply list_elem_of_omap. exists f. split; assumption.
  - intros f m _. unfold markerOf.
    destruct (default [] (f_geometry f)) as [|lon [|lat rest]];
      cbn; try discriminate.
    intros [= <-]. split; reflexivity.
Qed.

Lemma cards_focus_on_their_markers_witness :
  let u := usgsQuery (queryParams "2025-09-25T12:00:00.000Z" 500 None) in
  let f0 := sampleEvent "us7000a" (Some 6.2%Q) (sampleNow - 1000) in
  let fs := [ sampleEvent "us7000b" (Some 4.9%Q) (sampleNow - 2000);
              sampleEvent "us7000c" None (sampleNow - 3 * 86400000) ] in
  quakesUrl sampleEnv = Some u /\
  net sampleEnv u = Response true (Data (Some (f0 :: fs))) /\
  exists cards,
    quakeList (listRegion (snd (fetchQuakesAndRender sampleEnv initialPage)))
      = ListCards cards /\
    length cards = 3%nat.
Proof.
  intros u f0 fs.
  assert (Hu : quakesUrl sampleEnv = Some u) by reflexivity.
  assert (Hnet : net sampleEnv u = Response true (Data (Some (f0 :: fs))))
    by reflexivity.
  split; [exact Hu|]. split; [exact Hnet|].
  destruct (cards_focus_on_their_markers sampleEnv initialPage u f0 fs
              Hu Hnet) as (cards & Hc & Hlen & _).
  exists cards. split; [exact Hc | exact Hlen].
Defined.

(** * The statistics refresh *)

Lemma countStep_invalid (b : Buckets) (f : Feature) :
  invalidTime f -> countStep b f = None.
Proof.
  unfold invalidTime. rewrite countStep_cases.
  destruct (eventTime f) as [t|]; [|intros []].
  intros Ht. unfold JsDate.newDate, JsDate.TimeClip.
  destruct (Z.leb_spec (Z.abs t) JsDate.maxTimeValue); [lia | reflexivity].
Qed.

(** One event with a time out of range stops the counting loop. *)
Lemma countAll_invalid (fs : list Feature) :
  forall b : Buckets, Exists invalidTime fs -> countAll fs b = None.
Proof.
  induction fs as [|f fs IH]; intros b Hex.
  - inversion Hex.
  - cbn [countAll]. apply Exists_cons in Hex. destruct Hex as [Hf|Hfs].
    + rewrite (countStep_invalid b f Hf). reflexivity.
    + destruct (countStep b f) as [b'|]; [apply IH, Hfs | reflexivity].
Qed.

(** The statistics refresh on an answer that parsed, whatever becomes of
    the chart. *)
Lemma updateStatistics_shared (env : Env) (p : Page) (u : Url)
    (fs : option (list Feature)) :
  statsUrl (clock0 env) = Some u ->
  net env u = Response true (Data fs) ->
  let r := updateStatistics env p in
  let ann := majorToAnnounce (clock1 env) (seenQuakes (shared p))
                             (default [] fs) in
  fst r = Normal tt /\
  toasts (shared (snd r)) =
    toasts (shared p) ++ match ann with
                         | Some l => [majorToast l]
                         | None => []
                         end /\
  seenQuakes (shared (snd r)) =
    match ann with
    | Some l => {[ l_id l ]} ∪ seenQuakes (shared p)
    | None => seenQuakes (shared p)
    end /\
  requests (shared (snd r)) = requests (shared p) ++ [u] /\
  match initBuckets (tz env) (clock1 env) sixToZero [] with
  | Some b0 =>
      match countAll (default [] fs) b0 with
      | Some b =>
          weekChart (statsRegion (snd r)) =
            Some {| chart_labels := bucketLabels b;
                    chart_data := bucketCounts b;
                    chart_colors := map barColor (bucketCounts b) |} /\
          consoleErrors (shared (snd r)) = consoleErrors (shared p)
      | None =>
          statsRegion (snd r) =
            {| statDailyCount := StatDash; statWeeklyCount := StatDash;
               statLargest24h := StatDash;
               weekChart := weekChart (statsRegion p) |} /\
          consoleErrors (shared (snd r)) =
            consoleErrors (shared p) ++ ["updateStatistics error"%string]
      end
  | None =>
      statsRegion (snd r) =
        {| statDailyCount := StatDash; statWeeklyCount := StatDash;
           statLargest24h := StatDash;
           weekChart := weekChart (statsRegion p) |} /\
      consoleErrors (shared (snd r)) =
        consoleErrors (shared p) ++ ["updateStatistics error"%string]
  end.
Proof.
  intros Hu Hnet. unfold updateStatistics, majorToAnnounce, last24.
  rewrite Hu. destruct p as [[seen ts rq ce] lr mr [d w l24 ch]].
  run_page. rewrite Hnet. run_page.
  destruct (scanLargest _) as [l|]; run_page.
  - rewrite bool_decide_not.
    destruct (Qge_bool (l_mag l) 5);
      destruct (bool_decide (l_id l ∈ seen));
      run_page;
      (destruct (initBuckets _ _ _ _) as [b0|]; run_page;
       [destruct (countAll _ b0) as [b|]; run_page|]);
      rewrite ?app_nil_r; repeat split; reflexivity.
  - destruct (initBuckets _ _ _ _) as [b0|]; run_page;
      [destruct (countAll _ b0) as [b|]; run_page|];
      rewrite ?app_nil_r; repeat split; reflexivity.
Qed.

Lemma sum_indicator_absent (key : option string) (k0 : string)
    (ks : list string) :
  key = Some k0 -> k0 ∉ ks ->
  sum_list (map (fun k => if decide (key = Some k) then 1%nat else 0%nat) ks)
  = 0%nat.
Proof.
  intros -> Hk. induction ks as [|k ks IH]; [reflexivity|].
  apply not_elem_of_cons in Hk. destruct Hk as [Hne Hk]. cbn.
  destruct (decide (Some k0 = Some k)) as [[= E]|_]; [contradiction|].
  apply IH, Hk.
Qed.

Lemma sum_indicator (key : option string) (ks : list string) :
  NoDup ks ->
  (sum_list (map (fun k => if decide (key = Some k) then 1%nat else 0%nat) ks)
   <= 1)%nat.
Proof.
  induction 1 as [|k ks Hk Hnd IH]; cbn; [lia|].
  destruct (decide (key = Some k)) as [E|_]; [|exact IH].
  rewrite (sum_indicator_absent key k ks E Hk). lia.
Qed.

(** Bars with pairwise different labels never count more events than
    there are. *)
Lemma sum_countFor (ks : list string) (fs : list Feature) :
  NoDup ks ->
  (sum_list (map (fun k => countFor k fs) ks) <= length fs)%nat.
Proof.
  intros Hnd. induction fs as [|f fs IH].
  - cbn [length]. induction ks as [|k ks IHk]; cbn; [lia|].
    apply NoDup_cons in Hnd. destruct Hnd as [_ Hnd]. apply IHk, Hnd.
  - assert (E : sum_list (map (fun k => countFor k (f :: fs)) ks) =
                (sum_list (map (fun k => if decide (eventKey f = Some k)
                                         then 1%nat else 0%nat) ks)
                 + sum_list (map (fun k => countFor k fs) ks))%nat).
    { clear. induction ks as [|k ks IHk]; cbn [map sum_list]; [reflexivity|].
      rewrite IHk, countFor_cons. unfold id. lia. }
    rewrite E. pose proof (sum_indicator (eventKey f) ks Hnd). cbn [length].
    lia.
Qed.

(** X8.  A successful statistics refresh shows counts that fit together:
    the count of the last 24 hours is at most the week count, which is
    the number of events of the answer; the chart has as many data
    values and as many colours as labels; its bars add up to at most the
    week count; and a bar has the accent colour exactly when it counts
    at least one event. *)
Theorem statistics_counts_fit_together (env : Env) (p : Page) (u : Url)
    (fs : option (list Feature)) :
  statsUrl (clock0 env) = Some u ->
  net env u = Response true (Data fs) ->
  saneZone (tz env) -> fourDigitClock (clock1 env) ->
  validTimes (default [] fs) ->
  let s := statsRegion (snd (updateStatistics env p)) in
  exists (d w : nat) (c : Chart),
    statDailyCount s = StatCount d /\
    statWeeklyCount s = StatCount w /\
    weekChart s = Some c /\
    w = length (default [] fs) /\
    (d <= w)%nat /\
    length (chart_data c) = length (chart_labels c) /\
    length (chart_colors c) = length (chart_labels c) /\
    (barTotal c <= w)%nat /\
    (forall (i n : nat), chart_data c !! i = Some n ->
       chart_colors c !! i = Some (barColor n)) /\
    (forall n : nat, barColor n = "rgba(124,77,255,0.7)"%string <-> (0 < n)%nat).
Proof.
  intros Hu Hnet Hz Hn Hv s.
  destruct (buckets_built (tz env) (clock1 env) (default [] fs) Hz Hn Hv)
    as (b0 & b & Hb0 & Hb & Hnd & _ & Hl & Hg).
  destruct (updateStatistics_run env p u fs b0 b Hu Hnet Hb0 Hb)
    as (_ & Hr & _).
  fold s in Hr. rewrite Hr.
  cbn [statDailyCount statWeeklyCount weekChart].
  eexists _, _, _. split; [reflexivity|]. split; [reflexivity|].
  split; [reflexivity|]. split; [reflexivity|].
  cbn [chart_data chart_labels chart_colors].
  split; [apply length_filter|].
  split; [unfold bucketCounts; apply length_map|].
  split; [unfold bucketCounts; rewrite !length_map; reflexivity|].
  split; [|split].
  - unfold barTotal. cbn [chart_data].
    rewrite (bucketCounts_countFor (default [] fs) b0 b Hl Hg).
    apply sum_countFor. rewrite Hl. exact Hnd.
  - intros i n Hi. change (map barColor (bucketCounts b))
      with (barColor <$> bucketCounts b).
    rewrite list_lookup_fmap, Hi. reflexivity.
  - intros n. unfold barColor. destruct n as [|n]; cbn.
    + split; [discriminate | lia].
    + split; [lia | reflexivity].
Qed.

Lemma statistics_counts_fit_together_witness :
  let u := usgsQuery (queryParams "2025-09-25T12:00:00.000Z" 2000 None) in
  let fs := Some [nightEvent] in
  statsUrl (clock0 nightEnv) = Some u /\
  net nightEnv u = Response true (Data fs) /\
  saneZone (tz nightEnv) /\ fourDigitClock (clock1 nightEnv) /\
  validTimes (default [] fs) /\
  exists c,
    weekChart (statsRegion (snd (updateStatistics nightEnv initialPage)))
      = Some c /\
    (barTotal c <= 1)%nat.
Proof.
  intros u fs.
  assert (Hu : statsUrl (clock0 nightEnv) = Some u) by reflexivity.
  assert (Hnet : net nightEnv u = Response true (Data fs)) by reflexivity.
  assert (Hv : validTimes (default [] fs)).
  { unfold validTimes, fs. cbn [default].
    repeat constructor; unfold nightEvent, sampleEvent, eventTime,
      JsDate.maxTimeValue; simpl; lia. }
  split; [exact Hu|]. split; [exact Hnet|].
  split; [exact sampleZone_sane|]. split; [exact sampleClock_fourDigit|].
  split; [exact Hv|].
  destruct (statistics_counts_fit_together nightEnv initialPage u fs Hu Hnet
              sampleZone_sane sampleClock_fourDigit Hv)
    as (d & w & c & _ & _ & Hc & Hw & _ & _ & _ & Hsum & _).
  exists c. split; [exact Hc|]. rewrite Hw in Hsum. exact Hsum.
Defined.

(** X9.  When the answer holds an event whose time no [Date] can hold,
    the statistics refresh still completes, but the three figures show
    the dash, the chart stays as it was, and one error is logged: the
    [toISOString] of the counting loop throws inside the [try]. *)
Theorem out_of_range_time_blanks_statistics (env : Env) (p : Page) (u : Url)
    (fs : list Feature) :
  statsUrl (clock0 env) = Some u ->
  net env u = Response true (Data (Some fs)) ->
  Exists invalidTime fs ->
  let r := updateStatistics env p in
  fst r = Normal tt /\
  statDailyCount (statsRegion (snd r)) = StatDash /\
  statWeeklyCount (statsRegion (snd r)) = StatDash /\
  statLargest24h (statsRegion (snd r)) = StatDash /\
  weekChart (statsRegion (snd r)) = weekChart (statsRegion p) /\
  consoleErrors (shared (snd r)) =
    consoleErrors (shared p) ++ ["updateStatistics error"%string].
Proof.
  intros Hu Hnet Hex r.
  destruct (updateStatistics_shared env p u (Some fs) Hu Hnet)
    as (Hn & _ & _ & _ & Hout).
  fold r in Hn, Hout. split; [exact Hn|].
  destruct (initBuckets _ _ _ _) as [b0|].
  - cbn [default from_option id] in Hout.
    rewrite (countAll_invalid fs b0 Hex) in Hout.
    destruct Hout as [-> ->]. repeat split; reflexivity.
  - destruct Hout as [-> ->]. repeat split; reflexivity.
Qed.

Lemma out_of_range_time_blanks_statistics_witness :
  let u := usgsQuery (queryParams "2025-09-25T12:00:00.000Z" 2000 None) in
  let fs := [ nightEvent;
              sampleEvent "us7000x" (Some 4%Q) 8640000000000001 ] in
  let env := {| net := fun _ => Response true (Data (Some fs));
                clock0 := sampleNow; clock1 := sampleNow;
                tz := JsDate.manila; timeRange := None |} in
  statsUrl (clock0 env) = Some u /\
  net env u = Response true (Data (Some fs)) /\
  Exists invalidTime fs /\
  statWeeklyCount (statsRegion (snd (updateStatistics env initialPage)))
    = StatDash.
Proof.
  intros u fs env.
  assert (Hu : statsUrl (clock0 env) = Some u) by reflexivity.
  assert (Hnet : net env u = Response true (Data (Some fs))) by reflexivity.
  assert (Hex : Exists invalidTime fs).
  { apply Exists_cons_tl, Exists_cons_hd.
    unfold invalidTime, eventTime, sampleEvent, JsDate.maxTimeValue.
    cbn. lia. }
  split; [exact Hu|]. split; [exact Hnet|]. split; [exact Hex|].
  pose proof (out_of_range_time_blanks_statistics env initialPage u fs
                Hu Hnet Hex) as (_ & _ & H & _).
  exact H.
Defined.

(** X10.  Whenever the answer to the statistics request parsed, the
    refresh shows a Major (24h) toast exactly when the largest event of
    the last 24 hours has a magnitude of 5 or more and an identifier
    that is not in the seen set: then it shows this one toast, for 8 s,
    and puts the identifier into the seen set; otherwise it shows no
    toast and leaves the seen set alone.  This does not depend on
    whether the chart can be built afterwards. *)
Theorem major_toast_for_largest_unseen (env : Env) (p : Page) (u : Url)
    (fs : option (list Feature)) :
  statsUrl (clock0 env) = Some u ->
  net env u = Response true (Data fs) ->
  let r := updateStatistics env p in
  let seen := seenQuakes (shared p) in
  let ann := majorToAnnounce (clock1 env) seen (default [] fs) in
  (forall l, ann = Some l <->
     scanLargest (last24 (clock1 env) (default [] fs)) = Some l /\
     (5 <= l_mag l)%Q /\ (l_id l ∉ seen)) /\
  toasts (shared (snd r)) =
    toasts (shared p) ++ match ann with
                         | Some l => [majorToast l]
                         | None => []
                         end /\
  seenQuakes (shared (snd r)) =
    match ann with
    | Some l => {[ l_id l ]} ∪ seen
    | None => seen
    end /\
  (forall l, t_duration (majorToast l) = 8000 /\ t_id (majorToast l) = l_id l).
Proof.
  intros Hu Hnet r seen ann.
  destruct (updateStatistics_shared env p u fs Hu Hnet)
    as (_ & Ht & Hs & _).
  split; [|split; [exact Ht|split; [exact Hs|]]].
  - intros l. unfold ann, majorToAnnounce.
    destruct (scanLargest _) as [l0|].
    + unfold Qge_bool.
      destruct (Qle_bool 5 (l_mag l0)) eqn:Hm;
        destruct (bool_decide (l_id l0 ∉ seen)) eqn:Hd; cbn [andb].
      * apply Qle_bool_iff in Hm. apply bool_decide_eq_true_1 in Hd.
        split.
        -- intros [= <-]. repeat split; assumption.
        -- intros [[= <-] _]. reflexivity.
      * apply bool_decide_eq_false_1 in Hd.
        split; [discriminate|]. intros ([= <-] & _ & Hno). contradiction.
      * split; [discriminate|]. intros ([= <-] & Hge & _).
        apply Qle_bool_iff in Hge. congruence.
      * split; [discriminate|]. intros ([= <-] & Hge & _).
        apply Qle_bool_iff in Hge. congruence.
    + split; [discriminate|]. intros [H _]. discriminate H.
  - intros l. split; reflexivity.
Qed.

Lemma major_toast_for_largest_unseen_witness :
  let u := usgsQuery (queryParams "2025-09-25T12:00:00.000Z" 2000 None) in
  let fs := Some [ sampleEvent "us7000a" (Some 6.2%Q) (sampleNow - 1000);
                   sampleEvent "us7000b" (Some 4.9%Q) (sampleNow - 2000);
                   sampleEvent "us7000c" None (sampleNow - 3 * 86400000) ] in
  statsUrl (clock0 sampleEnv) = Some u /\
  net sampleEnv u = Response true (Data fs) /\
  toasts (shared (snd (updateStatistics sampleEnv initialPage))) =
    toasts (shared initialPage)
    ++ match majorToAnnounce (clock1 sampleEnv)
               (seenQuakes (shared initialPage)) (default [] fs) with
       | Some l => [majorToast l]
       | None => []
       end.
Proof.
  intros u fs.
  assert (Hu : statsUrl (clock0 sampleEnv) = Some u) by reflexivity.
  assert (Hnet : net sampleEnv u = Response true (Data fs)) by reflexivity.
  split; [exact Hu|]. split; [exact Hnet|].
  pose proof (major_toast_for_largest_unseen sampleEnv initialPage u fs
                Hu Hnet) as (_ & H & _).
  exact H.
Defined.

(** X11.  In a browser whose offset from UTC never changes, as in the
    Philippines, the chart of every successful statistics refresh has
    exactly seven bars, labelled oldest first with the seven UTC
    calendar days that end with the day of the clock; no label occurs
    twice, and every bar counts the events of its day. *)
Theorem fixed_zone_chart_has_seven_days (env : Env) (p : Page) (u : Url)
    (fs : option (list Feature)) (off : Z) :
  statsUrl (clock0 env) = Some u ->
  net env u = Response true (Data fs) ->
  tz env = JsDate.fixedZone off -> Z.abs off <= JsDate.msPerDay ->
  fourDigitClock (clock1 env) ->
  validTimes (default [] fs) ->
  exists c,
    weekChart (statsRegion (snd (updateStatistics env p))) = Some c /\
    chart_labels c =
      map (fun i => utcDate (clock1 env - i * JsDate.msPerDay))
          [6; 5; 4; 3; 2; 1; 0] /\
    length (chart_labels c) = 7%nat /\
    chart_labels c !! 6%nat = Some (utcDate (clock1 env)) /\
    NoDup (chart_labels c) /\
    chart_data c = map (fun k => countFor k (default [] fs)) (chart_labels c).
Proof.
  intros Hu Hnet Htz Hoff Hn Hv.
  destruct (seven_buckets_fixed_zone env p u fs off Hu Hnet Htz Hoff Hn Hv)
    as (c & Hc & Hl & Hlen & Hnd & Hd).
  exists c. split; [exact Hc|]. split; [exact Hl|]. split; [exact Hlen|].
  split; [|split; [exact Hnd | exact Hd]].
  rewrite Hl.
  change (Some (utcDate (clock1 env - 0 * JsDate.msPerDay))
          = Some (utcDate (clock1 env))).
  do 2 f_equal. lia.
Qed.

Lemma fixed_zone_chart_has_seven_days_witness :
  let u := usgsQuery (queryParams "2025-09-25T12:00:00.000Z" 2000 None) in
  let fs := Some [nightEvent] in
  statsUrl (clock0 nightEnv) = Some u /\
  net nightEnv u = Response true (Data fs) /\
  tz nightEnv = JsDate.fixedZone (8 * JsDate.msPerHour) /\
  Z.abs (8 * JsDate.msPerHour) <= JsDate.msPerDay /\
  fourDigitClock (clock1 nightEnv) /\
  validTimes (default [] fs) /\
  exists c,
    weekChart (statsRegion (snd (updateStatistics nightEnv initialPage)))
      = Some c /\
    length (chart_labels c) = 7%nat.
Proof.
  intros u fs.
  assert (Hu : statsUrl (clock0 nightEnv) = Some u) by reflexivity.
  assert (Hnet : net nightEnv u = Response true (Data fs)) by reflexivity.
  assert (Htz : tz nightEnv = JsDate.fixedZone (8 * JsDate.msPerHour))
    by reflexivity.
  assert (Hoff : Z.abs (8 * JsDate.msPerHour) <= JsDate.msPerDay)
    by (unfold JsDate.msPerHour, JsDate.msPerDay; lia).
  assert (Hv : validTimes (default [] fs)).
  { unfold validTimes, fs. cbn [default].
    repeat constructor; unfold nightEvent, sampleEvent, eventTime,
      JsDate.maxTimeValue; simpl; lia. }
  split; [exact Hu|]. split; [exact Hnet|]. split; [exact Htz|].
  split; [exact Hoff|]. split; [exact sampleClock_fourDigit|].
  split; [exact Hv|].
  destruct (fixed_zone_chart_has_seven_days nightEnv initialPage u fs
              (8 * JsDate.msPerHour) Hu Hnet Htz Hoff
              sampleClock_fourDigit Hv) as (c & Hc & _ & Hlen & _).
  exists c. split; [exact Hc | exact Hlen].
Defined.

(** * The controls *)

Lemma controls_startAuto (a : Auto) :
  timersPaired (startAuto a) /\ pauseShown (startAuto a).
Proof.
  unfold timersPaired, pauseShown, startAuto.
  cbn [stopAuto autoEnabled refreshSeconds].
  destruct (autoEnabled a) eqn:En; cbn.
  - split; [right; repeat split; reflexivity|].
    split; [discriminate|]. intros [H|H]; discriminate H.
  - split; [left; split; reflexivity|].
    split; [intros _; repeat split; reflexivity | reflexivity].
Qed.

Lemma controls_handle (e : Event) (a : Auto) :
  timersPaired a /\ pauseShown a ->
  timersPaired (handle e a) /\ pauseShown (handle e a).
Proof.
  intros [Hp Hs]. destruct e; cbn [handle].
  - apply controls_startAuto.
  - apply controls_startAuto.
  - destruct (refreshSeconds a); [|split; assumption].
    apply controls_startAuto.
  - split; assumption.
  - destruct (autoTimerId a) as [t|] eqn:Et in |- *; [|split; assumption].
    split; assumption.
  - destruct (countdownTimerId a) as [t|] eqn:Et in |- *;
      [|split; assumption].
    destruct Hp as [[_ Hc]|(Ha & Hc & En)]; [congruence|].
    split.
    + right. cbn. repeat split; assumption.
    + destruct Hs as [Hoff Hon]. split; cbn.
      * intros Hf. congruence.
      * intros [H|H]; [discriminate H | apply Hon; right; exact H].
Qed.

(** X12.  Whatever the interval input holds at the start and whatever
    happens afterwards (the first load, clicks, edits of the interval,
    timer ticks, in any order), the two timers are set together or not
    at all; when they are set, auto-refresh is enabled, the cycle timer
    has the current interval as its delay and the countdown timer one
    second.  While auto-refresh is off no timer is set, the countdown
    says Paused and the button says Resume; and the page says Paused or
    Resume only while auto-refresh is off.  (The page is one that has
    the countdown element and the toggle button.) *)
Theorem timers_and_labels_agree (input : option JsNum) (es : list Event) :
  let a := runEvents es (initialAuto input) in
  ((autoTimerId a = None /\ countdownTimerId a = None) \/
   (autoTimerId a = Some {| delay := autoInterval a |} /\
    countdownTimerId a = Some {| delay := Num 1000 |} /\
    autoEnabled a = true)) /\
  (autoEnabled a = false ->
   autoTimerId a = None /\ countdownTimerId a = None /\
   countdownText a = CountdownPaused /\ toggleText a = ToggleResume) /\
  (countdownText a = CountdownPaused \/ toggleText a = ToggleResume ->
   autoEnabled a = false).
Proof.
  cbv zeta.
  change (timersPaired (runEvents es (initialAuto input)) /\
          pauseShown (runEvents es (initialAuto input))).
  assert (H0 : timersPaired (initialAuto input) /\
               pauseShown (initialAuto input)).
  { split; [left; split; reflexivity|].
    split; [discriminate|]. intros [H|H]; discriminate H. }
  revert H0. generalize (initialAuto input).
  induction es as [|e es IH]; intros a Ha; cbn; [exact Ha|].
  apply IH, controls_handle, Ha.
Qed.

Lemma paused_handle (e : Event) (a : Auto) :
  autoEnabled a = false -> autoTimerId a = None ->
  countdownTimerId a = None -> isToggleClick e = false ->
  autoEnabled (handle e a) = false /\ autoTimerId (handle e a) = None /\
  countdownTimerId (handle e a) = None /\
  refreshCalls (handle e a) =
    ((if isRefreshClick e then 1 else 0) + refreshCalls a)%nat.
Proof.
  intros En Ha Hc Ht. destruct e; try discriminate; cbn [handle].
  - unfold startAuto. cbn [stopAuto autoEnabled]. rewrite En. cbn.
    repeat split; assumption || reflexivity.
  - destruct (refreshSeconds a) eqn:Hr; [|repeat split; assumption].
    unfold onIntervalChange, startAuto.
    destruct (isNaN _ || js_lt _ 5);
      cbn [stopAuto setRefreshSeconds autoEnabled]; rewrite En; cbn;
      repeat split; assumption || reflexivity.
  - cbn. repeat split; assumption.
  - rewrite Ha. cbn. repeat split; assumption.
  - rewrite Hc. cbn. repeat split; assumption.
Qed.

(** X13.  While auto-refresh is paused, nothing but a click on the
    toggle button sets a timer again: over any other events (a restart,
    edits of the interval, clicks on the refresh button) it stays
    paused, and the only refreshes made are those of the clicks on the
    refresh button. *)
Theorem no_automatic_refresh_while_paused (a : Auto) (es : list Event) :
  autoEnabled a = false -> autoTimerId a = None ->
  countdownTimerId a = None ->
  Forall (fun e => isToggleClick e = false) es ->
  let a' := runEvents es a in
  autoEnabled a' = false /\ autoTimerId a' = None /\
  countdownTimerId a' = None /\
  refreshCalls a' =
    (refreshCalls a + length (filter (fun e => isRefreshClick e = true) es))%nat.
Proof.
  intros En Ha Hc Hes. revert a En Ha Hc.
  induction Hes as [|e es He Hes IH]; intros a En Ha Hc.
  - cbn. repeat split; assumption || lia.
  - destruct (paused_handle e a En Ha Hc He) as (En' & Ha' & Hc' & Hn).
    destruct (IH (handle e a) En' Ha' Hc') as (H1 & H2 & H3 & H4).
    cbv zeta. cbn [runEvents fold_left].
    change (fold_left (fun s e0 => handle e0 s) es (handle e a))
      with (runEvents es (handle e a)).
    split; [exact H1|]. split; [exact H2|]. split; [exact H3|].
    rewrite H4, Hn, filter_cons.
    destruct (isRefreshClick e);
      [rewrite decide_True by reflexivity
      | rewrite decide_False by discriminate]; cbn [length]; lia.
Qed.

Lemma no_automatic_refresh_while_paused_witness :
  let es := [CycleTimerFires; RefreshClick; IntervalEdit (Num 10);
             CountdownTimerFires; InitDone] in
  autoEnabled pausedAuto = false /\ autoTimerId pausedAuto = None /\
  countdownTimerId pausedAuto = None /\
  Forall (fun e => isToggleClick e = false) es /\
  refreshCalls (runEvents es pausedAuto) =
    (refreshCalls pausedAuto
     + length (filter (fun e => isRefreshClick e = true) es))%nat.
Proof.
  intros es.
  assert (En : autoEnabled pausedAuto = false) by reflexivity.
  assert (Ha : autoTimerId pausedAuto = None) by reflexivity.
  assert (Hc : countdownTimerId pausedAuto = None) by reflexivity.
  assert (Hes : Forall (fun e => isToggleClick e = false) es)
    by (repeat constructor).
  split; [exact En|]. split; [exact Ha|]. split; [exact Hc|].
  split; [exact Hes|].
  pose proof (no_automatic_refresh_while_paused pausedAuto es En Ha Hc Hes)
    as (_ & _ & _ & H).
  exact H.
Defined.

(** X14.  When the interval input is edited to a number from 5 up to
    (but not including) 9 007 199 254 740, the input keeps the value as
    typed and the interval becomes its whole part in seconds: 7.5 gives
    an interval of 7 s.  The countdown starts again from that whole
    number, and with auto-refresh enabled the display shows it and the
    cycle timer is set with the new interval.  (Up to that bound the
    whole part in milliseconds is below [2^53] and no double is
    rounded.) *)
Theorem valid_interval_is_floored (a : Auto) (q : Q) :
  is_Some (refreshSeconds a) ->
  (5 <= q)%Q -> (q < 9007199254740)%Q ->
  let a' := handle (IntervalEdit (Num q)) a in
  refreshSeconds a' = Some (Num q) /\
  countdownRemaining a' = Num (inject_Z (Qfloor q)) /\
  autoInterval a' = Num (inject_Z (Qfloor q * 1000)) /\
  (autoEnabled a = true ->
   countdownText a' = CountdownShows (Num (inject_Z (Qfloor q))) /\
   autoTimerId a' = Some {| delay := autoInterval a' |}).
Proof.
  intros [s Hs] Hq Hlt. cbn [handle]. rewrite Hs.
  unfold onIntervalChange.
  cbn [setRefreshSeconds refreshSeconds default from_option id].
  assert (Hle : Qle_bool 5 q = true) by (apply Qle_bool_iff, Hq).
  assert (Hbad : isNaN (Num q) || js_lt (Num q) 5 = false)
    by (cbn; rewrite Hle; reflexivity).
  rewrite Hbad.
  destruct (validatedSecs_floor (Num q) Hlt) as (q' & Hv & Hk & Hb).
  assert (Hval : validatedSecs (Num q) = Num q).
  { unfold validatedSecs. cbn [isNaN js_ge negb andb]. rewrite Hle.
    reflexivity. }
  rewrite Hval in Hv. injection Hv as <-.
  unfold startAuto.
  cbn [stopAuto setRefreshSeconds autoEnabled refreshSeconds default
       from_option id].
  rewrite Hval. cbn [jsFloor].
  rewrite (interval_of_whole (Qfloor q) Hk Hb).
  rewrite (seconds_of_interval _ (Qfloor q)) by (reflexivity || lia).
  destruct (autoEnabled a); cbn [negb autoInterval countdownRemaining
    refreshSeconds countdownText autoTimerId].
  - split; [reflexivity|]. split; [reflexivity|]. split; [reflexivity|].
    intros _. split; reflexivity.
  - split; [reflexivity|]. split; [reflexivity|]. split; [reflexivity|].
    discriminate.
Qed.

Lemma valid_interval_is_floored_witness :
  let a := runEvents [InitDone] (initialAuto (Some (Num 30))) in
  let a' := handle (IntervalEdit (Num 7.5)) a in
  is_Some (refreshSeconds a) /\ (5 <= 7.5)%Q /\ (7.5 < 9007199254740)%Q /\
  refreshSeconds a' = Some (Num 7.5) /\
  countdownRemaining a' = Num 7.
Proof.
  intros a a'.
  assert (Hs : is_Some (refreshSeconds a)) by (eexists; reflexivity).
  assert (Hq : (5 <= 7.5)%Q) by (unfold Qle; cbn; lia).
  assert (Hlt : (7.5 < 9007199254740)%Q) by reflexivity.
  split; [exact Hs|]. split; [exact Hq|]. split; [exact Hlt|].
  destruct (valid_interval_is_floored a 7.5 Hs Hq Hlt) as (H1 & H2 & _).
  split; [exact H1 | exact H2].
Defined.

(** X15.  A click on the toggle button flips auto-refresh, and two
    clicks in a row leave the scheduler exactly as one restart does: the
    countdown starts over from the full interval, it does not resume
    where it was paused.  Restarting twice is the same as restarting
    once. *)
Theorem toggle_twice_restarts (a : Auto) :
  onToggle (onToggle a) = startAuto a /\
  startAuto (startAuto a) = startAuto a /\
  autoEnabled (onToggle a) = negb (autoEnabled a) /\
  (autoEnabled a = true ->
   countdownText (startAuto a)
   = CountdownShows (countdownRemaining (startAuto a)) /\
   countdownRemaining (startAuto a)
   = jsFloor (jsDiv (autoInterval (startAuto a)) 1000)).
Proof.
  unfold onToggle, startAuto.
  cbn [stopAuto autoEnabled refreshSeconds refreshCalls].
  destruct (autoEnabled a); cbn [negb autoEnabled refreshSeconds refreshCalls
    countdownText countdownRemaining autoInterval];
    repeat split; try reflexivity; discriminate.
Qed.

(** * The first load and the cycle *)

(** The three operations of a cycle, one after the other. *)
Lemma doFullRefresh_steps (envF envM envS : Env) (p : Page) :
  let r1 := runOp OpFetchQuakes envF p in
  let r2 := runOp OpMajorHighlight envM (snd r1) in
  let r3 := runOp OpStatistics envS (snd r2) in
  doFullRefresh envF envM envS p =
  (promiseAll [settle (fst r1); settle (fst r2); settle (fst r3)], snd r3).
Proof.
  unfold doFullRefresh, runOps.
  destruct (runOp OpFetchQuakes envF p) as [c1 p1]. cbn [fst snd].
  destruct (runOp OpMajorHighlight envM p1) as [c2 p2]. cbn [fst snd].
  destruct (runOp OpStatistics envS p2) as [c3 p3]. reflexivity.
Qed.

(** An operation whose request failed logs its own line and nothing
    else, and shows no toast. *)
Lemma runOp_failed_log (op : Op) (env : Env) (p : Page) :
  opReady op env -> requestFailed op env = true ->
  consoleErrors (shared (snd (runOp op env p))) =
    consoleErrors (shared p) ++ [errorLabel op] /\
  toasts (shared (snd (runOp op env p))) = toasts (shared p).
Proof.
  intros Hs. unfold requestFailed.
  destruct (requestOf op env) as [u|] eqn:Hu; [|discriminate].
  intros Hf. destruct p as [sh lr mr sr]. destruct op; simpl in Hu, Hs |- *.
  - unfold fetchQuakesAndRender. rewrite Hu.
    destruct (net env u) as [|[] [| |fs]] eqn:E; try discriminate;
      run_page; rewrite ?E; run_page; split; reflexivity.
  - unfold updateMajorHighlight. rewrite Hu.
    rewrite (majorUrl_sane _ 30) by (assumption || lia).
    destruct (net env u) as [|[] [| |fs]] eqn:E; try discriminate;
      run_page; rewrite ?E; run_page; split; reflexivity.
  - unfold updateStatistics. rewrite Hu.
    destruct (net env u) as [|[] [| |fs]] eqn:E; try discriminate;
      run_page; rewrite ?E; run_page; repeat split; reflexivity.
Qed.

(** X16.  When none of the three requests of the first load succeeds,
    [init] still leaves a usable page: the list, the highlight and the
    statistics each show their error state, each operation has logged
    its own line and nothing else is logged (the refresh as a whole did
    not fail), no toast is shown, and the scheduler is started, with
    both timers set when auto-refresh is enabled. *)
Theorem init_with_feed_down (envF envM envS : Env) (app : App) :
  opReady OpFetchQuakes envF -> opReady OpMajorHighlight envM ->
  requestFailed OpFetchQuakes envF = true ->
  requestFailed OpMajorHighlight envM = true ->
  requestFailed OpStatistics envS = true ->
  let app' := init envF envM envS app in
  errorShown OpFetchQuakes (page app') /\
  errorShown OpMajorHighlight (page app') /\
  errorShown OpStatistics (page app') /\
  consoleErrors (shared (page app')) ≡ₚ
    consoleErrors (shared (page app))
    ++ [errorLabel OpFetchQuakes; errorLabel OpMajorHighlight;
        errorLabel OpStatistics] /\
  toasts (shared (page app')) = toasts (shared (page app)) /\
  auto app' = startAuto (auto app) /\
  (autoEnabled (auto app) = true ->
   is_Some (autoTimerId (auto app')) /\
   is_Some (countdownTimerId (auto app'))).
Proof.
  intros HF HM FF FM FS. unfold init.
  rewrite doFullRefresh_steps. cbv zeta.
  set (p0 := page app).
  pose proof (runOp_total OpFetchQuakes envF p0 HF) as N1.
  pose proof (runOp_errorShown OpFetchQuakes envF p0 HF FF) as E1.
  pose proof (runOp_failed_log OpFetchQuakes envF p0 HF FF) as [L1 T1].
  set (p1 := snd (runOp OpFetchQuakes envF p0)) in *.
  pose proof (runOp_total OpMajorHighlight envM p1 HM) as N2.
  pose proof (runOp_errorShown OpMajorHighlight envM p1 HM FM) as E2.
  pose proof (runOp_failed_log OpMajorHighlight envM p1 HM FM) as [L2 T2].
  pose proof (runOp_untouched OpMajorHighlight envM p1) as U2.
  set (p2 := snd (runOp OpMajorHighlight envM p1)) in *.
  pose proof (runOp_total OpStatistics envS p2 I) as N3.
  pose proof (runOp_errorShown OpStatistics envS p2 I FS) as E3.
  pose proof (runOp_failed_log OpStatistics envS p2 I FS) as [L3 T3].
  pose proof (runOp_untouched OpStatistics envS p2) as U3.
  set (p3 := snd (runOp OpStatistics envS p2)) in *.
  rewrite N1, N2, N3. cbn [settle promiseAll catchLog page auto].
  cbn [untouched] in U2, U3. destruct U2 as [U2l U2s], U3 as [U3l U3m].
  cbn [errorShown] in *.
  split; [rewrite U3l, U2l; exact E1|].
  split; [rewrite U3m; exact E2|].
  split; [exact E3|].
  split; [rewrite L3, L2, L1, <- !app_assoc; reflexivity|].
  split; [rewrite T3, T2, T1; reflexivity|].
  split; [reflexivity|].
  intros En. unfold startAuto. cbn [stopAuto autoEnabled]. rewrite En.
  cbn. split; eexists; reflexivity.
Qed.

Lemma init_with_feed_down_witness :
  opReady OpFetchQuakes offlineEnv /\ opReady OpMajorHighlight offlineEnv /\
  requestFailed OpFetchQuakes offlineEnv = true /\
  requestFailed OpMajorHighlight offlineEnv = true /\
  requestFailed OpStatistics offlineEnv = true /\
  errorShown OpStatistics (page (init offlineEnv offlineEnv offlineEnv freshApp)).
Proof.
  assert (Hc : saneClock (clock0 offlineEnv)).
  { unfold saneClock, JsDate.maxTimeValue. simpl. unfold sampleNow. lia. }
  assert (HF : opReady OpFetchQuakes offlineEnv) by (split; [exact Hc | exact I]).
  assert (FF : requestFailed OpFetchQuakes offlineEnv = true) by reflexivity.
  assert (FM : requestFailed OpMajorHighlight offlineEnv = true) by reflexivity.
  assert (FS : requestFailed OpStatistics offlineEnv = true) by reflexivity.
  split; [exact HF|]. split; [exact Hc|]. split; [exact FF|].
  split; [exact FM|]. split; [exact FS|].
  pose proof (init_with_feed_down offlineEnv offlineEnv offlineEnv freshApp
                HF Hc FF FM FS) as (_ & _ & H & _).
  exact H.
Defined.

Lemma quakesUrl_NaN (env : Env) :
  timeRange env = Some NaN -> quakesUrl env = None.
Proof. intros H. unfold quakesUrl. rewrite H. reflexivity. Qed.

(** A line logged before a statistics refresh changes nothing of what
    the refresh does; it stands before the lines the refresh logs. *)
Lemma updateStatistics_after_log (env : Env) (l : string) (p : Page) :
  let r := updateStatistics env p in
  let rl := updateStatistics env (snd (consoleError l p)) in
  fst rl = fst r /\
  listRegion (snd rl) = listRegion (snd r) /\
  majorRegion (snd rl) = majorRegion (snd r) /\
  statsRegion (snd rl) = statsRegion (snd r) /\
  seenQuakes (shared (snd rl)) = seenQuakes (shared (snd r)) /\
  toasts (shared (snd rl)) = toasts (shared (snd r)) /\
  requests (shared (snd rl)) = requests (shared (snd r)) /\
  exists new,
    consoleErrors (shared (snd r)) = consoleErrors (shared p) ++ new /\
    consoleErrors (shared (snd rl)) = consoleErrors (shared p) ++ l :: new.
Proof.
  assert (Hnil : forall ce : list string,
            exists new, ce = ce ++ new /\ ce ++ [l] = ce ++ l :: new)
    by (intros ce; exists []; rewrite app_nil_r; split; reflexivity).
  assert (Hone : forall (ce : list string) (e : string),
            exists new, ce ++ [e] = ce ++ new /\
                        (ce ++ [l]) ++ [e] = ce ++ l :: new)
    by (intros ce e; exists [e]; rewrite <- app_assoc; split; reflexivity).
  unfold updateStatistics. destruct p as [[seen ts rq ce] lr mr sr].
  destruct (statsUrl (clock0 env)) as [u|];
    [|run_page; repeat split; first [reflexivity | apply Hone]].
  destruct (net env u) as [|[] [| |fs]] eqn:E;
    run_page; rewrite ?E; run_page;
    try (repeat split; first [reflexivity | apply Hone]).
  destruct (scanLargest _) as [lg|]; run_page;
    [ destruct (Qge_bool (l_mag lg) 5);
      destruct (bool_decide (l_id lg ∈ seen)); run_page | ];
    (destruct (initBuckets _ _ _ _) as [b0|]; run_page;
     [destruct (countAll _ b0) as [b|]; run_page|]);
    repeat split; first [reflexivity | apply Hnil | apply Hone].
Qed.

(** X17.  When the time-range selector holds something that is not a
    number, [fetchQuakesAndRender] throws a RangeError before it touches
    the page or makes a request, and a full refresh is rejected with
    that error.  The change handler of the selector leaves the list and
    the highlight as they were and refreshes the statistics all the
    same.  It logs the rejection once: before the lines of the
    statistics refresh when that gets as far as its request (the
    callback runs before the answer is handled), after them when it
    cannot build its request (it has then ended before the handler
    returns). *)
Theorem unreadable_time_range_rejects (envF envM envS : Env) (p : Page) :
  timeRange envF = Some NaN ->
  let p' := onTimeRangeChange envF envS p in
  let pS := snd (updateStatistics envS p) in
  fetchQuakesAndRender envF p = (Throw RangeError, p) /\
  listRegion p' = listRegion p /\
  majorRegion p' = majorRegion p /\
  statsRegion p' = statsRegion pS /\
  requests (shared p') = requests (shared pS) /\
  toasts (shared p') = toasts (shared pS) /\
  (exists new,
     consoleErrors (shared pS) = consoleErrors (shared p) ++ new /\
     consoleErrors (shared p') =
       match statsUrl (clock0 envS) with
       | Some _ => consoleErrors (shared p) ++ EmptyString :: new
       | None => consoleErrors (shared p) ++ new ++ [EmptyString]
       end) /\
  fst (doFullRefresh envF envM envS p) = Rejected RangeError.
Proof.
  intros Hr p' pS.
  assert (Hq : fetchQuakesAndRender envF p = (Throw RangeError, p)).
  { unfold fetchQuakesAndRender. rewrite (quakesUrl_NaN envF Hr).
    reflexivity. }
  split; [exact Hq|].
  pose proof (runOp_untouched OpStatistics envS p) as [Ul Um].
  cbn [runOp] in Ul, Um. fold pS in Ul, Um.
  destruct (updateStatistics_after_log envS EmptyString p)
    as (_ & Hl & Hm & Hs & _ & Ht & Hrq & new & Hc & Hcl).
  fold pS in Hl, Hm, Hs, Ht, Hrq, Hc.
  assert (Hlast :
    fst (doFullRefresh envF envM envS p) = Rejected RangeError).
  { rewrite doFullRefresh_steps. cbv zeta. cbn [runOp]. rewrite Hq.
    reflexivity. }
  unfold p', onTimeRangeChange. rewrite Hq.
  destruct (statsUrl (clock0 envS)) as [u|] eqn:Hu.
  - cbn [catchLog].
    pose proof (runOp_total OpStatistics envS
                  (snd (consoleError EmptyString p)) I) as Hn.
    cbn [runOp] in Hn.
    destruct (updateStatistics envS (snd (consoleError EmptyString p)))
      as [c2 p2].
    cbn [fst snd] in *. subst c2. cbn [settle catchLog].
    split; [rewrite Hl; exact Ul|]. split; [rewrite Hm; exact Um|].
    split; [exact Hs|]. split; [exact Hrq|]. split; [exact Ht|].
    split; [|exact Hlast]. exists new. split; [exact Hc | exact Hcl].
  - pose proof (runOp_total OpStatistics envS p I) as Hn.
    cbn [runOp] in Hn. unfold pS in *.
    destruct (updateStatistics envS p) as [c2 p2].
    cbn [fst snd] in *. subst c2. cbn [settle catchLog].
    destruct p2 as [[seen2 ts2 rq2 ce2] lr2 mr2 sr2]. cbn in *.
    split; [exact Ul|]. split; [exact Um|]. split; [reflexivity|].
    split; [reflexivity|]. split; [reflexivity|].
    split; [|exact Hlast]. exists new. split; [exact Hc|].
    rewrite Hc, <- app_assoc. reflexivity.
Qed.

Lemma unreadable_time_range_rejects_witness :
  let env := {| net := sampleFeed; clock0 := sampleNow;
                clock1 := sampleNow + 400; tz := JsDate.manila;
                timeRange := Some NaN |} in
  timeRange env = Some NaN /\
  fst (doFullRefresh env sampleEnv sampleEnv initialPage)
    = Rejected RangeError.
Proof.
  intros env.
  assert (Hr : timeRange env = Some NaN) by reflexivity.
  split; [exact Hr|].
  pose proof (unreadable_time_range_rejects env sampleEnv sampleEnv
                initialPage Hr) as (_ & _ & _ & _ & _ & _ & _ & H).
  exact H.
Defined.

(** X18.  [loadWeather] returns a promise that is fulfilled exactly
    when the page has the element [weather-data].  With the element, a
    successful answer with a [current_weather] object is shown, and
    every other answer ends in the failure message, the one of an error
    status naming the status.  Without the element the call is rejected
    with a TypeError whatever the answer, since the [catch] block writes
    to the same element. *)
Theorem weather_load_needs_its_element (r : Weather.Outcome)
    (p : Weather.WPage) :
  let out := Weather.loadWeather r p in
  (fst out = Fulfilled <-> is_Some (Weather.weatherData p)) /\
  (Weather.weatherData p = None ->
   fst out = Rejected TypeError /\ Weather.weatherData (snd out) = None) /\
  (is_Some (Weather.weatherData p) ->
   match currentWeatherOf r with
   | Some cw => Weather.weatherData (snd out) = Some (Weather.Shown cw)
   | None => exists err,
       Weather.weatherData (snd out) = Some (Weather.Failed err)
   end) /\
  (forall status body,
     is_Some (Weather.weatherData p) ->
     r = Weather.Response false status body ->
     Weather.weatherData (snd out)
     = Some (Weather.Failed (Error ("HTTP error " ++ pretty status)))).
Proof.
  destruct p as [[v|] lg]; cbv zeta.
  - split; [|split; [|split]].
    + split; [intros _; eexists; reflexivity|]. intros _.
      destruct r as [|[] st [| |[cw|]]]; reflexivity.
    + discriminate.
    + intros _. destruct r as [|[] st [| |[cw|]]]; cbn;
        try reflexivity; eexists; reflexivity.
    + intros status body _ ->. reflexivity.
  - split; [|split; [|split]].
    + split.
      * destruct r as [|[] st [| |[cw|]]]; discriminate.
      * intros [x Hx]. discriminate Hx.
    + intros _. destruct r as [|[] st [| |[cw|]]]; split; reflexivity.
    + intros [x Hx]. discriminate Hx.
    + intros status body [x Hx]. discriminate Hx.
Qed.

(** Every list refresh that gets as far as its request makes exactly
    that one request. *)
Lemma fetchQuakesAndRender_requests (env : Env) (p : Page) (u : Url) :
  quakesUrl env = Some u ->
  requests (shared (snd (fetchQuakesAndRender env p))) =
    requests (shared p) ++ [u].
Proof.
  intros Hu. destruct (net env u) as [|ok [| |[fs|]]] eqn:E.
  4: { destruct ok.
       - destruct (fetchQuakesAndRender_shared env p u fs Hu E)
           as (_ & _ & H & _). exact H.
       - unfold fetchQuakesAndRender. rewrite Hu.
         destruct p as [[seen ts rq ce] lr mr sr].
         run_page; rewrite ?E; run_page; reflexivity. }
  all: unfold fetchQuakesAndRender; rewrite Hu;
    destruct p as [[seen ts rq ce] lr mr sr];
    try destruct ok; run_page; rewrite ?E; run_page; reflexivity.
Qed.

Lemma updateStatistics_requests (env : Env) (p : Page) (u : Url) :
  statsUrl (clock0 env) = Some u ->
  requests (shared (snd (updateStatistics env p))) =
    requests (shared p) ++ [u].
Proof.
  intros Hu. destruct (net env u) as [|ok [| |fs]] eqn:E.
  4: { destruct ok.
       - destruct (updateStatistics_shared env p u fs Hu E)
           as (_ & _ & _ & H & _). exact H.
       - unfold updateStatistics. rewrite Hu.
         destruct p as [[seen ts rq ce] lr mr sr].
         run_page; rewrite ?E; run_page; reflexivity. }
  all: unfold updateStatistics; rewrite Hu;
    destruct p as [[seen ts rq ce] lr mr sr];
    try destruct ok; run_page; rewrite ?E; run_page; reflexivity.
Qed.

(** X19.  A full refresh makes three requests, and a fourth when the
    7-day highlight request comes back without events: the list request
    (limit 500, no magnitude floor), the highlight request (limit 50,
    floor 5), the statistics request (limit 2000, no floor) and the
    30-day fallback of the highlight (limit 200, floor 5). *)
Theorem cycle_makes_three_or_four_requests (envF envM envS : Env) (p : Page)
    (uq u7 u30 us : Url) :
  quakesUrl envF = Some uq ->
  majorUrl (clock0 envM) 7 50 = Some u7 ->
  majorUrl (clock0 envM) 30 200 = Some u30 ->
  statsUrl (clock0 envS) = Some us ->
  let p' := snd (doFullRefresh envF envM envS p) in
  requests (shared p') ≡ₚ
    requests (shared p) ++ [uq; u7; us]
    ++ (if firstEmpty (net envM u7) then [u30] else []) /\
  paramGet "limit" (params uq) = Some (PNum 500) /\
  paramGet "limit" (params u7) = Some (PNum 50) /\
  paramGet "limit" (params u30) = Some (PNum 200) /\
  paramGet "limit" (params us) = Some (PNum 2000) /\
  paramGet "minmagnitude" (params uq) = None /\
  paramGet "minmagnitude" (params u7) = Some (PNum 5) /\
  paramGet "minmagnitude" (params u30) = Some (PNum 5) /\
  paramGet "minmagnitude" (params us) = None.
Proof.
  intros Hq H7 H30 Hs p'. split.
  - unfold p'. rewrite doFullRefresh_steps. cbv zeta. cbn [snd runOp].
    rewrite (updateStatistics_requests envS _ us Hs).
    destruct (updateMajorHighlight_run envM
                (snd (fetchQuakesAndRender envF p)) u7 u30 H7 H30)
      as (_ & -> & _).
    rewrite (fetchQuakesAndRender_requests envF p uq Hq).
    rewrite <- !app_assoc. apply Permutation_app_head. cbn [app].
    apply perm_skip.
    destruct (firstEmpty (net envM u7)); cbn [app].
    + apply perm_skip, perm_swap.
    + reflexivity.
  - unfold quakesUrl in Hq. unfold majorUrl in H7, H30. unfold statsUrl in Hs.
    destruct (JsDate.toISOString (startOfRange _ _)) as [sq|];
      [|discriminate].
    destruct (JsDate.toISOString (JsDate.newDate (clock0 envM - 7 * _ * _ * _ * _)))
      as [s7|]; [|discriminate].
    destruct (JsDate.toISOString (JsDate.newDate (clock0 envM - 30 * _ * _ * _ * _)))
      as [s30|]; [|discriminate].
    destruct (JsDate.toISOString (JsDate.newDate (clock0 envS - _)))
      as [ss|]; [|discriminate].
    injection Hq as <-. injection H7 as <-. injection H30 as <-.
    injection Hs as <-.
    repeat split;
      match goal with
      | |- paramGet _ (params (buildUSGSUrl ?a)) = _ =>
          destruct (buildUSGSUrl_lookup a)
            as (_ & _ & Hl & _ & _ & _ & _ & _ & _ & Hm);
          first [exact Hl | exact Hm]
      end.
Qed.

Lemma cycle_makes_three_or_four_requests_witness :
  let uq := usgsQuery (queryParams "2025-09-25T12:00:00.000Z" 500 None) in
  let u7 := usgsQuery (queryParams "2025-09-25T12:00:00.000Z" 50 (Some 5%Q)) in
  let u30 := usgsQuery (queryParams "2025-09-02T12:00:00.000Z" 200 (Some 5%Q)) in
  let us := usgsQuery (queryParams "2025-09-25T12:00:00.000Z" 2000 None) in
  quakesUrl sampleEnv = Some uq /\
  majorUrl (clock0 sampleEnv) 7 50 = Some u7 /\
  majorUrl (clock0 sampleEnv) 30 200 = Some u30 /\
  statsUrl (clock0 sampleEnv) = Some us /\
  firstEmpty (net sampleEnv u7) = true /\
  requests (shared (snd (doFullRefresh sampleEnv sampleEnv sampleEnv
                           initialPage))) ≡ₚ
    requests (shared initialPage) ++ [uq; u7; us]
    ++ (if firstEmpty (net sampleEnv u7) then [u30] else []).
Proof.
  intros uq u7 u30 us.
  assert (Hq : quakesUrl sampleEnv = Some uq) by reflexivity.
  assert (H7 : majorUrl (clock0 sampleEnv) 7 50 = Some u7) by reflexivity.
  assert (H30 : majorUrl (clock0 sampleEnv) 30 200 = Some u30) by reflexivity.
  assert (Hs : statsUrl (clock0 sampleEnv) = Some us) by reflexivity.
  split; [exact Hq|]. split; [exact H7|]. split; [exact H30|].
  split; [exact Hs|]. split; [reflexivity|].
  pose proof (cycle_makes_three_or_four_requests sampleEnv sampleEnv
                sampleEnv initialPage uq u7 u30 us Hq H7 H30 Hs) as [H _].
  exact H.
Defined.

(** * The list refresh before the statistics *)

Lemma scanLargest_id (fs : list Feature) (l : Largest) :
  scanLargest fs = Some l -> l_id l ∈ batchIds fs.
Proof.
  intros H. destruct (scanLargest_Some fs l H) as (i & f & Hi & _ & -> & _).
  cbn [largestOf l_id]. unfold batchIds.
  apply elem_of_list_to_set, list_elem_of_fmap_2.
  apply (list_elem_of_lookup_2 _ i), Hi.
Qed.

Lemma batchIds_filter (P : Feature -> Prop) `{!forall f, Decision (P f)}
    (fs : list Feature) :
  batchIds (filter P fs) ⊆ batchIds fs.
Proof.
  unfold batchIds. intros i Hi. apply elem_of_list_to_set in Hi.
  apply elem_of_list_to_set. apply list_elem_of_fmap in Hi.
  destruct Hi as (f & -> & Hf). apply list_elem_of_filter in Hf.
  apply list_elem_of_fmap_2, Hf.
Qed.

(** X20.  When a list refresh has succeeded and the statistics answer
    that is handled after it holds no event that the list answer did not
    hold, the statistics refresh shows no Major (24h) toast and adds
    nothing to the seen set: the list refresh has put every identifier
    of its answer into the seen set, recent or not. *)
Theorem listed_events_get_no_major_toast (envF envS : Env) (p : Page)
    (uq us : Url) (fs : list Feature) (fs' : option (list Feature)) :
  quakesUrl envF = Some uq ->
  net envF uq = Response true (Data (Some fs)) ->
  statsUrl (clock0 envS) = Some us ->
  net envS us = Response true (Data fs') ->
  batchIds (default [] fs') ⊆ batchIds fs ->
  let p1 := snd (fetchQuakesAndRender envF p) in
  let p2 := snd (updateStatistics envS p1) in
  toasts (shared p2) = toasts (shared p1) /\
  seenQuakes (shared p2) = seenQuakes (shared p1) /\
  batchIds fs ⊆ seenQuakes (shared p1).
Proof.
  intros Hq Hnq Hs Hns Hsub p1 p2.
  destruct (fetchQuakesAndRender_shared envF p uq fs Hq Hnq)
    as (_ & Hseen & _).
  fold p1 in Hseen.
  destruct (updateStatistics_shared envS p1 us fs' Hs Hns)
    as (_ & Ht & Hs2 & _).
  fold p2 in Ht, Hs2.
  assert (Hnone : majorToAnnounce (clock1 envS) (seenQuakes (shared p1))
                                  (default [] fs') = None).
  { unfold majorToAnnounce.
    destruct (scanLargest _) as [l|] eqn:Hl; [|reflexivity].
    apply scanLargest_id in Hl. apply batchIds_filter in Hl.
    rewrite bool_decide_eq_false_2; [rewrite andb_false_r; reflexivity|].
    intros Hno. apply Hno. rewrite Hseen.
    apply elem_of_union_l, Hsub, Hl. }
  rewrite Hnone in Ht, Hs2. rewrite app_nil_r in Ht.
  split; [exact Ht|]. split; [exact Hs2|].
  rewrite Hseen. apply union_subseteq_l.
Qed.

Lemma listed_events_get_no_major_toast_witness :
  let uq := usgsQuery (queryParams "2025-09-25T12:00:00.000Z" 500 None) in
  let us := usgsQuery (queryParams "2025-09-25T12:00:00.000Z" 2000 None) in
  let fs := [ sampleEvent "us7000a" (Some 6.2%Q) (sampleNow - 1000);
              sampleEvent "us7000b" (Some 4.9%Q) (sampleNow - 2000);
              sampleEvent "us7000c" None (sampleNow - 3 * 86400000) ] in
  let p1 := snd (fetchQuakesAndRender sampleEnv initialPage) in
  quakesUrl sampleEnv = Some uq /\
  net sampleEnv uq = Response true (Data (Some fs)) /\
  statsUrl (clock0 sampleEnv) = Some us /\
  net sampleEnv us = Response true (Data (Some fs)) /\
  batchIds (default [] (Some fs)) ⊆ batchIds fs /\
  toasts (shared (snd (updateStatistics sampleEnv p1))) = toasts (shared p1).
Proof.
  intros uq us fs p1.
  assert (Hq : quakesUrl sampleEnv = Some uq) by reflexivity.
  assert (Hnq : net sampleEnv uq = Response true (Data (Some fs)))
    by reflexivity.
  assert (Hs : statsUrl (clock0 sampleEnv) = Some us) by reflexivity.
  assert (Hns : net sampleEnv us = Response true (Data (Some fs)))
    by reflexivity.
  assert (Hsub : batchIds (default [] (Some fs)) ⊆ batchIds fs)
    by reflexivity.
  split; [exact Hq|]. split; [exact Hnq|]. split; [exact Hs|].
  split; [exact Hns|]. split; [exact Hsub|].
  pose proof (listed_events_get_no_major_toast sampleEnv sampleEnv
                initialPage uq us fs (Some fs) Hq Hnq Hs Hns Hsub)
    as [H _].
  exact H.
Defined.

Lemma Qtrunc_whole (q : Q) (z : Z) : (q == inject_Z z)%Q -> Qtrunc q = z.
Proof.
  intros H. unfold Qtrunc. destruct (Qle_bool 0 q).
  - rewrite (Qfloor_comp _ _ H). apply Qfloor_Z.
  - rewrite (Qceiling_comp _ _ H). apply Qceiling_Z.
Qed.

(** X21.  The list request asks for the events since the selected
    number of days before the clock, newest first, at most 500 of them
    and without a magnitude floor; on a page without the time-range
    selector it asks for 7 days. *)
Theorem list_request_covers_selected_days (env : Env) (d : Z) :
  saneClock (clock0 env) ->
  0 <= d <= 36500 ->
  timeRange env = Some (Num (inject_Z d)) \/ (timeRange env = None /\ d = 7) ->
  quakesUrl env =
  Some (usgsQuery (queryParams
          (JsDate.isoOfTime (clock0 env - d * 24 * 60 * 60 * 1000)) 500 None)).
Proof.
  intros Hn Hd Hr.
  assert (Hdef : default (Num 7) (timeRange env) = Num (inject_Z d)).
  { destruct Hr as [->|[-> ->]]; reflexivity. }
  unfold quakesUrl. rewrite Hdef. unfold startOfRange, newDateNum.
  rewrite (Qtrunc_whole _ (clock0 env - d * 24 * 60 * 60 * 1000)).
  - unfold saneClock in Hn.
    rewrite TimeClip_in_range
      by (unfold JsDate.maxTimeValue in *; lia).
    cbn [JsDate.toISOString]. unfold buildUSGSUrl.
    cbn [startTimeISO endTimeISO orderby limit minmag bbox].
    rewrite isoOfTime_truthy. reflexivity.
  - unfold Qeq, Qminus, Qplus, Qmult, Qopp, inject_Z. simpl. lia.
Qed.

Lemma list_request_covers_selected_days_witness :
  saneClock (clock0 sampleEnv) /\ 0 <= 7 <= 36500 /\
  (timeRange sampleEnv = Some (Num (inject_Z 7))
   \/ (timeRange sampleEnv = None /\ 7 = 7)) /\
  quakesUrl sampleEnv =
  Some (usgsQuery (queryParams
          (JsDate.isoOfTime (clock0 sampleEnv - 7 * 24 * 60 * 60 * 1000))
          500 None)).
Proof.
  assert (Hn : saneClock (clock0 sampleEnv)) by exact (proj1 sampleEnv_sane).
  assert (Hd : 0 <= 7 <= 36500) by lia.
  assert (Hr : timeRange sampleEnv = Some (Num (inject_Z 7))
               \/ (timeRange sampleEnv = None /\ 7 = 7))
    by (left; reflexivity).
  split; [exact Hn|]. split; [exact Hd|]. split; [exact Hr|].
  exact (list_request_covers_selected_days sampleEnv 7 Hn Hd Hr).
Defined.
